(** * Fitness-subscription site: a shallow embedding of the business rules

    The Django application under [testing_Site/accounts] is embedded as
    Rocq functions: model methods become functions on records, tables
    become lists of rows guarded by their uniqueness constraints, views
    become state-passing functions that return a response together with
    the new state, and Python exceptions become an explicit result type.

    Layout: part I holds the embedding (one module per Python module or
    model class, with the names of the source), part II the properties of
    the specification, part III further properties of the code. *)

From Stdlib Require Import ZArith QArith Qpower Qabs Qfield List String Ascii Bool Lia.
From stdpp Require Import base option list strings gmap.

Local Open Scope Z_scope.

(* ===================================================================== *)
(** * Part I: the embedding                                               *)
(* ===================================================================== *)

(** ** [datetime] and [timedelta]

    An aware [datetime] is the number of microseconds since the epoch.
    A [timedelta] keeps Python's normal form: [0 <= seconds < 86400] and
    [0 <= microseconds < 1000000], the sign living in [days] alone. *)
Module Time.

Definition datetime := Z.

Record timedelta := mk_timedelta {
  days : Z;
  seconds : Z;
  microseconds : Z
}.

Definition US_PER_SECOND : Z := 1000000.
Definition SECONDS_PER_DAY : Z := 86400.
Definition US_PER_DAY : Z := SECONDS_PER_DAY * US_PER_SECOND.

(** [timedelta(days=d, seconds=s, microseconds=us)]: the carries are
    taken with [divmod], which floors. *)
Definition timedelta_new (d s us : Z) : timedelta :=
  let carry_s := us / US_PER_SECOND in
  let us' := us mod US_PER_SECOND in
  let s1 := s + carry_s in
  let carry_d := s1 / SECONDS_PER_DAY in
  let s' := s1 mod SECONDS_PER_DAY in
  mk_timedelta (d + carry_d) s' us'.

Definition timedelta_days (n : Z) : timedelta := timedelta_new n 0 0.
Definition timedelta_minutes (n : Z) : timedelta := timedelta_new 0 (n * 60) 0.

Definition total_microseconds (td : timedelta) : Z :=
  (days td * SECONDS_PER_DAY + seconds td) * US_PER_SECOND + microseconds td.

(** [dt + td] and [dt1 - dt2]. *)
Definition dt_add (dt : datetime) (td : timedelta) : datetime :=
  dt + total_microseconds td.

Definition dt_sub (a b : datetime) : timedelta :=
  timedelta_new 0 0 (a - b).

End Time.

(** Python values that are either an [int] or [float('inf')]. *)
Inductive py_number :=
| PyInt (n : Z)
| PyInf.

(** ** Exceptions

    A Python exception is its class together with its message; a
    computation either returns or raises. *)
Inductive exn_class :=
| IntegrityError
| MultipleObjectsReturned
| DoesNotExist
| Http404
| ValueError
| SMTPException
| DivisionByZero
| InvalidOperation
| OSError.

Record exn := Exn { exn_class_of : exn_class; exn_str : string }.

Inductive result (A : Type) :=
| Ok (a : A)
| Raise (e : exn).
Arguments Ok {A} a.
Arguments Raise {A} e.

(** ** [decimal.Decimal]

    A finite [Decimal] is a sign, a coefficient and an exponent; its value
    is [(-1)^sign * coefficient * 10^exponent]. Arithmetic runs in the
    default context: 28 significant digits, [ROUND_HALF_EVEN], division
    by zero and invalid operations trapped (raised). The exponent limits of
    the context ([Emax = 999999]) are far from any value of this
    application and are left out. *)
Module Decimal.

Record t := mk {
  sign : bool;
  coefficient : N;
  exponent : Z
}.

Definition prec : Z := 28.

(** [len(str(n))]. *)
Fixpoint ndigits_fuel (fuel : nat) (n : N) : Z :=
  match fuel with
  | O => 1
  | S fuel' => if (n <? 10)%N then 1 else 1 + ndigits_fuel fuel' (n / 10)%N
  end.

Definition ndigits (n : N) : Z := ndigits_fuel (S (N.to_nat (N.log2 n))) n.

Definition pow10 (k : Z) : N := (10 ^ Z.to_N k)%N.

(** [Decimal(n)] for an [int]. *)
Definition of_int (n : Z) : t := mk (n <? 0) (Z.abs_N n) 0.

(** [bool(d)]: a [Decimal] is falsy exactly when it is zero. *)
Definition truthy (d : t) : bool := negb (coefficient d =? 0)%N.

(** [Decimal._fix]: round to [prec] digits, half to even. [lo] is what
    the dropped digits are worth, [half] half a unit of the last kept
    digit. When rounding up carries into a 29th digit, the last digit (a
    zero) is dropped and the exponent raised. *)
Definition fix_ (d : t) : t :=
  let len := ndigits (coefficient d) in
  if (coefficient d =? 0)%N then d
  else if len <=? prec then d
  else
    let dropped := len - prec in
    let p := pow10 dropped in
    let hi := (coefficient d / p)%N in
    let lo := (coefficient d mod p)%N in
    let half := (p / 2)%N in
    let up := (half <? lo)%N || ((lo =? half)%N && N.odd hi) in
    let c := if up then (hi + 1)%N else hi in
    if prec <? ndigits c
    then mk (sign d) (c / 10)%N (exponent d + dropped + 1)
    else mk (sign d) c (exponent d + dropped).

(** [Decimal.__mul__]. *)
Definition mul (a b : t) : t :=
  fix_ (mk (xorb (sign a) (sign b))
           (coefficient a * coefficient b)%N
           (exponent a + exponent b)).

(** The loop of [__truediv__] that strips trailing zeros of an exact
    quotient while the exponent is below the ideal one. *)
Fixpoint strip_zeros (fuel : nat) (coeff : N) (exp ideal_exp : Z) : N * Z :=
  match fuel with
  | O => (coeff, exp)
  | S fuel' =>
      if (exp <? ideal_exp) && (coeff mod 10 =? 0)%N
      then strip_zeros fuel' (coeff / 10)%N (exp + 1) ideal_exp
      else (coeff, exp)
  end.

(** [Decimal.__truediv__]. *)
Definition truediv (a b : t) : result t :=
  let sgn := xorb (sign a) (sign b) in
  if (coefficient b =? 0)%N then
    if (coefficient a =? 0)%N
    then Raise (Exn InvalidOperation "0 / 0")
    else Raise (Exn DivisionByZero "x / 0")
  else if (coefficient a =? 0)%N then
    Ok (fix_ (mk sgn 0%N (exponent a - exponent b)))
  else
    let shift := ndigits (coefficient b) - ndigits (coefficient a) + prec + 1 in
    let exp := exponent a - exponent b - shift in
    let '(coeff, remainder) :=
      if 0 <=? shift
      then N.div_eucl (coefficient a * pow10 shift) (coefficient b)
      else N.div_eucl (coefficient a) (coefficient b * pow10 (- shift)) in
    if negb (remainder =? 0)%N then
      let coeff' := if (coeff mod 5 =? 0)%N then (coeff + 1)%N else coeff in
      Ok (fix_ (mk sgn coeff' exp))
    else
      let ideal_exp := exponent a - exponent b in
      let '(coeff', exp') :=
        strip_zeros (Z.to_nat (ideal_exp - exp)) coeff exp ideal_exp in
      Ok (fix_ (mk sgn coeff' exp')).

(** The number a [Decimal] stands for, and the weight of the last digit
    of its coefficient. *)
Definition signed_coefficient (d : t) : Z :=
  if sign d then - Z.of_N (coefficient d) else Z.of_N (coefficient d).

Definition value (d : t) : Q :=
  (inject_Z (signed_coefficient d) * (10 # 1) ^ exponent d)%Q.

Definition ulp (d : t) : Q := ((10 # 1) ^ exponent d)%Q.

End Decimal.

(** ** Tables

    A table is the list of its rows in iteration order. [save_base] is
    what [Model.save] does once the model's own [save] has run: an UPDATE
    of the row carrying the instance's primary key, or else an INSERT,
    which numbers a new instance with a key above every key of the table.
    Uniqueness constraints are checked by the callers below. *)
Section Table.
Context {R : Type} (get_pk : R -> option nat) (set_pk : option nat -> R -> R).

Definition fresh_pk (table : list R) : nat :=
  S (foldr Nat.max O (omap get_pk table)).

Definition has_pk (k : nat) (r : R) : bool := bool_decide (get_pk r = Some k).

Definition save_base (r : R) (table : list R) : R * list R :=
  match get_pk r with
  | Some k =>
      if existsb (has_pk k) table
      then (r, map (fun row => if has_pk k row then r else row) table)
      else (r, table ++ [r])
  | None =>
      let r' := set_pk (Some (fresh_pk table)) r in
      (r', table ++ [r'])
  end.

End Table.

(** ** models.py *)

Module SubscriptionPlan.

Record t := mk {
  id : nat;
  name : string;
  price : Decimal.t;
  duration_days : Z;
  is_active : bool;
  trainer_support : bool;
  premium_content : bool
}.

(** [monthly_equivalent]: [(self.price * 30) / self.duration_days]. *)
Definition monthly_equivalent (p : t) : result Decimal.t :=
  Decimal.truediv (Decimal.mul (price p) (Decimal.of_int 30))
                  (Decimal.of_int (duration_days p)).

End SubscriptionPlan.

Module CustomerSubscription.

Record t := mk {
  pk : option nat;
  customer : nat;
  plan : SubscriptionPlan.t;
  start_date : Time.datetime;
  end_date : option Time.datetime;
  is_active : bool;
  auto_renew : bool
}.

Definition set_end_date (e : option Time.datetime) (s : t) : t :=
  mk (pk s) (customer s) (plan s) (start_date s) e (is_active s) (auto_renew s).

Definition set_is_active (b : bool) (s : t) : t :=
  mk (pk s) (customer s) (plan s) (start_date s) (end_date s) b (auto_renew s).

Definition set_pk (k : option nat) (s : t) : t :=
  mk k (customer s) (plan s) (start_date s) (end_date s) (is_active s) (auto_renew s).

Definition set_auto_renew (b : bool) (s : t) : t :=
  mk (pk s) (customer s) (plan s) (start_date s) (end_date s) (is_active s) b.

(** [is_expired], with [now] the value of [timezone.now()]. *)
Definition is_expired (now : Time.datetime) (s : t) : bool :=
  match end_date s with
  | None => false
  | Some e => now >? e
  end.

(** [days_remaining]. *)
Definition days_remaining (now : Time.datetime) (s : t) : py_number :=
  match end_date s with
  | None => PyInf
  | Some e =>
      let remaining := Time.days (Time.dt_sub e now) in
      PyInt (Z.max 0 remaining)
  end.

End CustomerSubscription.

Module User.

Record t := mk {
  id : nat;
  username : string;
  email : string;
  password : string;
  first_name : string;
  last_name : string
}.

(** [get_full_name()], for names without surrounding blanks. *)
Definition get_full_name (u : t) : string :=
  if String.eqb (last_name u) "" then first_name u
  else if String.eqb (first_name u) "" then last_name u
  else (first_name u ++ " " ++ last_name u)%string.

End User.

Module Profile.

Record t := mk {
  id : nat;
  user : nat;
  phone : string;
  role : string
}.

End Profile.

Module Customer.

Record t := mk {
  id : nat;
  profile : nat
}.

End Customer.

Module Trainer.

Record t := mk {
  id : nat;
  profile : nat;
  address : string;
  is_verified : bool
}.

End Trainer.

Module Payment.

(** [transaction_id] is the pair that the source formats into
    [TXN_<%Y%m%d%H%M%S of now>_<customer.id>]: the time in whole seconds and
    the customer; two such strings are equal exactly when the pairs are. *)
Record t := mk {
  customer : nat;
  subscription : option nat;
  amount : Decimal.t;
  payment_method : string;
  status : string;
  transaction_id : Z * nat
}.

End Payment.

Module TrainerAssignment.

Record t := mk {
  pk : option nat;
  customer : nat;
  trainer : nat;
  assigned_date : Time.datetime;
  is_active : bool;
  notes : string
}.

Definition set_pk (v : option nat) (x : t) : t :=
  mk v (customer x) (trainer x) (assigned_date x) (is_active x) (notes x).


Definition set_is_active (v : bool) (x : t) : t :=
  mk (pk x) (customer x) (trainer x) (assigned_date x) v (notes x).


End TrainerAssignment.

Module Notification.

Record t := mk {
  customer : nat;
  title : string;
  message : string;
  notification_type : string;
  is_read : bool
}.

End Notification.

Module Session.

(** [session_date] is a day number, [session_time] a time of day in
    minutes (the view parses [%H:%M]). *)
Record t := mk {
  pk : option nat;
  customer : nat;
  trainer : nat;
  session_date : Z;
  session_time : Z;
  duration_minutes : Z;
  session_type : string;
  status : string;
  notes : string;
  trainer_notes : string
}.

Definition set_pk (v : option nat) (x : t) : t :=
  mk v (customer x) (trainer x) (session_date x) (session_time x) (duration_minutes x) (session_type x) (status x) (notes x) (trainer_notes x).

Definition set_status (v : string) (x : t) : t :=
  mk (pk x) (customer x) (trainer x) (session_date x) (session_time x) (duration_minutes x) (session_type x) v (notes x) (trainer_notes x).

Definition set_trainer_notes (v : string) (x : t) : t :=
  mk (pk x) (customer x) (trainer x) (session_date x) (session_time x) (duration_minutes x) (session_type x) (status x) (notes x) v.

End Session.

Module Resource.

(** [file] is the [FieldFile], when one is attached: its name and what
    [read()] gives, the bytes or the exception of a missing file. *)
Record t := mk {
  id : nat;
  title : string;
  is_premium : bool;
  is_active : bool;
  file : option (string * result string);
  external_url : option string;
  file_url : option string
}.

End Resource.

Module Goal.

(** [target_value] and [current_value] carry the numeric value of the
    field (a [Decimal] read from the database, a [float] once a view has
    assigned one); Python compares the two exactly, hence [Q]. *)
Record t := mk {
  pk : option nat;
  customer : nat;
  title : string;
  target_value : option Q;
  current_value : Q;
  status : string;
  is_active : bool;
  is_completed : bool;
  completed_at : option Time.datetime
}.

Definition set_pk (v : option nat) (g : t) : t :=
  mk v (customer g) (title g) (target_value g) (current_value g)
     (status g) (is_active g) (is_completed g) (completed_at g).

Definition set_status (v : string) (g : t) : t :=
  mk (pk g) (customer g) (title g) (target_value g) (current_value g)
     v (is_active g) (is_completed g) (completed_at g).

Definition set_current_value (v : Q) (g : t) : t :=
  mk (pk g) (customer g) (title g) (target_value g) v
     (status g) (is_active g) (is_completed g) (completed_at g).

Definition set_completed_at (v : option Time.datetime) (g : t) : t :=
  mk (pk g) (customer g) (title g) (target_value g) (current_value g)
     (status g) (is_active g) (is_completed g) v.

Definition set_flags (a c : bool) (g : t) : t :=
  mk (pk g) (customer g) (title g) (target_value g) (current_value g)
     (status g) a c (completed_at g).

(** [save]: the two compatibility flags are recomputed from [status],
    then [super().save()] writes the row. The instance comes back as
    Python leaves [self]. *)
Definition save (g : t) (table : list t) : t * list t :=
  let g1 := set_flags (bool_decide (status g = "active"%string))
                      (bool_decide (status g = "completed"%string)) g in
  save_base pk set_pk g1 table.

End Goal.

Module Db.

(** The tables of the application. *)
Record t := mk {
  users : list User.t;
  profiles : list Profile.t;
  customers : list Customer.t;
  trainers : list Trainer.t;
  plans : list SubscriptionPlan.t;
  subscriptions : list CustomerSubscription.t;
  payments : list Payment.t;
  assignments : list TrainerAssignment.t;
  goals : list Goal.t;
  resources : list Resource.t;
  notifications : list Notification.t;
  sessions : list Session.t
}.

Definition set_users (v : list User.t) (x : t) : t :=
  mk v (profiles x) (customers x) (trainers x) (plans x) (subscriptions x)
     (payments x) (assignments x) (goals x) (resources x)
     (notifications x) (sessions x).

Definition set_profiles (v : list Profile.t) (x : t) : t :=
  mk (users x) v (customers x) (trainers x) (plans x) (subscriptions x)
     (payments x) (assignments x) (goals x) (resources x)
     (notifications x) (sessions x).

Definition set_customers (v : list Customer.t) (x : t) : t :=
  mk (users x) (profiles x) v (trainers x) (plans x) (subscriptions x)
     (payments x) (assignments x) (goals x) (resources x)
     (notifications x) (sessions x).

Definition set_trainers (v : list Trainer.t) (x : t) : t :=
  mk (users x) (profiles x) (customers x) v (plans x) (subscriptions x)
     (payments x) (assignments x) (goals x) (resources x)
     (notifications x) (sessions x).

Definition set_plans (v : list SubscriptionPlan.t) (x : t) : t :=
  mk (users x) (profiles x) (customers x) (trainers x) v (subscriptions x)
     (payments x) (assignments x) (goals x) (resources x)
     (notifications x) (sessions x).

Definition set_subscriptions (v : list CustomerSubscription.t) (x : t) : t :=
  mk (users x) (profiles x) (customers x) (trainers x) (plans x) v
     (payments x) (assignments x) (goals x) (resources x)
     (notifications x) (sessions x).


Definition set_assignments (v : list TrainerAssignment.t) (x : t) : t :=
  mk (users x) (profiles x) (customers x) (trainers x) (plans x)
     (subscriptions x) (payments x) v (goals x) (resources x)
     (notifications x) (sessions x).

Definition set_goals (v : list Goal.t) (x : t) : t :=
  mk (users x) (profiles x) (customers x) (trainers x) (plans x)
     (subscriptions x) (payments x) (assignments x) v (resources x)
     (notifications x) (sessions x).

Definition set_resources (v : list Resource.t) (x : t) : t :=
  mk (users x) (profiles x) (customers x) (trainers x) (plans x)
     (subscriptions x) (payments x) (assignments x) (goals x) v
     (notifications x) (sessions x).

Definition set_notifications (v : list Notification.t) (x : t) : t :=
  mk (users x) (profiles x) (customers x) (trainers x) (plans x)
     (subscriptions x) (payments x) (assignments x) (goals x)
     (resources x) v (sessions x).

Definition set_sessions (v : list Session.t) (x : t) : t :=
  mk (users x) (profiles x) (customers x) (trainers x) (plans x)
     (subscriptions x) (payments x) (assignments x) (goals x)
     (resources x) (notifications x) v.

End Db.

(** ** The world a view runs in *)

Module SignupData.

(** The dict kept under [request.session['signup_data']]. *)
Record t := mk {
  username : string;
  email : string;
  password : string;
  phone : string;
  address : option string;
  role : string
}.

End SignupData.

(** What the views store in [request.session]: strings, ints, the dict of
    the signup form, and the ISO text of a datetime, which
    [datetime.fromisoformat] reads back as the datetime it was made of. *)
Inductive session_value :=
| SvStr (s : string)
| SvInt (n : Z)
| SvIso (dt : Time.datetime)
| SvSignup (d : SignupData.t).

Inductive level := SUCCESS | ERROR | INFO.

Record Email := mkEmail {
  subject : string;
  body : string;
  from_email : string;
  recipient_list : list string
}.

Module World.

(** The database, the session and flash messages of the client, the mail
    that left, and the three things a view cannot decide: what the clock
    reads at each call of [timezone.now()], what the random generator
    draws, and whether the mail server takes a message. *)
Record t := mk {
  db : Db.t;
  session : gmap string session_value;
  flash : list (level * string);
  outbox : list Email;
  tick : nat;
  clock : nat -> Time.datetime;
  draws : nat;
  entropy : nat -> Z;
  smtp_ok : Email -> bool
}.

Definition set_db (v : Db.t) (x : t) : t :=
  mk v (session x) (flash x) (outbox x) (tick x) (clock x) (draws x)
     (entropy x) (smtp_ok x).

Definition set_session (v : gmap string session_value) (x : t) : t :=
  mk (db x) v (flash x) (outbox x) (tick x) (clock x) (draws x)
     (entropy x) (smtp_ok x).

Definition set_flash (v : list (level * string)) (x : t) : t :=
  mk (db x) (session x) v (outbox x) (tick x) (clock x) (draws x)
     (entropy x) (smtp_ok x).

Definition set_outbox (v : list Email) (x : t) : t :=
  mk (db x) (session x) (flash x) v (tick x) (clock x) (draws x)
     (entropy x) (smtp_ok x).

Definition set_tick (v : nat) (x : t) : t :=
  mk (db x) (session x) (flash x) (outbox x) v (clock x) (draws x)
     (entropy x) (smtp_ok x).

Definition set_clock (v : nat -> Time.datetime) (x : t) : t :=
  mk (db x) (session x) (flash x) (outbox x) (tick x) v (draws x)
     (entropy x) (smtp_ok x).

Definition set_draws (v : nat) (x : t) : t :=
  mk (db x) (session x) (flash x) (outbox x) (tick x) (clock x) v
     (entropy x) (smtp_ok x).

Definition set_entropy (v : nat -> Z) (x : t) : t :=
  mk (db x) (session x) (flash x) (outbox x) (tick x) (clock x)
     (draws x) v (smtp_ok x).


End World.

(** ** The monad of views: state and exceptions *)

Definition M (A : Type) : Type := World.t -> result A * World.t.

#[global] Instance M_ret : MRet M := fun A a w => (Ok a, w).

#[global] Instance M_bind : MBind M := fun A B f m w =>
  match m w with
  | (Ok a, w') => f a w'
  | (Raise e, w') => (Raise e, w')
  end.

Definition raise {A : Type} (e : exn) : M A := fun w => (Raise e, w).

(** [try: m except Exception as e: h e]. What [m] did before it raised
    stays done. *)
Definition try_except {A : Type} (m : M A) (h : exn -> M A) : M A := fun w =>
  match m w with
  | (Ok a, w') => (Ok a, w')
  | (Raise e, w') => h e w'
  end.

Definition get_db : M Db.t := fun w => (Ok (World.db w), w).
Definition put_db (d : Db.t) : M unit := fun w => (Ok tt, World.set_db d w).
Definition modify_db (f : Db.t -> Db.t) : M unit :=
  fun w => (Ok tt, World.set_db (f (World.db w)) w).

(** [timezone.now()]: every call reads the clock once more. *)
Definition timezone_now : M Time.datetime := fun w =>
  (Ok (World.clock w (World.tick w)), World.set_tick (S (World.tick w)) w).

(** [random.randint(a, b)]. *)
Definition randint (a b : Z) : M Z := fun w =>
  (Ok (a + World.entropy w (World.draws w) mod (b - a + 1)),
   World.set_draws (S (World.draws w)) w).

(** [messages.success], [messages.error], [messages.info]. *)
Definition messages_add (l : level) (text : string) : M unit := fun w =>
  (Ok tt, World.set_flash (World.flash w ++ [(l, text)]) w).

(** [send_mail(subject, message, from_email, recipient_list,
    fail_silently)]: the number of messages delivered; when the server
    refuses, [SMTPException] unless [fail_silently]. *)
Definition send_mail (subj msg sender : string) (to : list string)
    (fail_silently : bool) : M Z := fun w =>
  let m := mkEmail subj msg sender to in
  if World.smtp_ok w m then (Ok 1, World.set_outbox (World.outbox w ++ [m]) w)
  else if fail_silently then (Ok 0, w)
  else (Raise (Exn SMTPException "connection refused"), w).

(** [Notification.objects.create]. *)
Definition Notification_create (n : Notification.t) : M unit :=
  modify_db (fun d => Db.set_notifications (Db.notifications d ++ [n]) d).

(** ** Responses *)
Inductive context_value :=
| CvStr (s : string)
| CvBool (b : bool)
| CvIso (dt : Time.datetime)
| CvNone.

Inductive response :=
| Redirect (to : string)
| Render (template : string) (context : list (string * context_value))
| HttpResponse (content : string) (content_type : string) (content_disposition : string)
| JsonResponse (data : list (string * context_value)).

(** [Model.save] under the uniqueness constraints of the model: a row
    other than the instance's own that clashes with it makes the database
    raise [IntegrityError], and nothing is written. *)
Definition save_checked {R : Type} (get_pk : R -> option nat)
    (set_pk : option nat -> R -> R) (clash : R -> R -> bool) (msg : string)
    (table : Db.t -> list R) (set_table : list R -> Db.t -> Db.t) (r : R) : M R :=
  fun w =>
    let rows := table (World.db w) in
    if existsb (fun row => clash r row && negb (bool_decide (get_pk row = get_pk r))) rows
    then (Raise (Exn IntegrityError msg), w)
    else
      let saved := save_base get_pk set_pk r rows in
      (Ok saved.1, World.set_db (set_table saved.2 (World.db w)) w).

(** [queryset.order_by(key)]: rows come out by ascending key, rows of
    equal key in the order they had ([insert_by] puts a row before the
    first row whose key is not smaller, and rows are inserted from the
    last to the first). *)
Fixpoint insert_by {A : Type} (key : A -> nat) (x : A) (l : list A) : list A :=
  match l with
  | [] => [x]
  | y :: l' => if (key x <=? key y)%nat then x :: l else y :: insert_by key x l'
  end.

Definition order_by {A : Type} (key : A -> nat) (l : list A) : list A :=
  foldr (insert_by key) [] l.

(** ** models.py: the methods that write *)
Module models.

(** [CustomerSubscription.save]. The one-to-one field makes [customer]
    unique. The clock is read by [is_expired], and only when there is an
    [end_date]. *)
Definition CustomerSubscription_save (s : CustomerSubscription.t)
  : M CustomerSubscription.t :=
  let duration := SubscriptionPlan.duration_days (CustomerSubscription.plan s) in
  let s :=
    match CustomerSubscription.pk s with
    | None =>
        if negb (duration =? 0) && (duration >? 0)
        then CustomerSubscription.set_end_date
               (Some (Time.dt_add (CustomerSubscription.start_date s)
                                  (Time.timedelta_days duration))) s
        else s
    | Some _ => s
    end in
  s ← match CustomerSubscription.end_date s with
      | Some _ =>
          now ← timezone_now;
          mret (if CustomerSubscription.is_expired now s
                then CustomerSubscription.set_is_active false s else s)
      | None => mret s
      end;
  save_checked CustomerSubscription.pk CustomerSubscription.set_pk
    (fun a b => Nat.eqb (CustomerSubscription.customer a) (CustomerSubscription.customer b))
    "UNIQUE constraint failed: customer_subscriptions.customer_id"
    Db.subscriptions Db.set_subscriptions s.


(** [CustomerSubscription.cancel_subscription()]. *)
Definition CustomerSubscription_cancel_subscription (s : CustomerSubscription.t)
  : M CustomerSubscription.t :=
  CustomerSubscription_save
    (CustomerSubscription.set_auto_renew false
       (CustomerSubscription.set_is_active false s)).

(** [TrainerAssignment.save], [customer] unique as well. *)
Definition TrainerAssignment_save (a : TrainerAssignment.t) : M TrainerAssignment.t :=
  save_checked TrainerAssignment.pk TrainerAssignment.set_pk
    (fun a b => Nat.eqb (TrainerAssignment.customer a) (TrainerAssignment.customer b))
    "UNIQUE constraint failed: accounts_trainerassignment.customer_id"
    Db.assignments Db.set_assignments a.


(** [Session.objects.create], [(trainer, session_date, session_time)]
    unique together. *)
Definition Session_save (x : Session.t) : M Session.t :=
  save_checked Session.pk Session.set_pk
    (fun a b => Nat.eqb (Session.trainer a) (Session.trainer b)
                && (Session.session_date a =? Session.session_date b)
                && (Session.session_time a =? Session.session_time b))
    "UNIQUE constraint failed: accounts_session.trainer_id, session_date, session_time"
    Db.sessions Db.set_sessions x.

End models.

(** ** The ORM calls the views make *)

(** [Model.objects.get(...)] over the rows that pass the filter. *)
Definition objects_get {R : Type} (rows : list R) : result R :=
  match rows with
  | [] => Raise (Exn DoesNotExist "matching query does not exist")
  | [r] => Ok r
  | _ :: _ :: _ => Raise (Exn MultipleObjectsReturned "get() returned more than one row")
  end.

(** [get_object_or_404]: [DoesNotExist] becomes [Http404]. *)
Definition get_object_or_404 {R : Type} (rows : list R) : M R := fun w =>
  match objects_get rows with
  | Ok r => (Ok r, w)
  | Raise e =>
      match exn_class_of e with
      | DoesNotExist => (Raise (Exn Http404 "No object matches the given query."), w)
      | _ => (Raise e, w)
      end
  end.

(** [getattr(customer, 'subscription', None)] and the other reverse
    one-to-one accessors: the default covers the missing row only. *)
Definition related_or_none {R : Type} (rows : list R) : M (option R) := fun w =>
  match objects_get rows with
  | Ok r => (Ok (Some r), w)
  | Raise e =>
      match exn_class_of e with
      | DoesNotExist => (Ok None, w)
      | _ => (Raise e, w)
      end
  end.


Inductive http_method := GET | POST.

Definition subscription_of (d : Db.t) (c : Customer.t) : list CustomerSubscription.t :=
  filter (fun s => Nat.eqb (CustomerSubscription.customer s) (Customer.id c))
         (Db.subscriptions d).

Definition assignment_of (d : Db.t) (c : Customer.t) : list TrainerAssignment.t :=
  filter (fun a => Nat.eqb (TrainerAssignment.customer a) (Customer.id c))
         (Db.assignments d).

(** Truth value of an optional string ([None] and [''] are falsy). *)
Definition str_truthy (o : option string) : bool :=
  match o with
  | Some s => negb (String.eqb s "")
  | None => false
  end.

(** The one-character string holding a double quote. *)
Definition dquote : string := String (Ascii.ascii_of_nat 34) EmptyString.

(** [name.split("/")[-1]]. *)
Fixpoint last_segment (acc : string) (s : string) : string :=
  match s with
  | EmptyString => acc
  | String c rest =>
      if Ascii.eqb c "/"%char then last_segment EmptyString rest
      else last_segment (acc ++ String c EmptyString)%string rest
  end.

(** ** dashboard_views.py *)
Module dashboard_views.

(** [get_customer_or_redirect(user)], for the logged-in user [user]:
    the customer, or the redirect to the login page. *)
Definition get_customer_or_redirect (d : Db.t) (user : nat) : Customer.t + response :=
  match filter (fun p => Nat.eqb (Profile.user p) user) (Db.profiles d) with
  | [p] =>
      if negb (String.eqb (Profile.role p) "customer") then inr (Redirect "login")
      else
        match filter (fun c => Nat.eqb (Customer.profile c) (Profile.id p)) (Db.customers d) with
        | [c] => inl c
        | _ => inr (Redirect "login")
        end
  | _ => inr (Redirect "login")
  end.

(** [download_resource(request, resource_id)]. *)
Definition download_resource (user : nat) (resource_id : nat) : M response :=
  d ← get_db;
  match get_customer_or_redirect d user with
  | inr redirect_response => mret redirect_response
  | inl customer =>
      resource ← get_object_or_404
        (filter (fun r => Nat.eqb (Resource.id r) resource_id && Resource.is_active r)
                (Db.resources d));
      subscription ← related_or_none (subscription_of d customer);
      let no_access :=
        match subscription with
        | None => true
        | Some sub =>
            negb (CustomerSubscription.is_active sub) ||
            negb (SubscriptionPlan.premium_content (CustomerSubscription.plan sub))
        end in
      if Resource.is_premium resource && no_access then
        messages_add ERROR "Premium subscription required to access this resource.";;
        mret (Redirect "resources_downloads")
      else
        match Resource.file resource with
        | Some (name, read) =>
            match read with
            | Ok bytes =>
                mret (HttpResponse bytes "application/octet-stream"
                        ("attachment; filename=" ++ dquote ++
                         last_segment "" name ++ dquote))
            | Raise _ =>
                messages_add ERROR "Error downloading file.";;
                mret (Redirect "resources_downloads")
            end
        | None =>
            if str_truthy (Resource.external_url resource) then
              mret (Redirect (default "" (Resource.external_url resource)))
            else if str_truthy (Resource.file_url resource) then
              mret (Redirect (default "" (Resource.file_url resource)))
            else
              messages_add ERROR "Resource file not found.";;
              mret (Redirect "resources_downloads")
        end
  end.

(** What [goals_management] reads of [request.POST]. [current_value]
    and [target_value] are what [float(...)] makes of the fields, [None]
    when it raises; a float that is not finite is outside this model. *)
Record goals_post := mk_goals_post {
  action : option string;
  goal_id : option nat;
  current_value : option Q;
  title : option string;
  target_value : option Q
}.

Definition Goal_save (g : Goal.t) : M Goal.t := fun w =>
  let saved := Goal.save g (Db.goals (World.db w)) in
  (Ok saved.1, World.set_db (Db.set_goals saved.2 (World.db w)) w).

(** [float(x)] of a POST field. *)
Definition float_ (x : option Q) : M Q :=
  match x with
  | Some v => mret v
  | None => raise (Exn ValueError "could not convert string to float")
  end.

Definition goal_of (d : Db.t) (c : Customer.t) (goal_id : option nat) : list Goal.t :=
  filter (fun g => bool_decide (Goal.pk g = goal_id) && negb (bool_decide (goal_id = None))
                   && Nat.eqb (Goal.customer g) (Customer.id c))
         (Db.goals d).

(** The test [goal.target_value and goal.current_value >= goal.target_value]:
    a [Decimal] is falsy when [None] is stored and when it is zero. *)
Definition goal_reached (g : Goal.t) : bool :=
  match Goal.target_value g with
  | None => false
  | Some t => negb (Qeq_bool t 0) && Qle_bool t (Goal.current_value g)
  end.

(** [goals_management(request)] for a POST request. The emoji that ends
    the notification title in the source is left out of the string. *)
Definition goals_management (user : nat) (post : goals_post) : M response :=
  d ← get_db;
  match get_customer_or_redirect d user with
  | inr redirect_response => mret redirect_response
  | inl customer =>
      try_except
        (match action post with
         | Some act =>
             if String.eqb act "create" then
               v ← float_ (target_value post);
               match title post with
               | None => raise (Exn IntegrityError "NOT NULL constraint failed: title")
               | Some ttl =>
                   Goal_save (Goal.mk None (Customer.id customer) ttl
                                (if Qeq_bool v 0 then None else Some v)
                                0%Q "active" true false None);;
                   messages_add SUCCESS "Goal created successfully!"
               end
             else if String.eqb act "update_progress" then
               goal ← get_object_or_404 (goal_of d customer (goal_id post));
               v ← float_ (current_value post);
               let goal := Goal.set_current_value v goal in
               goal ← (if goal_reached goal then
                         let goal := Goal.set_status "completed" goal in
                         now ← timezone_now;
                         let goal := Goal.set_completed_at (Some now) goal in
                         Notification_create
                           (Notification.mk (Customer.id customer)
                              "Goal Completed!"
                              ("Congratulations! You've completed your goal: "
                               ++ Goal.title goal)
                              "general" false);;
                         mret goal
                       else mret goal);
               Goal_save goal;;
               messages_add SUCCESS "Goal progress updated!"
             else if String.eqb act "pause" || String.eqb act "resume"
                     || String.eqb act "cancel" then
               goal ← get_object_or_404 (goal_of d customer (goal_id post));
               let goal :=
                 if String.eqb act "pause" then Goal.set_status "paused" goal
                 else if String.eqb act "resume" then Goal.set_status "active" goal
                 else Goal.set_status "cancelled" goal in
               Goal_save goal;;
               messages_add SUCCESS ("Goal " ++ act ++ "d successfully!")
             else mret tt
         | None => mret tt
         end)
        (fun e => messages_add ERROR ("Error processing request: " ++ exn_str e));;
      mret (Redirect "goals_management")
  end.

(** [Count('assigned_customers', filter=Q(assigned_customers__is_active=True))]. *)
Definition assignment_count (d : Db.t) (t : Trainer.t) : nat :=
  length (filter (fun a => Nat.eqb (TrainerAssignment.trainer a) (Trainer.id t)
                           && TrainerAssignment.is_active a)
                 (Db.assignments d)).




(** [toggle_auto_renew(request)]. A model instance is always truthy, so
    [if subscription] asks whether the customer has a row. *)
Definition toggle_auto_renew (method : http_method) (user : nat) : M response :=
  match method with
  | GET => mret (Redirect "subscription_details")
  | POST =>
      d ← get_db;
      match get_customer_or_redirect d user with
      | inr redirect_response => mret redirect_response
      | inl customer =>
          subscription ← related_or_none (subscription_of d customer);
          match subscription with
          | Some subscription =>
              subscription ← models.CustomerSubscription_save
                (CustomerSubscription.set_auto_renew
                   (negb (CustomerSubscription.auto_renew subscription)) subscription);
              messages_add SUCCESS
                ("Auto-renewal has been "
                 ++ (if CustomerSubscription.auto_renew subscription
                     then "enabled" else "disabled") ++ ".")
          | None => messages_add ERROR "No active subscription found."
          end;;
          mret (Redirect "subscription_details")
      end
  end.

End dashboard_views.

(** ** views.py *)
Module views.

(** [form.cleaned_data] of the two signup forms. *)
Record signup_form := mk_signup_form {
  username : string;
  email : string;
  password : string;
  phone : string;
  address : string
}.

Definition session_get (k : string) : M (option session_value) := fun w =>
  (Ok (World.session w !! k), w).

Definition session_set (k : string) (v : session_value) : M unit := fun w =>
  (Ok tt, World.set_session (<[k := v]> (World.session w)) w).

Definition session_pop (k : string) : M unit := fun w =>
  (Ok tt, World.set_session (delete k (World.session w)) w).

(** [str(n)] for an [int]: the decimal digits, most significant first. *)
Definition digit_char (d : Z) : ascii := Ascii.ascii_of_nat (48 + Z.to_nat d).

Fixpoint digits (fuel : nat) (n : Z) (acc : string) : string :=
  match fuel with
  | O => acc
  | S fuel' =>
      let acc' := String (digit_char (n mod 10)) acc in
      if n / 10 =? 0 then acc' else digits fuel' (n / 10) acc'
  end.

Definition str (n : Z) : string :=
  if n <? 0 then String "-"%char (digits (S (Z.to_nat (Z.log2 (- n)))) (- n) "")
  else digits (S (Z.to_nat (Z.log2 n))) n "".

(** [signup_customer(request)]; [form] is the cleaned data when the
    request is a POST whose form is valid. *)
Definition signup_customer (method : http_method) (form : option signup_form)
  : M response :=
  match method, form with
  | POST, Some data =>
      session_set "signup_data"
        (SvSignup (SignupData.mk (username data) (email data) (password data)
                     (phone data) None "customer"));;
      n ← randint 100000 999999;
      let otp := str n in
      session_set "otp" (SvStr otp);;
      now ← timezone_now;
      session_set "otp_expiry" (SvIso (Time.dt_add now (Time.timedelta_minutes 5)));;
      session_set "otp_attempts" (SvInt 0);;
      send_mail "Your OTP Code" ("Your OTP is " ++ otp) "noreply@yourdomain.com"
        [email data] false;;
      messages_add SUCCESS
        ("OTP sent to your email (" ++ email data ++ ").Your OTP is: " ++ otp);;
      mret (Redirect "verify_otp")
  | _, _ => mret (Render "accounts/signup_customer.html" [])
  end.


Definition next_id (ids : list nat) : nat := S (foldr Nat.max O ids).

(** [User.objects.create_user], [Profile.objects.create],
    [Customer.objects.create], [Trainer.objects.create]. The hashing of
    the password is left out. *)
Definition User_create_user (uname mail pw : string) : M User.t := fun w =>
  let d := World.db w in
  if existsb (fun u => String.eqb (User.username u) uname) (Db.users d)
  then (Raise (Exn IntegrityError "UNIQUE constraint failed: auth_user.username"), w)
  else
    let u := User.mk (next_id (map User.id (Db.users d))) uname mail pw "" "" in
    (Ok u, World.set_db (Db.set_users (Db.users d ++ [u]) d) w).

Definition Profile_create (user : User.t) (ph role : string) : M Profile.t := fun w =>
  let d := World.db w in
  let p := Profile.mk (next_id (map Profile.id (Db.profiles d))) (User.id user) ph role in
  (Ok p, World.set_db (Db.set_profiles (Db.profiles d ++ [p]) d) w).

Definition Customer_create (profile : Profile.t) : M Customer.t := fun w =>
  let d := World.db w in
  let c := Customer.mk (next_id (map Customer.id (Db.customers d))) (Profile.id profile) in
  (Ok c, World.set_db (Db.set_customers (Db.customers d ++ [c]) d) w).

Definition Trainer_create (profile : Profile.t) (addr : string) : M Trainer.t := fun w =>
  let d := World.db w in
  let t := Trainer.mk (next_id (map Trainer.id (Db.trainers d))) (Profile.id profile)
             addr false in
  (Ok t, World.set_db (Db.set_trainers (Db.trainers d ++ [t]) d) w).

Definition verify_otp_page (invalid : option (option string)) (expiry : Time.datetime)
    (mail : string) : response :=
  Render "accounts/verify-otp.html"
    (match invalid with
     | Some entered =>
         [("invalid_otp"%string, CvBool true);
          ("entered_otp"%string, match entered with Some e => CvStr e | None => CvNone end)]
     | None => []
     end ++ [("otp_expiry"%string, CvIso expiry); ("user_email"%string, CvStr mail)]).

(** [verify_otp(request)]; [entered_otp] is [request.POST.get("otp")].
    The session values are taken in the shapes the signup views store
    them in; any other shape counts as the missing session. *)
Definition verify_otp (method : http_method) (entered_otp : option string) : M response :=
  data ← session_get "signup_data";
  stored_otp ← session_get "otp";
  expiry_str ← session_get "otp_expiry";
  attempts ← session_get "otp_attempts";
  let attempts := match attempts with Some (SvInt n) => n | _ => 0 end in
  match data, stored_otp, expiry_str with
  | Some (SvSignup data), Some (SvStr stored_otp), Some (SvIso expiry) =>
      if String.eqb stored_otp "" then
        messages_add ERROR "Session expired. Please sign up again.";;
        mret (Redirect "select_signup")
      else
        match method with
        | POST =>
            now ← timezone_now;
            if now >? expiry then
              messages_add ERROR "OTP expired. Please resend OTP.";;
              mret (Redirect "verify_otp")
            else if attempts >=? 5 then
              messages_add ERROR "Too many failed attempts. Please start again.";;
              mret (Redirect "select_signup")
            else if bool_decide (entered_otp = Some stored_otp) then
              d ← get_db;
              if existsb (fun u => String.eqb (User.username u) (SignupData.username data))
                         (Db.users d) then
                messages_add ERROR "Username already exists. Please choose another.";;
                mret (Redirect "select_signup")
              else if existsb (fun u => String.eqb (User.email u) (SignupData.email data))
                              (Db.users d) then
                messages_add ERROR
                  "Email already registered. Please login or use a different one.";;
                mret (Redirect "select_signup")
              else
                user ← User_create_user (SignupData.username data) (SignupData.email data)
                         (SignupData.password data);
                profile ← Profile_create user (SignupData.phone data) (SignupData.role data);
                (if String.eqb (SignupData.role data) "customer" then
                   Customer_create profile;; mret tt
                 else if String.eqb (SignupData.role data) "trainer" then
                   Trainer_create profile (default ""%string (SignupData.address data));;
                   mret tt
                 else mret tt);;
                send_mail "Welcome!" "Your account has been created successfully."
                  "noreply@yourdomain.com" [SignupData.email data] false;;
                session_pop "signup_data";;
                session_pop "otp";;
                session_pop "otp_expiry";;
                session_pop "otp_attempts";;
                messages_add SUCCESS "Account created successfully. Please login.";;
                mret (Redirect "login")
            else
              session_set "otp_attempts" (SvInt (attempts + 1));;
              mret (verify_otp_page (Some entered_otp) expiry (SignupData.email data))
        | GET => mret (verify_otp_page None expiry (SignupData.email data))
        end
  | _, _, _ =>
      messages_add ERROR "Session expired. Please sign up again.";;
      mret (Redirect "select_signup")
  end.


End views.

(** ** trainer_dashboard_views.py *)
Module trainer_dashboard_views.

(** [get_trainer_or_redirect(user)]: the verified trainer behind the
    logged-in user, or the redirect to the login page. *)
Definition get_trainer_or_redirect (d : Db.t) (user : nat) : Trainer.t + response :=
  match filter (fun p => Nat.eqb (Profile.user p) user) (Db.profiles d) with
  | [p] =>
      if negb (String.eqb (Profile.role p) "trainer") then inr (Redirect "login")
      else
        match filter (fun t => Nat.eqb (Trainer.profile t) (Profile.id p)) (Db.trainers d) with
        | [t] => if Trainer.is_verified t then inl t else inr (Redirect "login")
        | _ => inr (Redirect "login")
        end
  | _ => inr (Redirect "login")
  end.

(** What [trainer_schedule] reads of [request.POST]. [session_date] and
    [session_time] are what [strptime] makes of the two texts and
    [duration_minutes] what [int] makes of its field, [None] standing for
    the [ValueError]. *)
Record schedule_post := mk_schedule_post {
  customer_id : option nat;
  session_date_text : string;
  session_time_text : string;
  session_date : option Z;
  session_time : option Z;
  session_type : string;
  duration_minutes : option Z;
  notes : string
}.

Definition parsed {A : Type} (x : option A) (what : string) : M A :=
  match x with
  | Some v => mret v
  | None => raise (Exn ValueError what)
  end.

(** The sessions that [trainer_schedule] looks for before it creates
    one: same trainer, date and time, and still scheduled or confirmed. *)
Definition conflicting (d : Db.t) (trainer : Trainer.t) (date time : Z) : list Session.t :=
  filter (fun x => Nat.eqb (Session.trainer x) (Trainer.id trainer)
                   && (Session.session_date x =? date)
                   && (Session.session_time x =? time)
                   && (String.eqb (Session.status x) "scheduled"
                       || String.eqb (Session.status x) "confirmed"))
         (Db.sessions d).

(** [trainer_schedule(request)] for a POST request. The two early
    [return redirect('trainer_schedule')] inside the [try] end it like
    the [return] that follows it. *)
Definition trainer_schedule (user : nat) (post : schedule_post) : M response :=
  d ← get_db;
  match get_trainer_or_redirect d user with
  | inr redirect_response => mret redirect_response
  | inl trainer =>
      try_except
        (duration ← parsed (duration_minutes post) "invalid literal for int()";
         customer ← get_object_or_404
           (filter (fun c => bool_decide (Some (Customer.id c) = customer_id post))
                   (Db.customers d));
         assigned ← try_except
           (match objects_get
                    (filter (fun a => Nat.eqb (TrainerAssignment.trainer a) (Trainer.id trainer)
                                      && Nat.eqb (TrainerAssignment.customer a) (Customer.id customer)
                                      && TrainerAssignment.is_active a)
                            (Db.assignments d)) with
            | Ok _ => mret true
            | Raise e => raise e
            end)
           (fun e =>
              match exn_class_of e with
              | DoesNotExist =>
                  messages_add ERROR "You are not assigned to this client.";;
                  mret false
              | _ => raise e
              end);
         if negb assigned then mret tt
         else
           parsed_date ← parsed (session_date post) "time data does not match format";
           parsed_time ← parsed (session_time post) "time data does not match format";
           match conflicting d trainer parsed_date parsed_time with
           | _ :: _ =>
               messages_add ERROR "You already have a session scheduled at this time."
           | [] =>
               models.Session_save
                 (Session.mk None (Customer.id customer) (Trainer.id trainer)
                    parsed_date parsed_time duration (session_type post)
                    "scheduled" (notes post) "");;
               Notification_create
                 (Notification.mk (Customer.id customer) "New Session Scheduled"
                    ("Your trainer has scheduled a " ++ session_type post
                     ++ " session for " ++ session_date_text post
                     ++ " at " ++ session_time_text post ++ ".")
                    "session" false);;
               messages_add SUCCESS "Session scheduled successfully!"
           end)
        (fun e =>
           match exn_class_of e with
           | ValueError => messages_add ERROR "Invalid date or time format."
           | _ => messages_add ERROR ("Error scheduling session: " ++ exn_str e)
           end);;
      mret (Redirect "trainer_schedule")
  end.

Definition json_error (msg : string) : response :=
  JsonResponse [("success"%string, CvBool false); ("error"%string, CvStr msg)].

Definition json_success : response := JsonResponse [("success"%string, CvBool true)].

Definition session_of (d : Db.t) (trainer : Trainer.t) (session_id : nat) : list Session.t :=
  filter (fun x => bool_decide (Session.pk x = Some session_id)
                   && Nat.eqb (Session.trainer x) (Trainer.id trainer))
         (Db.sessions d).

(** [update_session_status(request, session_id)]; [body] is what
    [json.loads(request.body)] gives, [None] when it raises, and inside it
    the value under ['status'], if any. The texts of the notification are
    shortened: the title-casing of the status and the rendering of the
    session date are left out. *)
Definition update_session_status (user : nat) (session_id : nat)
    (body : option (option string)) : M response :=
  d ← get_db;
  match get_trainer_or_redirect d user with
  | inr _ => mret (json_error "Unauthorized")
  | inl trainer =>
      try_except
        (data ← parsed body "Expecting value";
         let valid :=
           match data with
           | Some st => String.eqb st "scheduled" || String.eqb st "confirmed"
                        || String.eqb st "completed" || String.eqb st "cancelled"
           | None => false
           end in
         if negb valid then mret (json_error "Invalid status")
         else
           let status := default ""%string data in
           session ← get_object_or_404 (session_of d trainer session_id);
           models.Session_save (Session.set_status status session);;
           Notification_create
             (Notification.mk (Session.customer session) ("Session " ++ status)
                ("Your session has been " ++ status ++ ".") "session" false);;
           mret json_success)
        (fun e => mret (json_error (exn_str e)))
  end.

(** [add_session_notes(request, session_id)]; [body] as above, with the
    value under ['notes']. *)
Definition add_session_notes (user : nat) (session_id : nat)
    (body : option (option string)) : M response :=
  d ← get_db;
  match get_trainer_or_redirect d user with
  | inr _ => mret (json_error "Unauthorized")
  | inl trainer =>
      try_except
        (data ← parsed body "Expecting value";
         session ← get_object_or_404 (session_of d trainer session_id);
         models.Session_save (Session.set_trainer_notes (default ""%string data) session);;
         mret json_success)
        (fun e => mret (json_error (exn_str e)))
  end.

(** The requests of a trainer that write sessions, and a run of them. *)
Inductive session_request :=
| Schedule (user : nat) (post : schedule_post)
| UpdateStatus (user : nat) (session_id : nat) (body : option (option string))
| AddNotes (user : nat) (session_id : nat) (body : option (option string)).

Definition handle (r : session_request) : M response :=
  match r with
  | Schedule user post => trainer_schedule user post
  | UpdateStatus user session_id body => update_session_status user session_id body
  | AddNotes user session_id body => add_session_notes user session_id body
  end.

Fixpoint run (requests : list session_request) (w : World.t) : World.t :=
  match requests with
  | [] => w
  | r :: rest => run rest (handle r w).2
  end.

End trainer_dashboard_views.

(** ** [datetime.date]

    A [date] is the number of its day, day 0 being 1970-01-01, as in
    [Session.session_date]. *)
Module Date.

(** Year, month and day in the proleptic Gregorian calendar, which is the
    calendar of [datetime]: the day is placed in its cycle of 400 years
    that starts on a first of March. *)
Definition civil (z : Z) : Z * Z * Z :=
  let z := z + 719468 in
  let era := z / 146097 in
  let doe := z mod 146097 in
  let yoe := (doe - doe / 1460 + doe / 36524 - doe / 146096) / 365 in
  let doy := doe - (365 * yoe + yoe / 4 - yoe / 100) in
  let mp := (5 * doy + 2) / 153 in
  let d := doy - (153 * mp + 2) / 5 + 1 in
  let m := if mp <? 10 then mp + 3 else mp - 9 in
  let y := yoe + era * 400 in
  (if m <=? 2 then y + 1 else y, m, d).

(** [dt.date()] of an aware [datetime], in UTC. *)
Definition of_datetime (dt : Time.datetime) : Z := dt / Time.US_PER_DAY.

(** [%04d] and [%02d] of a number that is not negative. *)
Fixpoint zeros (n : nat) : string :=
  match n with
  | O => ""
  | S n' => String "0" (zeros n')
  end.

Definition pad (width : nat) (n : Z) : string :=
  let s := views.str n in (zeros (width - String.length s) ++ s)%string.

(** [str(date)], which is [date.isoformat()]; years run from 1 to 9999. *)
Definition isoformat (z : Z) : string :=
  let '(y, m, d) := civil z in
  (pad 4 y ++ "-" ++ pad 2 m ++ "-" ++ pad 2 d)%string.

End Date.

(** ** admin_views.py *)
Module admin_views.

(** [x.profile.user], for the profile id of a customer or a trainer. *)
Definition profile_user (profile_id : nat) : M User.t := fun w =>
  let d := World.db w in
  match objects_get (filter (fun p => Nat.eqb (Profile.id p) profile_id) (Db.profiles d)) with
  | Ok p =>
      match objects_get (filter (fun u => Nat.eqb (User.id u) (Profile.user p)) (Db.users d)) with
      | Ok u => (Ok u, w)
      | Raise e => (Raise e, w)
      end
  | Raise e => (Raise e, w)
  end.

(** [send_assignment_notifications(customer, trainer)], the helper of the
    bulk assignment. *)
Definition send_assignment_notifications (customer : Customer.t) (trainer : Trainer.t)
  : M unit :=
  trainer_user ← profile_user (Trainer.profile trainer);
  Notification_create
    (Notification.mk (Customer.id customer) "Trainer Assigned"
       ("You have been assigned to trainer " ++ User.get_full_name trainer_user ++ ".")
       "trainer" false);;
  customer_user ← profile_user (Customer.profile customer);
  send_mail "New Trainer Assignment"
    ("You have been assigned to trainer " ++ User.get_full_name trainer_user ++ ".")
    "noreply@fitnesshub.com" [User.email customer_user] true;;
  mret tt.

(** [AdminTrainerAssignmentView.send_assignment_notifications]: the
    notification, the mail to the customer and the mail to the trainer.
    The bodies of the two mails are cut down to their first lines. *)
Definition AdminTrainerAssignmentView_send_assignment_notifications
    (customer : Customer.t) (trainer : Trainer.t) : M unit :=
  trainer_user ← profile_user (Trainer.profile trainer);
  Notification_create
    (Notification.mk (Customer.id customer) "Trainer Assigned"
       ("You have been assigned to trainer " ++ User.get_full_name trainer_user
        ++ ". They will contact you soon to begin your training sessions.")
       "trainer" false);;
  customer_user ← profile_user (Customer.profile customer);
  send_mail "New Trainer Assignment - FitnessHub"
    ("Hello " ++ User.get_full_name customer_user
     ++ ", You have been assigned to trainer " ++ User.get_full_name trainer_user ++ ".")
    "noreply@fitnesshub.com" [User.email customer_user] true;;
  send_mail "New Client Assignment - FitnessHub"
    ("Hello " ++ User.get_full_name trainer_user
     ++ ", You have been assigned a new client: " ++ User.get_full_name customer_user ++ ".")
    "noreply@fitnesshub.com" [User.email trainer_user] true;;
  mret tt.


(** [AdminTrainerAssignmentView.has_personal_training_subscription]: the
    bare [except] turns every failure of the lookup into [False]. *)
Definition AdminTrainerAssignmentView_has_personal_training_subscription
    (d : Db.t) (customer : Customer.t) : bool :=
  match subscription_of d customer with
  | [subscription] =>
      CustomerSubscription.is_active subscription &&
      SubscriptionPlan.trainer_support (CustomerSubscription.plan subscription)
  | _ => false
  end.

(** [Trainer.objects.filter(is_verified=True)]. *)
Definition verified_trainers (d : Db.t) : list Trainer.t :=
  filter (fun t => Trainer.is_verified t) (Db.trainers d).

(** [form.cleaned_data] of [TrainerAssignmentForm] (forms.py), [None] when
    the form is not valid: the field [trainer] must name a row of the
    queryset of verified trainers; [notes] is not required and arrives
    cleaned. *)
Definition TrainerAssignmentForm (d : Db.t) (trainer : option nat) (notes : string)
  : M (option (Trainer.t * string)) :=
  match trainer with
  | None => mret None
  | Some pk =>
      match objects_get (filter (fun t => Nat.eqb (Trainer.id t) pk) (verified_trainers d)) with
      | Ok t => mret (Some (t, notes))
      | Raise e =>
          match exn_class_of e with
          | DoesNotExist => mret None
          | _ => raise e
          end
      end
  end.

(** [AdminTrainerAssignmentView.post(request, customer_id)], for a request
    of a staff member. The table of assignments here carries no
    [end_date]: the clock is read for it, the value is not kept. The
    context of the page rendered for an invalid form is left out. *)
Definition AdminTrainerAssignmentView_post (customer_id : nat) (trainer : option nat)
    (notes : string) : M response :=
  d ← get_db;
  customer ← get_object_or_404
    (filter (fun c => Nat.eqb (Customer.id c) customer_id) (Db.customers d));
  if negb (AdminTrainerAssignmentView_has_personal_training_subscription d customer) then
    messages_add ERROR
      "Customer does not have an active personal training subscription.";;
    mret (Redirect "admin:accounts_customer_changelist")
  else
    form ← TrainerAssignmentForm d trainer notes;
    match form with
    | Some (trainer, notes) =>
        existing ← related_or_none (assignment_of d customer);
        match existing with
        | Some existing =>
            timezone_now;;
            models.TrainerAssignment_save (TrainerAssignment.set_is_active false existing);;
            mret tt
        | None => mret tt
        end;;
        now ← timezone_now;
        models.TrainerAssignment_save
          (TrainerAssignment.mk None (Customer.id customer) (Trainer.id trainer)
             now true notes);;
        AdminTrainerAssignmentView_send_assignment_notifications customer trainer;;
        trainer_user ← profile_user (Trainer.profile trainer);
        customer_user ← profile_user (Customer.profile customer);
        messages_add SUCCESS
          ("Successfully assigned " ++ User.get_full_name trainer_user
           ++ " to " ++ User.get_full_name customer_user);;
        mret (Redirect "admin:accounts_customer_changelist")
    | None => mret (Render "admin/assign_trainer.html" [])
    end.

(** [hasattr(customer, 'trainer_assignment') and
    customer.trainer_assignment.is_active], read from the database when
    the loop reaches the customer. *)
Definition actively_assigned (customer : Customer.t) : M bool :=
  d ← get_db;
  existing ← related_or_none (assignment_of d customer);
  mret (match existing with
        | Some a => TrainerAssignment.is_active a
        | None => false
        end).

(** [notes or f"<label> on {timezone.now().date()}"]: the clock is read
    only when [notes] is empty. *)
Definition notes_or_dated (notes label : string) : M string :=
  if negb (String.eqb notes "") then mret notes
  else
    now ← timezone_now;
    mret (label ++ " on " ++ Date.isoformat (Date.of_datetime now))%string.

(** The loop of [auto_assign_trainers]. The workloads are counted anew
    for every customer; [list.sort] is stable, so the trainer selected is
    the first of [trainers] with the least workload. [trainers] is not
    empty here, [first] being its first element. *)
Fixpoint auto_assign_trainers_loop (trainers : list Trainer.t) (first : Trainer.t)
    (notes : string) (customers : list Customer.t) (assigned_count : nat) : M nat :=
  match customers with
  | [] => mret assigned_count
  | customer :: customers =>
      skip ← actively_assigned customer;
      if (skip : bool) then
        auto_assign_trainers_loop trainers first notes customers assigned_count
      else
        d ← get_db;
        let selected_trainer :=
          default first (head (order_by (dashboard_views.assignment_count d) trainers)) in
        now ← timezone_now;
        notes' ← notes_or_dated notes "Auto-assigned";
        models.TrainerAssignment_save
          (TrainerAssignment.mk None (Customer.id customer) (Trainer.id selected_trainer)
             now true notes');;
        send_assignment_notifications customer selected_trainer;;
        auto_assign_trainers_loop trainers first notes customers (S assigned_count)
  end.

(** [auto_assign_trainers(customers, notes)]. *)
Definition auto_assign_trainers (customers : list Customer.t) (notes : string) : M nat :=
  d ← get_db;
  match verified_trainers d with
  | [] => (mret O : M nat)
  | first :: rest =>
      auto_assign_trainers_loop (first :: rest) first notes customers O
  end.

(** [assign_to_specific_trainer(customers, trainer, notes)]. *)
Fixpoint assign_to_specific_trainer_loop (trainer : Trainer.t) (notes : string)
    (customers : list Customer.t) (assigned_count : nat) : M nat :=
  match customers with
  | [] => mret assigned_count
  | customer :: customers =>
      skip ← actively_assigned customer;
      if (skip : bool) then
        assign_to_specific_trainer_loop trainer notes customers assigned_count
      else
        now ← timezone_now;
        notes' ← notes_or_dated notes "Bulk assigned";
        models.TrainerAssignment_save
          (TrainerAssignment.mk None (Customer.id customer) (Trainer.id trainer)
             now true notes');;
        send_assignment_notifications customer trainer;;
        assign_to_specific_trainer_loop trainer notes customers (S assigned_count)
  end.

Definition assign_to_specific_trainer (customers : list Customer.t) (trainer : Trainer.t)
    (notes : string) : M nat :=
  assign_to_specific_trainer_loop trainer notes customers O.

(** [Customer.objects.filter(id__in=customer_ids,
    subscription__is_active=True, subscription__plan__trainer_support=True)]:
    the join gives a customer once for each subscription row that
    passes. *)
Definition personal_training_customers (d : Db.t) (customer_ids : list nat)
  : list Customer.t :=
  flat_map
    (fun c =>
       map (fun _ => c)
         (filter (fun s => CustomerSubscription.is_active s &&
                           SubscriptionPlan.trainer_support (CustomerSubscription.plan s))
                 (subscription_of d c)))
    (filter (fun c => bool_decide (Customer.id c ∈ customer_ids)) (Db.customers d)).

(** [bulk_assign_trainers_view(request)], for a request of a staff
    member; [customer_ids] and [specific_trainer] are the ids that the
    POST fields hold. The context of the page rendered for a GET request
    is left out. *)
Definition bulk_assign_trainers_view (method : http_method) (customer_ids : list nat)
    (assignment_method : option string) (specific_trainer : option nat) (notes : string)
  : M response :=
  match method with
  | POST =>
      d ← get_db;
      let customers := personal_training_customers d customer_ids in
      assigned_count ←
        (if bool_decide (assignment_method = Some "auto"%string) then
           n ← auto_assign_trainers customers notes; mret (Some n)
         else
           match specific_trainer with
           | Some pk =>
               if bool_decide (assignment_method = Some "specific"%string) then
                 trainer ← get_object_or_404
                   (filter (fun t => Nat.eqb (Trainer.id t) pk && Trainer.is_verified t)
                           (Db.trainers d));
                 n ← assign_to_specific_trainer customers trainer notes; mret (Some n)
               else mret None
           | None => mret None
           end);
      match assigned_count with
      | Some n =>
          messages_add SUCCESS
            ("Successfully assigned trainers to " ++ views.str (Z.of_nat n)
             ++ " customers.");;
          mret (Redirect "admin:accounts_customer_changelist")
      | None =>
          messages_add ERROR "Invalid assignment method.";;
          mret (Redirect "admin:accounts_customer_changelist")
      end
  | GET => mret (Render "admin/bulk_assign_trainers.html" [])
  end.

End admin_views.

(** ** Predicates of the statements *)

(** The customer has a subscription that is active and whose plan carries
    the [premium_content] flag. *)
Definition premium_access (d : Db.t) (c : Customer.t) : bool :=
  match subscription_of d c with
  | [sub] =>
      CustomerSubscription.is_active sub &&
      SubscriptionPlan.premium_content (CustomerSubscription.plan sub)
  | _ => false
  end.

(** A table respects its primary key and a uniqueness constraint on the
    columns [key]: stored rows have a key, no two rows share a primary key
    and no two rows share [key]. *)
Definition table_ok {R K : Type} (get_pk : R -> option nat) (key : R -> K)
    (rows : list R) : Prop :=
  NoDup (map key rows) /\ NoDup (map get_pk rows) /\
  Forall (fun r => get_pk r <> None) rows.

(** The slot of a session, and the constraint
    [unique_together = ('trainer', 'session_date', 'session_time')]. *)
Definition slot (x : Session.t) : nat * Z * Z :=
  (Session.trainer x, Session.session_date x, Session.session_time x).

Definition sessions_ok (d : Db.t) : Prop :=
  table_ok Session.pk slot (Db.sessions d).

Definition slot_taken (d : Db.t) (trainer : Trainer.t) (date time : Z) : Prop :=
  exists x, In x (Db.sessions d) /\ slot x = (Trainer.id trainer, date, time).

(** The session holds a pending signup: the form data, the code, its
    expiry and the count of failed attempts. *)
Definition otp_session (s : gmap string session_value) (data : SignupData.t)
    (otp : string) (expiry : Time.datetime) (attempts : Z) : Prop :=
  s !! "signup_data"%string = Some (SvSignup data) /\
  s !! "otp"%string = Some (SvStr otp) /\
  s !! "otp_expiry"%string = Some (SvIso expiry) /\
  s !! "otp_attempts"%string = Some (SvInt attempts).







(** [preserves P m]: when [P] holds of the world before [m], it holds of
    the world after it, whether [m] returns or raises. *)
Definition preserves (P : World.t -> Prop) {A : Type} (m : M A) : Prop :=
  forall w, P w -> P (m w).2.

(** The one-to-one columns: one subscription, and one assignment, for a
    customer. *)
Definition subscriptions_ok (d : Db.t) : Prop :=
  table_ok CustomerSubscription.pk CustomerSubscription.customer (Db.subscriptions d).

Definition assignments_ok (d : Db.t) : Prop :=
  table_ok TrainerAssignment.pk TrainerAssignment.customer (Db.assignments d).

(** [t] is the first element of [l] with the least [key]. *)
Definition first_minimum {A : Type} (key : A -> nat) (l : list A) (t : A) : Prop :=
  exists l1 l2,
    l = l1 ++ t :: l2 /\
    Forall (fun x => (key t < key x)%nat) l1 /\
    Forall (fun x => (key t <= key x)%nat) l2.


(** ** Predicates of the further properties *)

(** What [CustomerSubscription.save] does to the instance before the row
    is written. *)
Definition prepared (now : Time.datetime) (s : CustomerSubscription.t)
  : CustomerSubscription.t :=
  let duration := SubscriptionPlan.duration_days (CustomerSubscription.plan s) in
  let s1 :=
    match CustomerSubscription.pk s with
    | None =>
        if 0 <? duration
        then CustomerSubscription.set_end_date
               (Some (CustomerSubscription.start_date s + duration * Time.US_PER_DAY)) s
        else s
    | Some _ => s
    end in
  if CustomerSubscription.is_expired now s1
  then CustomerSubscription.set_is_active false s1 else s1.

(** The goals of the customers other than [c]. *)
Definition goals_of_others (c : Customer.t) (d : Db.t) : list Goal.t :=
  filter (fun g => negb (Nat.eqb (Goal.customer g) (Customer.id c))) (Db.goals d).

(** The trainer has an active assignment to the customer. *)
Definition trains (d : Db.t) (trainer customer : nat) : Prop :=
  exists a, In a (Db.assignments d) /\
    TrainerAssignment.trainer a = trainer /\
    TrainerAssignment.customer a = customer /\
    TrainerAssignment.is_active a = true.

(** The sessions of the trainers other than [t]. *)
Definition sessions_of_others (t : Trainer.t) (d : Db.t) : list Session.t :=
  filter (fun x => negb (Nat.eqb (Session.trainer x) (Trainer.id t))) (Db.sessions d).

(** The workloads of [trainers] differ by at most [k]. *)
Definition balanced (k : nat) (trainers : list Trainer.t) (d : Db.t) : Prop :=
  forall t1 t2, In t1 trainers -> In t2 trainers ->
    (dashboard_views.assignment_count d t1 <= dashboard_views.assignment_count d t2 + k)%nat.

(** An assignment that the bulk operations may add: active, for one of
    [customers], to one of [trainers]. *)
Definition added_by (customers : list Customer.t) (trainers : list Trainer.t)
    (a : TrainerAssignment.t) : Prop :=
  TrainerAssignment.is_active a = true /\
  (exists c, In c customers /\ TrainerAssignment.customer a = Customer.id c) /\
  (exists t, In t trainers /\ TrainerAssignment.trainer a = Trainer.id t).

(** A customer with a subscription that is active and whose plan has
    trainer support. *)
Definition personal_training (d : Db.t) (customer : nat) : Prop :=
  exists c sub,
    In c (Db.customers d) /\ Customer.id c = customer /\
    In sub (subscription_of d c) /\
    CustomerSubscription.is_active sub = true /\
    SubscriptionPlan.trainer_support (CustomerSubscription.plan sub) = true.

(** What [bulk_assign_trainers_view] may append for the posted data. *)
Definition bulk_added (d : Db.t) (customer_ids : list nat)
    (assignment_method : option string) (specific_trainer : option nat)
    (a : TrainerAssignment.t) : Prop :=
  TrainerAssignment.is_active a = true /\
  In (TrainerAssignment.customer a) customer_ids /\
  personal_training d (TrainerAssignment.customer a) /\
  exists t, In t (Db.trainers d) /\ Trainer.is_verified t = true /\
    TrainerAssignment.trainer a = Trainer.id t /\
    (assignment_method = Some "specific"%string -> specific_trainer = Some (Trainer.id t)).

(** ** Sample data *)
Module Ex.

Definition basic : SubscriptionPlan.t :=
  SubscriptionPlan.mk 1 "Basic" (Decimal.mk false 1000 (-2)) 7 true false false.

Definition premium : SubscriptionPlan.t :=
  SubscriptionPlan.mk 2 "Premium" (Decimal.mk false 2999 (-2)) 30 true true true.

(** A plan of zero days, which [PositiveIntegerField] admits. *)
Definition void : SubscriptionPlan.t :=
  SubscriptionPlan.mk 3 "Void" (Decimal.mk false 500 (-2)) 0 true false false.

Definition alice : Customer.t := Customer.mk 1 1.
Definition bob : Customer.t := Customer.mk 2 2.

Definition video : Resource.t :=
  Resource.mk 1 "Stretching" true true
    (Some ("resources/stretching.mp4"%string, Ok "bytes"%string)) None None.

(** Alice (user 1) holds an active Premium subscription; Bob (user 2)
    has none. Trainer 1 waits for verification and has no client,
    trainer 2 (Carol, user 3) is verified and trains Alice, with whom she
    had a session on day 20000 at 10:00. *)
Definition db : Db.t :=
  Db.mk
    [User.mk 1 "alice" "alice@gmail.com" "pw" "Alice" "A";
     User.mk 2 "bob" "bob@gmail.com" "pw" "Bob" "B";
     User.mk 3 "carol" "carol@gmail.com" "pw" "Carol" "C"]
    [Profile.mk 1 1 "+923001234567" "customer"; Profile.mk 2 2 "+923007654321" "customer";
     Profile.mk 12 3 "+923009876543" "trainer"]
    [alice; bob]
    [Trainer.mk 1 11 "Main Street 1" false; Trainer.mk 2 12 "Main Street 2" true]
    [basic; premium]
    [CustomerSubscription.mk (Some 1%nat) 1 premium 0 (Some (30 * Time.US_PER_DAY)) true true]
    []
    [TrainerAssignment.mk (Some 1%nat) 1 2 0 true ""]
    [Goal.mk (Some 1%nat) 1 "Run 10 km" (Some 10%Q) 4%Q "active" true false None;
     Goal.mk (Some 2%nat) 1 "No target" (Some 0%Q) 0%Q "active" true false None]
    [video]
    []
    [Session.mk (Some 1%nat) 1 2 20000 600 60 "personal" "completed" "" ""].

(** The clock advances a second per reading from one hour after the
    epoch; the mail server is up. *)
Definition world : World.t :=
  World.mk db ∅ [] [] 0
    (fun n => 3600 * Time.US_PER_SECOND + Z.of_nat n * Time.US_PER_SECOND)
    0 (fun n => 123456 + Z.of_nat n) (fun _ => true).

(** Dave signs up: the form, the world once the code 223456 is issued,
    and the world after five wrong codes. *)
Definition dave : views.signup_form :=
  views.mk_signup_form "dave" "dave@gmail.com" "secret12" "+923001112223" "".

Definition dave_data : SignupData.t :=
  SignupData.mk "dave" "dave@gmail.com" "secret12" "+923001112223" None "customer".

Definition issued : World.t := (views.signup_customer POST (Some dave) world).2.


End Ex.

(* ===================================================================== *)
(** * Part II: properties                                                 *)
(* ===================================================================== *)

Section TimeFacts.
Import Time.

Lemma timedelta_new_total d s us :
  total_microseconds (timedelta_new d s us) =
  (d * SECONDS_PER_DAY + s) * US_PER_SECOND + us.
Proof.
  unfold total_microseconds, timedelta_new.
  cbn [days seconds microseconds].
  unfold SECONDS_PER_DAY, US_PER_SECOND.
  pose proof (Z.div_mod us 1000000 ltac:(lia)).
  pose proof (Z.div_mod (s + us / 1000000) 86400 ltac:(lia)).
  lia.
Qed.

Lemma dt_sub_days_floor a b :
  days (dt_sub a b) * US_PER_DAY <= a - b < (days (dt_sub a b) + 1) * US_PER_DAY.
Proof.
  unfold dt_sub, timedelta_new, US_PER_DAY.
  cbn [days seconds microseconds].
  unfold SECONDS_PER_DAY, US_PER_SECOND.
  set (x := a - b). rewrite !Z.add_0_l.
  pose proof (Z.div_mod x 1000000 ltac:(lia)).
  pose proof (Z.mod_pos_bound x 1000000 ltac:(lia)).
  pose proof (Z.div_mod (x / 1000000) 86400 ltac:(lia)).
  pose proof (Z.mod_pos_bound (x / 1000000) 86400 ltac:(lia)).
  lia.
Qed.

End TimeFacts.

(** C1. [is_expired] is [False] without an [end_date] and otherwise tells
    whether now is strictly after it; [days_remaining] is infinite without
    an [end_date] and otherwise [max(0, k)], [k] being the number of whole
    days from now until [end_date] (the [k] with
    [k days <= end_date - now < (k + 1) days]). *)
Theorem C1_subscription_expiry (now : Time.datetime) (s : CustomerSubscription.t) :
  match CustomerSubscription.end_date s with
  | None =>
      CustomerSubscription.is_expired now s = false /\
      CustomerSubscription.days_remaining now s = PyInf
  | Some e =>
      (CustomerSubscription.is_expired now s = true <-> e < now) /\
      exists k : Z,
        CustomerSubscription.days_remaining now s = PyInt (Z.max 0 k) /\
        k * Time.US_PER_DAY <= e - now < (k + 1) * Time.US_PER_DAY
  end.
Proof.
  unfold CustomerSubscription.is_expired, CustomerSubscription.days_remaining.
  destruct (CustomerSubscription.end_date s) as [e|]; [|split; reflexivity].
  split.
  - rewrite Z.gtb_ltb, Z.ltb_lt. reflexivity.
  - exists (Time.days (Time.dt_sub e now)). split; [reflexivity|].
    apply dt_sub_days_floor.
Qed.

Section TableFacts.
Context {R : Type} (get_pk : R -> option nat) (set_pk : option nat -> R -> R).
Hypothesis get_set_pk : forall k r, get_pk (set_pk k r) = k.

Lemma fresh_pk_above (table : list R) (row : R) (k : nat) :
  In row table -> get_pk row = Some k -> (k < fresh_pk get_pk table)%nat.
Proof.
  unfold fresh_pk. induction table as [|r table IH]; simpl; [tauto|].
  intros [->|Hin] Hk.
  - rewrite Hk. simpl. lia.
  - specialize (IH Hin Hk). fold (omap get_pk table).
    destruct (get_pk r); simpl; lia.
Qed.

(** After [save_base] the instance is in the table, and it is the only
    row under its primary key when keys were unique before. *)
Lemma save_base_stored (r : R) (table : list R) :
  In (save_base get_pk set_pk r table).1 (save_base get_pk set_pk r table).2.
Proof.
  unfold save_base. destruct (get_pk r) as [k|] eqn:Hk.
  - destruct (existsb (has_pk get_pk k) table) eqn:Hex; simpl.
    + apply existsb_exists in Hex as (row & Hin & Hrow).
      apply in_map_iff. exists row. rewrite Hrow. auto.
    + apply in_or_app. right. left. reflexivity.
  - simpl. apply in_or_app. right. left. reflexivity.
Qed.

Lemma save_base_same_pk (r : R) (table : list R) (row : R) :
  In row (save_base get_pk set_pk r table).2 ->
  get_pk row = get_pk (save_base get_pk set_pk r table).1 ->
  row = (save_base get_pk set_pk r table).1.
Proof.
  unfold save_base. destruct (get_pk r) as [k|] eqn:Hk.
  - destruct (existsb (has_pk get_pk k) table) eqn:Hex; simpl.
    + intros Hin Hpk. apply in_map_iff in Hin as (old & Hrow & _).
      destruct (has_pk get_pk k old) eqn:Hold; [congruence|].
      subst row. unfold has_pk in Hold.
      apply bool_decide_eq_false in Hold. congruence.
    + intros Hin Hpk. apply in_app_or in Hin as [Hin|[<-|[]]]; [|reflexivity].
      assert (existsb (has_pk get_pk k) table = true); [|congruence].
      apply existsb_exists. exists row. split; [assumption|].
      unfold has_pk. apply bool_decide_eq_true. congruence.
  - simpl. intros Hin Hpk. apply in_app_or in Hin as [Hin|[<-|[]]]; [|reflexivity].
    rewrite get_set_pk in Hpk.
    pose proof (fresh_pk_above table row _ Hin Hpk). lia.
Qed.

End TableFacts.

(** [save_checked] keeps a table within its constraints, whether it
    inserts, updates or refuses. *)
Section SaveChecked.
Context {R K : Type} `{EqDecision K}.
Context (get_pk : R -> option nat) (set_pk : option nat -> R -> R).
Context (key : R -> K) (clash : R -> R -> bool) (msg : string).
Context (table : Db.t -> list R) (set_table : list R -> Db.t -> Db.t).
Hypothesis get_set_pk : forall k r, get_pk (set_pk k r) = k.
Hypothesis key_set_pk : forall k r, key (set_pk k r) = key r.
Hypothesis clash_spec : forall a b, clash a b = true <-> key a = key b.
Hypothesis table_set_table : forall rows d, table (set_table rows d) = rows.

Lemma replace_keeps_ok (r : R) (k : nat) (rows : list R) :
  get_pk r = Some k ->
  table_ok get_pk key rows ->
  (forall row, In row rows -> get_pk row <> Some k -> key row <> key r) ->
  table_ok get_pk key (map (fun row => if has_pk get_pk k row then r else row) rows).
Proof.
  intros Hk (Hkeys & Hpks & Hsome) Hother.
  assert (Hsame : forall rows' : list R,
             (forall row, In row rows' -> get_pk row <> Some k) ->
             map (fun row => if has_pk get_pk k row then r else row) rows' = rows').
  { intros rows' Hno. induction rows' as [|x rows' IH]; [reflexivity|].
    simpl. rewrite IH by (intros; apply Hno; right; assumption).
    unfold has_pk. rewrite bool_decide_eq_false_2; [reflexivity|].
    apply Hno. left. reflexivity. }
  induction rows as [|x rows IH]; [repeat split; constructor|].
  simpl in Hkeys, Hpks. apply NoDup_cons in Hkeys as [Hx Hkeys].
  apply NoDup_cons in Hpks as [Hxp Hpks]. apply Forall_cons in Hsome as [Hxs Hsome].
  simpl. unfold has_pk at 1. destruct (bool_decide (get_pk x = Some k)) eqn:E.
  - apply bool_decide_eq_true in E.
    assert (Hno : forall row, In row rows -> get_pk row <> Some k).
    { intros row Hin Heq. apply Hxp. rewrite E, <- Heq.
      apply list_elem_of_In, in_map. assumption. }
    rewrite Hsame by exact Hno.
    repeat split.
    + simpl. apply NoDup_cons. split; [|assumption].
      rewrite list_elem_of_In, in_map_iff. intros (row & Hrow & Hin).
      apply (Hother row); [right; assumption | apply Hno; assumption | assumption].
    + simpl. apply NoDup_cons. split; [|assumption]. rewrite Hk, <- E. assumption.
    + apply Forall_cons. split; [congruence | assumption].
  - apply bool_decide_eq_false in E.
    destruct IH as (IHkeys & IHpks & IHsome); try assumption.
    { intros row Hin. apply Hother. right. assumption. }
    repeat split.
    + simpl. apply NoDup_cons. split; [|assumption].
      rewrite list_elem_of_In, map_map, in_map_iff. intros (row & Hrow & Hin).
      destruct (has_pk get_pk k row).
      * apply (Hother x); [left; reflexivity | assumption | congruence].
      * apply Hx. rewrite <- Hrow. apply list_elem_of_In, in_map. assumption.
    + simpl. apply NoDup_cons. split; [|assumption].
      rewrite list_elem_of_In, map_map, in_map_iff. intros (row & Hrow & Hin).
      destruct (has_pk get_pk k row) eqn:Hrk.
      * congruence.
      * apply Hxp. rewrite <- Hrow. apply list_elem_of_In, in_map. assumption.
    + apply Forall_cons. split; assumption.
Qed.

Lemma append_keeps_ok (r : R) (rows : list R) :
  get_pk r <> None ->
  table_ok get_pk key rows ->
  (forall row, In row rows -> key row <> key r /\ get_pk row <> get_pk r) ->
  table_ok get_pk key (rows ++ [r]).
Proof.
  intros Hr (Hkeys & Hpks & Hsome) Hfresh. repeat split.
  - rewrite map_app. apply NoDup_app. repeat split; [assumption| |apply NoDup_singleton].
    intros x Hx. rewrite list_elem_of_In in Hx. apply in_map_iff in Hx as (row & <- & Hin).
    simpl. rewrite list_elem_of_In. intros [Heq|[]].
    destruct (Hfresh row Hin) as [Hne _]. apply Hne. congruence.
  - rewrite map_app. apply NoDup_app. repeat split; [assumption| |apply NoDup_singleton].
    intros x Hx. rewrite list_elem_of_In in Hx. apply in_map_iff in Hx as (row & <- & Hin).
    simpl. rewrite list_elem_of_In. intros [Heq|[]].
    destruct (Hfresh row Hin) as [_ Hne]. apply Hne. congruence.
  - apply Forall_app. split; [assumption|]. apply Forall_cons. split; [assumption|constructor].
Qed.

Lemma save_checked_keeps_ok (r : R) (w : World.t) :
  table_ok get_pk key (table (World.db w)) ->
  table_ok get_pk key
    (table (World.db (save_checked get_pk set_pk clash msg table set_table r w).2)).
Proof.
  intros Hok. unfold save_checked.
  destruct (existsb _ _) eqn:Hclash; [exact Hok|].
  cbn [snd World.db World.set_db]. rewrite table_set_table.
  assert (Hother : forall row, In row (table (World.db w)) ->
                     get_pk row <> get_pk r -> key row <> key r).
  { intros row Hin Hpk Hkey.
    assert (existsb (fun row => clash r row && negb (bool_decide (get_pk row = get_pk r)))
              (table (World.db w)) = true); [|congruence].
    apply existsb_exists. exists row. split; [assumption|].
    apply andb_true_iff. split; [apply clash_spec; congruence|].
    apply negb_true_iff, bool_decide_eq_false. assumption. }
  unfold save_base. destruct (get_pk r) as [k|] eqn:Hk.
  - destruct (existsb (has_pk get_pk k) (table (World.db w))) eqn:Hex; cbn [snd].
    + apply replace_keeps_ok; assumption.
    + apply append_keeps_ok; [congruence | assumption|].
      intros row Hin.
      assert (Hrow : get_pk row <> Some k).
      { intros Heq.
        assert (existsb (has_pk get_pk k) (table (World.db w)) = true); [|congruence].
        apply existsb_exists. exists row. split; [assumption|].
        unfold has_pk. apply bool_decide_eq_true. assumption. }
      split; [apply Hother; assumption | congruence].
  - cbn [snd]. apply append_keeps_ok; [rewrite get_set_pk; discriminate | assumption|].
    intros row Hin. destruct Hok as (_ & _ & Hsome).
    rewrite Forall_forall in Hsome.
    assert (Hrow : get_pk row <> None).
    { apply Hsome. apply list_elem_of_In. assumption. }
    rewrite key_set_pk, get_set_pk. split; [apply Hother; assumption|].
    intros Heq. pose proof (fresh_pk_above get_pk _ row _ Hin Heq). lia.
Qed.

End SaveChecked.

(** C6. After every [Goal.save] the flags mirror the status: on the saved
    instance, which keeps its status, [is_active] is true exactly when
    [status] is ['active'] and [is_completed] exactly when it is
    ['completed']; the instance is in the table, and every row of the table
    under its primary key is that instance. *)
Theorem C6_goal_flags_mirror_status (g : Goal.t) (table : list Goal.t) :
  let g' := (Goal.save g table).1 in
  let table' := (Goal.save g table).2 in
  Goal.status g' = Goal.status g /\
  (Goal.is_active g' = true <-> Goal.status g' = "active"%string) /\
  (Goal.is_completed g' = true <-> Goal.status g' = "completed"%string) /\
  In g' table' /\
  (forall row, In row table' -> Goal.pk row = Goal.pk g' -> row = g').
Proof.
  intros g' table'.
  assert (Hshape : exists k, g' = Goal.set_pk k
            (Goal.set_flags (bool_decide (Goal.status g = "active"%string))
                            (bool_decide (Goal.status g = "completed"%string)) g)).
  { subst g'. unfold Goal.save, save_base.
    destruct (Goal.pk _) as [k|] eqn:Hk.
    - exists (Some k). simpl in Hk. rewrite <- Hk.
      destruct (existsb _ _); destruct g; reflexivity.
    - eexists. reflexivity. }
  destruct Hshape as (k & Hg').
  repeat split.
  - rewrite Hg'. reflexivity.
  - rewrite Hg'. simpl. apply bool_decide_eq_true.
  - rewrite Hg'. simpl. intros ->. apply bool_decide_eq_true. reflexivity.
  - rewrite Hg'. simpl. apply bool_decide_eq_true.
  - rewrite Hg'. simpl. intros ->. apply bool_decide_eq_true. reflexivity.
  - apply save_base_stored.
  - intros row. apply save_base_same_pk. intros ? []; reflexivity.
Qed.

(** ** Running a view *)

Ltac run_view :=
  repeat (cbn [mbind mret M_bind M_ret fst snd] in *;
          unfold mbind, mret, M_bind, M_ret, get_db, put_db, modify_db, raise,
            try_except, messages_add, get_object_or_404, related_or_none,
            Notification_create in * ).

(** C5. A request for a premium resource (an active resource found under
    the requested id, asked for by a customer) is refused with the error
    message and a redirect, so with no file content, unless the customer
    has a subscription that is active and whose plan has
    [premium_content]; a response carrying file content implies such a
    subscription. The one-to-one constraint on subscriptions is assumed. *)
Theorem C5_premium_download_gated (w : World.t) (user resource_id : nat)
    (c : Customer.t) (res : Resource.t) :
  dashboard_views.get_customer_or_redirect (World.db w) user = inl c ->
  filter (fun r => Nat.eqb (Resource.id r) resource_id && Resource.is_active r)
         (Db.resources (World.db w)) = [res] ->
  Resource.is_premium res = true ->
  (length (subscription_of (World.db w) c) <= 1)%nat ->
  let out := dashboard_views.download_resource user resource_id w in
  (premium_access (World.db w) c = false ->
     out = (Ok (Redirect "resources_downloads"),
            World.set_flash
              (World.flash w ++
               [(ERROR, "Premium subscription required to access this resource."%string)])
              w)) /\
  (forall content ct cd,
     out.1 = Ok (HttpResponse content ct cd) -> premium_access (World.db w) c = true).
Proof.
  intros Hc Hres Hprem Huniq out.
  assert (Hrefuse : premium_access (World.db w) c = false ->
     out = (Ok (Redirect "resources_downloads"),
            World.set_flash
              (World.flash w ++
               [(ERROR, "Premium subscription required to access this resource."%string)])
              w)).
  { subst out. unfold dashboard_views.download_resource, premium_access.
    run_view. rewrite Hc, Hres. cbn [objects_get]. rewrite Hprem.
    destruct (subscription_of (World.db w) c) as [|sub [|sub' rest]] eqn:Hsub;
      cbn [objects_get exn_class_of andb].
    - reflexivity.
    - intros Hacc. apply andb_false_iff in Hacc.
      destruct Hacc as [-> | ->]; cbn; rewrite ?orb_true_r; reflexivity.
    - simpl in Huniq. lia. }
  split; [exact Hrefuse|].
  intros content ct cd Hout.
  destruct (premium_access (World.db w) c) eqn:Hacc; [reflexivity|].
  rewrite (Hrefuse eq_refl) in Hout. discriminate.
Qed.

Lemma C5_premium_download_gated_witness :
  premium_access Ex.db Ex.bob = false /\
  dashboard_views.download_resource 2 1 Ex.world =
    (Ok (Redirect "resources_downloads"),
     World.set_flash
       [(ERROR, "Premium subscription required to access this resource."%string)]
       Ex.world).
Proof.
  split; [reflexivity|].
  apply (C5_premium_download_gated Ex.world 2 1 Ex.bob Ex.video);
    [reflexivity | reflexivity | reflexivity | simpl; lia | reflexivity].
Defined.



Lemma goal_of_inv (d : Db.t) (c : Customer.t) (gid : option nat) (g : Goal.t) :
  In g (dashboard_views.goal_of d c gid) ->
  In g (Db.goals d) /\ Goal.pk g = gid /\ gid <> None /\
  Goal.customer g = Customer.id c.
Proof.
  unfold dashboard_views.goal_of. rewrite <- list_elem_of_In, list_elem_of_filter.
  intros [Hp Hin]. apply list_elem_of_In in Hin.
  apply Is_true_true in Hp. rewrite !andb_true_iff in Hp.
  destruct Hp as [[Hpk Hnone] Hcust].
  apply bool_decide_eq_true in Hpk. apply negb_true_iff, bool_decide_eq_false in Hnone.
  apply Nat.eqb_eq in Hcust. auto.
Qed.




(** ** Properties that a computation keeps *)
Section Preserves.
Context (P : World.t -> Prop).

Lemma preserves_ret {A : Type} (a : A) : preserves P (mret a).
Proof. intros w Hw. exact Hw. Qed.

Lemma preserves_raise {A : Type} (e : exn) : preserves P (@raise A e).
Proof. intros w Hw. exact Hw. Qed.

Lemma preserves_bind {A B : Type} (m : M A) (f : A -> M B) :
  preserves P m -> (forall a, preserves P (f a)) -> preserves P (m ≫= f).
Proof.
  intros Hm Hf w Hw. specialize (Hm w Hw).
  unfold mbind, M_bind. destruct (m w) as [[a|e] w']; simpl in *.
  - apply Hf. exact Hm.
  - exact Hm.
Qed.

Lemma preserves_try {A : Type} (m : M A) (h : exn -> M A) :
  preserves P m -> (forall e, preserves P (h e)) -> preserves P (try_except m h).
Proof.
  intros Hm Hh w Hw. specialize (Hm w Hw).
  unfold try_except. destruct (m w) as [[a|e] w']; simpl in *.
  - exact Hm.
  - apply Hh. exact Hm.
Qed.

Lemma preserves_get_db : preserves P get_db.
Proof. intros w Hw. exact Hw. Qed.

Lemma preserves_get_object_or_404 {R : Type} (rows : list R) :
  preserves P (get_object_or_404 rows).
Proof.
  intros w Hw. unfold get_object_or_404.
  destruct (objects_get rows) as [r|e]; [exact Hw|].
  destruct (exn_class_of e); exact Hw.
Qed.


End Preserves.

(** A property of the database alone is kept by what does not write to
    the database. *)
Section PreservesDb.
Context (Q : Db.t -> Prop).
Let P := fun w : World.t => Q (World.db w).


Lemma preserves_randint a b : preserves P (randint a b).
Proof. intros w Hw. exact Hw. Qed.

Lemma preserves_messages_add l text : preserves P (messages_add l text).
Proof. intros w Hw. exact Hw. Qed.

Lemma preserves_send_mail subj msg sender to fs :
  preserves P (send_mail subj msg sender to fs).
Proof.
  intros w Hw. unfold send_mail.
  destruct (World.smtp_ok w _); [exact Hw|]. destruct fs; exact Hw.
Qed.

End PreservesDb.

Section PreservesWrites.
Context (Q : Db.t -> Prop).
Let P := fun w : World.t => Q (World.db w).


Lemma preserves_Notification_create (n : Notification.t) :
  (forall rows d, Q d -> Q (Db.set_notifications rows d)) ->
  preserves P (Notification_create n).
Proof. intros Hframe w Hw. apply Hframe. exact Hw. Qed.



End PreservesWrites.



(** Stepping through a computation whose first part returns. *)
Lemma bind_ok {A B : Type} (m : M A) (f : A -> M B) (w w' : World.t) (a : A) :
  m w = (Ok a, w') -> (m ≫= f) w = f a w'.
Proof. intros H. unfold mbind, M_bind. rewrite H. reflexivity. Qed.

Lemma try_bind_ok {A B : Type} (m : M A) (f : A -> M B) (h : exn -> M B)
    (w w' : World.t) (a : A) :
  m w = (Ok a, w') -> try_except (m ≫= f) h w = try_except (f a) h w'.
Proof. intros H. unfold try_except. rewrite (bind_ok _ _ _ _ _ H). reflexivity. Qed.





Lemma filter_none {R : Type} (p : R -> bool) (rows : list R) :
  (forall r, In r rows -> p r = false) -> filter (fun r => p r) rows = [].
Proof.
  induction rows as [|r rows IH]; intros Hall; [reflexivity|].
  rewrite filter_cons. destruct (decide _) as [Hp|_].
  - apply Is_true_true in Hp. rewrite Hall in Hp by (left; reflexivity). discriminate.
  - apply IH. intros r' Hin. apply Hall. right. assumption.
Qed.



(** Closed instances of [table_ok]. *)
Ltac table_ok_tac :=
  unfold table_ok; repeat split; cbn;
  repeat first
    [ apply NoDup_nil_2
    | apply NoDup_cons_2; [rewrite ?elem_of_cons, ?elem_of_nil; intuition congruence|]
    | apply Forall_nil_2
    | apply Forall_cons_2; [discriminate|] ].


(** ** The selection of the trainer *)

Section OrderBy.
Context {A : Type} (key : A -> nat).

Lemma head_insert_by (x : A) (l : list A) :
  head (insert_by key x l) =
  match head l with
  | None => Some x
  | Some y => if (key x <=? key y)%nat then Some x else Some y
  end.
Proof. destruct l as [|y l]; simpl; [reflexivity|]. destruct (_ <=? _)%nat; reflexivity. Qed.

Lemma order_by_nil (l : list A) : head (order_by key l) = None -> l = [].
Proof.
  destruct l as [|x l]; [reflexivity|]. unfold order_by. simpl.
  rewrite head_insert_by. destruct (head _); [destruct (_ <=? _)%nat|]; discriminate.
Qed.

(** [order_by(key).first()] is the first row, in the order of the
    queryset, among those of least key. *)
Lemma order_by_first (l : list A) (t : A) :
  head (order_by key l) = Some t -> first_minimum key l t.
Proof.
  revert t. induction l as [|x l IH]; intros t; [discriminate|].
  unfold order_by. simpl. fold (order_by key l). rewrite head_insert_by.
  destruct (head (order_by key l)) as [y|] eqn:Hy.
  - destruct (IH y eq_refl) as (l1 & l2 & Hl & H1 & H2).
    destruct (key x <=? key y)%nat eqn:Hle; intros [= <-].
    + apply Nat.leb_le in Hle. exists [], l. repeat split; [constructor|].
      rewrite Hl. apply Forall_app. split.
      * eapply Forall_impl; [exact H1|]. simpl. intros; lia.
      * apply Forall_cons. split; [exact Hle|].
        eapply Forall_impl; [exact H2|]. simpl. intros; lia.
    + apply Nat.leb_gt in Hle. exists (x :: l1), l2. repeat split.
      * rewrite Hl. reflexivity.
      * apply Forall_cons. split; assumption.
      * assumption.
  - intros [= <-]. apply order_by_nil in Hy. subst l.
    exists [], []. repeat split; constructor.
Qed.

End OrderBy.

(** ** [subscribe_to_plan] up to the assignment of the trainer *)

Lemma NoDup_map_inj {R K : Type} (f : R -> K) (l : list R) (x y : R) :
  NoDup (map f l) -> In x l -> In y l -> f x = f y -> x = y.
Proof.
  induction l as [|z l IH]; [intros _ []|].
  simpl. intros Hnd Hx Hy Hf. apply NoDup_cons in Hnd as [Hz Hnd].
  destruct Hx as [->|Hx], Hy as [->|Hy]; auto.
  - exfalso. apply Hz. rewrite Hf. apply list_elem_of_In, in_map. assumption.
  - exfalso. apply Hz. rewrite <- Hf. apply list_elem_of_In, in_map. assumption.
Qed.

Lemma save_checked_ok {R : Type} (get_pk : R -> option nat)
    (set_pk : option nat -> R -> R) (clash : R -> R -> bool) (msg : string)
    (table : Db.t -> list R) (set_table : list R -> Db.t -> Db.t) (r : R) (w : World.t) :
  (forall row, In row (table (World.db w)) -> clash r row = true -> get_pk row = get_pk r) ->
  save_checked get_pk set_pk clash msg table set_table r w =
  (Ok (save_base get_pk set_pk r (table (World.db w))).1,
   World.set_db (set_table (save_base get_pk set_pk r (table (World.db w))).2 (World.db w)) w).
Proof.
  intros Hfree. unfold save_checked.
  destruct (existsb _ _) eqn:Hex; [|reflexivity].
  apply existsb_exists in Hex as (row & Hin & Hrow).
  apply andb_true_iff in Hrow as [Hclash Hpk].
  apply negb_true_iff, bool_decide_eq_false in Hpk.
  exfalso. apply Hpk. apply Hfree; assumption.
Qed.


Lemma filter_in {R : Type} (p : R -> bool) (rows : list R) (x : R) :
  In x (filter (fun r => p r) rows) <-> In x rows /\ p x = true.
Proof.
  rewrite <- !list_elem_of_In, list_elem_of_filter, Is_true_true. tauto.
Qed.

















(** ** Sessions *)

Lemma preserves_Session_save_ok (x : Session.t) :
  preserves (fun w => sessions_ok (World.db w)) (models.Session_save x).
Proof.
  intros w Hw. unfold sessions_ok.
  apply (save_checked_keeps_ok Session.pk Session.set_pk slot); try assumption.
  - intros ? []; reflexivity.
  - intros ? []; reflexivity.
  - intros a b. unfold slot. rewrite !andb_true_iff, Nat.eqb_eq, !Z.eqb_eq.
    split; [intros [[-> ->] ->]; reflexivity | intros [= -> -> ->]; auto].
  - intros rows []; reflexivity.
Qed.

Ltac preserves_sessions :=
  repeat first
    [ apply preserves_ret
    | apply preserves_raise
    | apply preserves_get_db
    | apply (preserves_messages_add sessions_ok)
    | apply preserves_get_object_or_404
    | apply preserves_Session_save_ok
    | apply (preserves_Notification_create sessions_ok); intros ? []; trivial
    | apply preserves_try; [|intros]
    | apply preserves_bind; [|intros]
    | match goal with
      | |- preserves _ (trainer_dashboard_views.parsed ?x _) =>
          unfold trainer_dashboard_views.parsed; destruct x
      | |- preserves _ (if ?b then _ else _) => destruct b
      | |- preserves _ (match ?x with _ => _ end) => destruct x
      end ].

Lemma handle_keeps_sessions_ok (r : trainer_dashboard_views.session_request) :
  preserves (fun w => sessions_ok (World.db w)) (trainer_dashboard_views.handle r).
Proof.
  destruct r; cbn [trainer_dashboard_views.handle];
    [ unfold trainer_dashboard_views.trainer_schedule
    | unfold trainer_dashboard_views.update_session_status
    | unfold trainer_dashboard_views.add_session_notes ];
    preserves_sessions.
Qed.

Lemma run_keeps_sessions_ok (requests : list trainer_dashboard_views.session_request)
    (w : World.t) :
  sessions_ok (World.db w) ->
  sessions_ok (World.db (trainer_dashboard_views.run requests w)).
Proof.
  revert w. induction requests as [|r rest IH]; intros w Hw; [exact Hw|].
  simpl. apply IH. apply handle_keeps_sessions_ok. exact Hw.
Qed.

(** Creating a session in a taken slot makes the database raise. *)
Lemma Session_save_taken (x : Session.t) (w : World.t) :
  sessions_ok (World.db w) ->
  Session.pk x = None ->
  (exists y, In y (Db.sessions (World.db w)) /\ slot y = slot x) ->
  exists e, models.Session_save x w = (Raise e, w) /\ exn_class_of e = IntegrityError.
Proof.
  intros (_ & _ & Hsome) Hpk (y & Hin & Hslot).
  unfold models.Session_save, save_checked.
  replace (existsb _ _) with true; [eexists; split; reflexivity|].
  symmetry. apply existsb_exists. exists y. split; [assumption|].
  apply andb_true_iff. split.
  - unfold slot in Hslot. injection Hslot as -> -> ->.
    rewrite Nat.eqb_refl, !Z.eqb_refl. reflexivity.
  - apply negb_true_iff, bool_decide_eq_false. rewrite Hpk.
    rewrite Forall_forall in Hsome. apply Hsome, list_elem_of_In. assumption.
Qed.

Lemma trainer_schedule_taken (w : World.t) (user : nat)
    (post : trainer_dashboard_views.schedule_post) (trainer : Trainer.t) (date time : Z) :
  sessions_ok (World.db w) ->
  trainer_dashboard_views.get_trainer_or_redirect (World.db w) user = inl trainer ->
  trainer_dashboard_views.session_date post = Some date ->
  trainer_dashboard_views.session_time post = Some time ->
  slot_taken (World.db w) trainer date time ->
  exists msg,
    trainer_dashboard_views.trainer_schedule user post w =
    (Ok (Redirect "trainer_schedule"),
     World.set_flash (World.flash w ++ [(ERROR, msg)]) w).
Proof.
  intros Hok Htr Hdate Htime Htaken.
  unfold trainer_dashboard_views.trainer_schedule.
  rewrite (bind_ok get_db _ w w (World.db w)) by reflexivity. rewrite Htr.
  match goal with
  | |- exists msg, (?try_ ≫= _) w = _ =>
      assert (Htry : exists msg, try_ w = (Ok tt, World.set_flash (World.flash w ++ [(ERROR, msg)]) w));
        [|destruct Htry as (msg & Htry); exists msg;
          rewrite (bind_ok _ _ _ _ _ Htry); reflexivity]
  end.
  unfold trainer_dashboard_views.parsed.
  destruct (trainer_dashboard_views.duration_minutes post) as [duration|].
  2:{ eexists. reflexivity. }
  erewrite try_bind_ok by reflexivity.
  destruct (filter _ (Db.customers (World.db w))) as [|customer [|c' cs]].
  1,3: eexists; reflexivity.
  erewrite try_bind_ok by reflexivity.
  destruct (filter _ (Db.assignments (World.db w))) as [|a [|a' rest]].
  1,3: eexists; reflexivity.
  erewrite try_bind_ok by reflexivity. cbn [negb].
  rewrite Hdate, Htime.
  erewrite try_bind_ok by reflexivity. erewrite try_bind_ok by reflexivity.
  destruct (trainer_dashboard_views.conflicting _ _ _ _).
  2:{ eexists. reflexivity. }
  match goal with
  | |- context [models.Session_save ?x] =>
      destruct (Session_save_taken x w Hok eq_refl) as (e & Hrun & Hclass)
  end.
  { destruct Htaken as (y & Hin & Hslot). exists y. split; [assumption|].
    rewrite Hslot. reflexivity. }
  unfold try_except, mbind, M_bind. rewrite Hrun, Hclass. eexists. reflexivity.
Qed.

(** C7. Starting from session rows that respect the constraint, whatever
    requests a trainer sends, no two session rows ever share their
    (trainer, session_date, session_time); and scheduling a session in a
    slot that some row occupies is rejected: an error message, no row
    written. *)
Theorem C7_session_slots (w : World.t) (user : nat)
    (post : trainer_dashboard_views.schedule_post) (trainer : Trainer.t) (date time : Z) :
  sessions_ok (World.db w) ->
  (forall requests,
     NoDup (map slot (Db.sessions (World.db (trainer_dashboard_views.run requests w))))) /\
  (trainer_dashboard_views.get_trainer_or_redirect (World.db w) user = inl trainer ->
   trainer_dashboard_views.session_date post = Some date ->
   trainer_dashboard_views.session_time post = Some time ->
   slot_taken (World.db w) trainer date time ->
   let out := trainer_dashboard_views.trainer_schedule user post w in
   out.1 = Ok (Redirect "trainer_schedule") /\
   World.db out.2 = World.db w /\
   exists msg, World.flash out.2 = World.flash w ++ [(ERROR, msg)]).
Proof.
  intros Hok. split.
  - intros requests. apply (run_keeps_sessions_ok requests w Hok).
  - intros Htr Hdate Htime Htaken out.
    destruct (trainer_schedule_taken w user post trainer date time
                Hok Htr Hdate Htime Htaken) as (msg & Hrun).
    subst out. rewrite Hrun. repeat split. exists msg. reflexivity.
Qed.

Lemma C7_session_slots_witness :
  let post := trainer_dashboard_views.mk_schedule_post
                (Some 1%nat) "2024-10-04" "10:00" (Some 20000) (Some 600)
                "personal" (Some 60) "" in
  let out := trainer_dashboard_views.trainer_schedule 3 post Ex.world in
  (forall requests,
     NoDup (map slot (Db.sessions (World.db (trainer_dashboard_views.run requests Ex.world))))) /\
  out.1 = Ok (Redirect "trainer_schedule") /\
  World.db out.2 = Ex.db /\
  exists msg, World.flash out.2 = [(ERROR, msg)].
Proof.
  assert (Hok : sessions_ok (World.db Ex.world)) by (unfold sessions_ok; table_ok_tac).
  destruct (C7_session_slots Ex.world 3
              (trainer_dashboard_views.mk_schedule_post
                 (Some 1%nat) "2024-10-04" "10:00" (Some 20000) (Some 600)
                 "personal" (Some 60) "")
              (Trainer.mk 2 12 "Main Street 2" true) 20000 600 Hok) as [Hever Hreject].
  split; [exact Hever|].
  apply Hreject; [reflexivity | reflexivity | reflexivity |].
  eexists. split; [left; reflexivity | reflexivity].
Defined.

(** ** The one-time code *)



Lemma randint_range (a b : Z) (w : World.t) :
  a <= b -> exists n, (randint a b w).1 = Ok n /\ a <= n <= b.
Proof.
  intros Hab. eexists. split; [reflexivity|].
  pose proof (Z.mod_pos_bound (World.entropy w (World.draws w)) (b - a + 1)). lia.
Qed.


Ltac run_otp :=
  unfold views.session_get, views.session_set, views.session_pop, randint,
    timezone_now, send_mail, messages_add, get_db, mbind, mret, M_bind, M_ret;
  cbn [World.db World.session World.flash World.outbox World.tick World.clock
       World.draws World.entropy World.smtp_ok
       World.set_db World.set_session World.set_flash World.set_outbox
       World.set_tick World.set_draws fst snd].


Section VerifyOtp.
Context (w : World.t) (entered : option string) (data : SignupData.t)
        (otp : string) (expiry : Time.datetime) (attempts : Z).
Hypothesis Hsession : otp_session (World.session w) data otp expiry attempts.
Hypothesis Hotp : otp <> ""%string.

Let now := World.clock w (World.tick w).
Let ticked := World.set_tick (S (World.tick w)) w.

Lemma verify_otp_enters :
  views.verify_otp POST entered w =
  (if now >? expiry then
     messages_add ERROR "OTP expired. Please resend OTP.";;
     mret (Redirect "verify_otp")
   else if attempts >=? 5 then
     messages_add ERROR "Too many failed attempts. Please start again.";;
     mret (Redirect "select_signup")
   else if bool_decide (entered = Some otp) then
     d ← get_db;
     if existsb (fun u => String.eqb (User.username u) (SignupData.username data))
                (Db.users d) then
       messages_add ERROR "Username already exists. Please choose another.";;
       mret (Redirect "select_signup")
     else if existsb (fun u => String.eqb (User.email u) (SignupData.email data))
                     (Db.users d) then
       messages_add ERROR
         "Email already registered. Please login or use a different one.";;
       mret (Redirect "select_signup")
     else
       user ← views.User_create_user (SignupData.username data) (SignupData.email data)
                (SignupData.password data);
       profile ← views.Profile_create user (SignupData.phone data) (SignupData.role data);
       (if String.eqb (SignupData.role data) "customer" then
          views.Customer_create profile;; mret tt
        else if String.eqb (SignupData.role data) "trainer" then
          views.Trainer_create profile (default ""%string (SignupData.address data));;
          mret tt
        else mret tt);;
       send_mail "Welcome!" "Your account has been created successfully."
         "noreply@yourdomain.com" [SignupData.email data] false;;
       views.session_pop "signup_data";;
       views.session_pop "otp";;
       views.session_pop "otp_expiry";;
       views.session_pop "otp_attempts";;
       messages_add SUCCESS "Account created successfully. Please login.";;
       mret (Redirect "login")
   else
     views.session_set "otp_attempts" (SvInt (attempts + 1));;
     mret (views.verify_otp_page (Some entered) expiry (SignupData.email data)))
  ticked.
Proof.
  destruct Hsession as (Hd & Ho & He & Ha).
  unfold views.verify_otp.
  rewrite (bind_ok (views.session_get "signup_data") _ w w _ eq_refl), Hd.
  rewrite (bind_ok (views.session_get "otp") _ w w _ eq_refl), Ho.
  rewrite (bind_ok (views.session_get "otp_expiry") _ w w _ eq_refl), He.
  rewrite (bind_ok (views.session_get "otp_attempts") _ w w _ eq_refl), Ha.
  replace (String.eqb otp "") with false
    by (symmetry; apply String.eqb_neq; exact Hotp).
  rewrite (bind_ok timezone_now _ w ticked now eq_refl). reflexivity.
Qed.




End VerifyOtp.







(** ** Mail *)













(** ** Decimal arithmetic: [monthly_equivalent] *)

Section DecimalFacts.
Import Decimal.

Lemma ndigits_fuel_bounds (fuel : nat) (n : N) :
  (0 < n)%N -> (n < 2 ^ N.of_nat fuel)%N ->
  1 <= ndigits_fuel fuel n /\
  10 ^ (ndigits_fuel fuel n - 1) <= Z.of_N n < 10 ^ ndigits_fuel fuel n.
Proof.
  revert n. induction fuel as [|fuel IH]; intros n Hn Hsize.
  - simpl in Hsize. lia.
  - cbn [ndigits_fuel]. destruct (n <? 10)%N eqn:Hlt.
    + apply N.ltb_lt in Hlt. simpl. lia.
    + apply N.ltb_ge in Hlt.
      assert (Hq : (0 < n / 10)%N) by (apply N.div_str_pos; lia).
      assert (Hs : (n / 10 < 2 ^ N.of_nat fuel)%N).
      { rewrite Nat2N.inj_succ, N.pow_succ_r' in Hsize.
        apply N.Div0.div_lt_upper_bound. lia. }
      destruct (IH (n / 10)%N Hq Hs) as [H1 [Hlo Hhi]].
      set (k := ndigits_fuel fuel (n / 10)) in *.
      split; [lia|].
      replace (1 + k - 1) with (Z.succ (k - 1)) by lia.
      replace (1 + k) with (Z.succ k) by lia.
      rewrite !Z.pow_succ_r by lia.
      rewrite N2Z.inj_div in Hlo, Hhi. change (Z.of_N 10) with 10 in *.
      clear IH Hsize Hs. set (P1 := 10 ^ (k - 1)) in *. set (P2 := 10 ^ k) in *.
      clearbody P1 P2. clearbody k.
      Z.div_mod_to_equations. lia.
Qed.

Lemma ndigits_bounds (n : N) :
  (0 < n)%N ->
  1 <= ndigits n /\ 10 ^ (ndigits n - 1) <= Z.of_N n < 10 ^ ndigits n.
Proof.
  intros Hn. apply ndigits_fuel_bounds; [exact Hn|].
  rewrite Nat2N.inj_succ, N2Nat.id. apply N.log2_spec. exact Hn.
Qed.

Lemma pow10_Z (k : Z) : 0 <= k -> Z.of_N (pow10 k) = 10 ^ k.
Proof. intros Hk. unfold pow10. rewrite N2Z.inj_pow, Z2N.id by exact Hk. reflexivity. Qed.

(** Rounding to the nearest multiple of [B], in integers. *)
Lemma round_core (cc B g hi lo c : Z) :
  B = 10 * g -> 0 < g -> cc = hi * B + lo -> 0 <= lo < B ->
  (c = hi /\ lo <= 5 * g) \/ (c = hi + 1 /\ 5 * g <= lo) ->
  2 * Z.abs (c * B - cc) <= B.
Proof.
  intros HB Hg Hcc Hlo [[-> Hd]|[-> Hd]]; subst cc.
  - replace (hi * B - (hi * B + lo)) with (- lo) by ring. lia.
  - replace ((hi + 1) * B - (hi * B + lo)) with (B - lo) by ring. lia.
Qed.

(** The same with a sticky last digit: [cc] is the quotient [q] of [N] by
    [d], or [q + 1] when [q] is a multiple of five, the division leaving a
    remainder. Rounding [cc] then rounds [N / d] correctly. *)
Lemma sticky_core (N d q rem cc B g hi lo c : Z) :
  0 < d -> N = q * d + rem -> 0 < rem < d ->
  (cc = q /\ q mod 5 <> 0) \/ (cc = q + 1 /\ q mod 5 = 0) ->
  B = 10 * g -> 0 < g -> cc = hi * B + lo -> 0 <= lo < B ->
  (c = hi /\ lo <= 5 * g) \/ (c = hi + 1 /\ 5 * g <= lo) ->
  2 * Z.abs (c * B * d - N) <= B * d.
Proof.
  intros Hd HN Hrem Hcc HB Hg Hsplit Hlo Hc.
  assert (Hne : lo <> 5 * g /\ (cc = q + 1 -> 1 <= lo)).
  { subst B. destruct Hcc as [[-> Hm]|[-> Hm]].
    - split; [|lia]. intros Heq. apply Hm.
      replace q with ((hi * 2 * g + g) * 5) by lia. apply Z.mod_mul. lia.
    - assert (Hq : q = 5 * (q / 5)) by (pose proof (Z.div_mod q 5 ltac:(lia)); lia).
      split; [|].
      + intros Heq. set (a := q / 5) in *. clearbody a. lia.
      + intros _. set (a := q / 5) in *. clearbody a.
        destruct (Z.eq_dec lo 0) as [->|]; [|lia]. exfalso. lia. }
  destruct Hne as [Hne Hpos].
  destruct Hc as [[-> Hdown]|[-> Hup]].
  - assert (Hlo' : lo + 1 <= 5 * g) by lia.
    destruct Hcc as [[-> _]|[-> _]].
    + replace (hi * B * d - N) with (- (lo * d + rem)) by (subst N; rewrite Hsplit; ring).
      assert (0 <= lo * d) by nia. assert ((lo + 1) * d <= 5 * g * d) by nia.
      subst B. rewrite Z.abs_opp, Z.abs_eq by lia. lia.
    + specialize (Hpos eq_refl).
      replace (hi * B * d - N) with (- ((lo - 1) * d + rem))
        by (subst N; replace q with (hi * B + lo - 1) by lia; ring).
      assert (0 <= (lo - 1) * d) by nia. assert ((lo + 1) * d <= 5 * g * d) by nia.
      subst B. rewrite Z.abs_opp, Z.abs_eq by lia. lia.
  - assert (Hlo' : 5 * g + 1 <= lo) by lia.
    destruct Hcc as [[-> _]|[-> _]].
    + replace ((hi + 1) * B * d - N) with ((B - lo) * d - rem)
        by (subst N; rewrite Hsplit; ring).
      assert (d <= (B - lo) * d) by nia. assert ((B - lo) * d <= (5 * g - 1) * d) by nia.
      subst B. rewrite Z.abs_eq by lia. lia.
    + replace ((hi + 1) * B * d - N) with ((B - lo + 1) * d - rem)
        by (subst N; replace q with (hi * B + lo - 1) by lia; ring).
      assert (d <= (B - lo + 1) * d) by nia. assert ((B - lo + 1) * d <= 5 * g * d) by nia.
      subst B. rewrite Z.abs_eq by lia. lia.
Qed.

Lemma ndigits_unique (n : N) (k : Z) :
  1 <= k -> 10 ^ (k - 1) <= Z.of_N n < 10 ^ k -> ndigits n = k.
Proof.
  intros Hk [Hlo Hhi].
  assert (Hn : (0 < n)%N).
  { assert (0 < 10 ^ (k - 1)) by (apply Z.pow_pos_nonneg; lia). lia. }
  destruct (ndigits_bounds n Hn) as [H1 [Hl Hh]].
  set (m := ndigits n) in *. clearbody m.
  destruct (Z.lt_trichotomy m k) as [Hlt|[Heq|Hgt]]; [|exact Heq|].
  - assert (10 ^ m <= 10 ^ (k - 1)) by (apply Z.pow_le_mono_r; lia). lia.
  - assert (10 ^ k <= 10 ^ (m - 1)) by (apply Z.pow_le_mono_r; lia). lia.
Qed.

Lemma ndigits_le (n : N) (k : Z) :
  1 <= k -> Z.of_N n < 10 ^ k -> ndigits n <= k.
Proof.
  intros Hk Hhi. destruct (N.eq_0_gt_0_cases n) as [->|Hn]; [change (ndigits 0) with 1; lia|].
  destruct (ndigits_bounds n Hn) as [H1 [Hl Hh]].
  set (m := ndigits n) in *. clearbody m.
  destruct (Z.le_gt_cases m k) as [Hle|Hgt]; [exact Hle|].
  assert (10 ^ k <= 10 ^ (m - 1)) by (apply Z.pow_le_mono_r; lia). lia.
Qed.

(** [fix_] leaves a coefficient of at most 28 digits alone. *)
Lemma fix_short (d : t) : ndigits (coefficient d) <= prec -> fix_ d = d.
Proof.
  intros Hlen. unfold fix_. destruct (coefficient d =? 0)%N; [reflexivity|].
  replace (ndigits (coefficient d) <=? prec) with true
    by (symmetry; apply Z.leb_le; exact Hlen).
  reflexivity.
Qed.

(** [fix_] on a longer coefficient: the result has 28 digits and is the
    coefficient rounded to a multiple of [B = 10 g], the weight of the
    digits that go. *)
Lemma fix_round (d : t) :
  prec < ndigits (coefficient d) ->
  exists (cr : N) (D' c g hi lo : Z),
    fix_ d = mk (sign d) cr (exponent d + D') /\
    ndigits cr = prec /\
    0 < g /\ 10 * g <= 10 ^ D' /\ 0 <= D' /\
    Z.of_N cr * 10 ^ D' = c * (10 * g) /\
    Z.of_N (coefficient d) = hi * (10 * g) + lo /\
    0 <= lo < 10 * g /\
    ((c = hi /\ lo <= 5 * g) \/ (c = hi + 1 /\ 5 * g <= lo)).
Proof.
  intros Hlen. unfold prec in *.
  assert (Hpos : (0 < coefficient d)%N).
  { destruct (N.eq_0_gt_0_cases (coefficient d)) as [H0|H0]; [|exact H0].
    rewrite H0 in Hlen. vm_compute in Hlen. discriminate. }
  destruct (ndigits_bounds _ Hpos) as [_ [Hlo Hhi]].
  unfold fix_. unfold prec.
  replace (coefficient d =? 0)%N with false by (symmetry; apply N.eqb_neq; lia).
  replace (ndigits (coefficient d) <=? 28) with false
    by (symmetry; apply Z.leb_gt; exact Hlen).
  set (n := ndigits (coefficient d)) in *. clearbody n.
  set (D := n - 28).
  assert (HD : 1 <= D) by (subst D; lia).
  set (g := 10 ^ (D - 1)).
  assert (Hg : 0 < g) by (apply Z.pow_pos_nonneg; lia).
  assert (HB : 10 ^ D = 10 * g).
  { subst g. replace D with (Z.succ (D - 1)) at 1 by lia. apply Z.pow_succ_r. lia. }
  assert (Hp : Z.of_N (pow10 D) = 10 * g) by (rewrite pow10_Z by lia; exact HB).
  set (cc := Z.of_N (coefficient d)) in *.
  set (hiN := (coefficient d / pow10 D)%N).
  set (loN := (coefficient d mod pow10 D)%N).
  assert (Hhi_eq : Z.of_N hiN = cc / (10 * g))
    by (subst hiN; rewrite N2Z.inj_div, Hp; reflexivity).
  assert (Hlo_eq : Z.of_N loN = cc mod (10 * g))
    by (subst loN; rewrite N2Z.inj_mod, Hp; reflexivity).
  assert (Hhalf : Z.of_N (pow10 D / 2) = 5 * g).
  { rewrite N2Z.inj_div, Hp. change (Z.of_N 2) with 2.
    replace (10 * g) with (5 * g * 2) by ring. apply Z.div_mul. lia. }
  pose proof (Z.div_mod cc (10 * g) ltac:(lia)) as Hdm.
  pose proof (Z.mod_pos_bound cc (10 * g) ltac:(lia)) as Hmb.
  assert (Hn27 : 10 ^ (n - 1) = 10 ^ 27 * (10 * g)).
  { rewrite <- HB, <- Z.pow_add_r by lia. f_equal. subst D. lia. }
  assert (Hn28 : 10 ^ n = 10 ^ 28 * (10 * g)).
  { rewrite <- HB, <- Z.pow_add_r by lia. f_equal. subst D. lia. }
  assert (Hhi_rng : 10 ^ 27 <= Z.of_N hiN < 10 ^ 28).
  { rewrite Hhi_eq. split.
    - apply Z.div_le_lower_bound; lia.
    - apply Z.div_lt_upper_bound; lia. }
  set (up := ((pow10 D / 2 <? loN)%N || ((loN =? pow10 D / 2)%N && N.odd hiN))).
  set (cN := if up then (hiN + 1)%N else hiN).
  assert (Hc : (Z.of_N cN = Z.of_N hiN /\ Z.of_N loN <= 5 * g) \/
               (Z.of_N cN = Z.of_N hiN + 1 /\ 5 * g <= Z.of_N loN)).
  { subst cN. destruct up eqn:Hup; subst up.
    - right. split; [lia|]. apply orb_true_iff in Hup as [Hup|Hup].
      + apply N.ltb_lt in Hup. lia.
      + apply andb_true_iff in Hup as [Hup _]. apply N.eqb_eq in Hup. lia.
    - left. split; [reflexivity|]. apply orb_false_iff in Hup as [Hup _].
      apply N.ltb_ge in Hup. lia. }
  assert (Hsplit : cc = Z.of_N hiN * (10 * g) + Z.of_N loN)
    by (rewrite Hhi_eq, Hlo_eq; lia).
  assert (Hlo_rng : 0 <= Z.of_N loN < 10 * g) by (rewrite Hlo_eq; exact Hmb).
  destruct (28 <? ndigits cN) eqn:Hcarry.
  - apply Z.ltb_lt in Hcarry.
    assert (HcN : Z.of_N cN = 10 ^ 28).
    { assert (HcNpos : (0 < cN)%N) by lia.
      destruct (ndigits_bounds cN HcNpos) as [_ [Hl _]].
      assert (10 ^ 28 <= 10 ^ (ndigits cN - 1)) by (apply Z.pow_le_mono_r; lia).
      lia. }
    exists (cN / 10)%N, (D + 1), (Z.of_N cN), g, (Z.of_N hiN), (Z.of_N loN).
    assert (Hten : Z.of_N (cN / 10) = 10 ^ 27).
    { rewrite N2Z.inj_div, HcN. change (Z.of_N 10) with 10.
      change (10 ^ 28) with (10 ^ 27 * 10). apply Z.div_mul. lia. }
    split; [f_equal; lia|].
    split; [apply ndigits_unique; [lia|rewrite Hten; change (28 - 1) with 27; lia]|].
    split; [exact Hg|].
    split; [rewrite Z.pow_add_r, HB by lia; lia|].
    split; [lia|].
    split; [rewrite Hten, HcN, Z.pow_add_r, HB by lia; lia|].
    split; [exact Hsplit|]. split; [exact Hlo_rng|]. exact Hc.
  - apply Z.ltb_ge in Hcarry.
    exists cN, D, (Z.of_N cN), g, (Z.of_N hiN), (Z.of_N loN).
    assert (HcN : Z.of_N cN < 10 ^ 28).
    { assert (HcNpos : (0 < cN)%N) by lia.
      destruct (ndigits_bounds cN HcNpos) as [_ [_ Hh]].
      assert (10 ^ ndigits cN <= 10 ^ 28) by (apply Z.pow_le_mono_r; lia).
      lia. }
    split; [reflexivity|].
    split; [apply ndigits_unique; [lia|change (28 - 1) with 27; lia]|].
    split; [exact Hg|].
    split; [lia|]. split; [lia|]. split; [rewrite HB; reflexivity|].
    split; [exact Hsplit|]. split; [exact Hlo_rng|]. exact Hc.
Qed.

Lemma strip_zeros_spec (fuel : nat) (coeff : N) (exp ideal_exp : Z) :
  exists k, 0 <= k /\
    (strip_zeros fuel coeff exp ideal_exp).2 = exp + k /\
    Z.of_N coeff = Z.of_N (strip_zeros fuel coeff exp ideal_exp).1 * 10 ^ k.
Proof.
  revert coeff exp. induction fuel as [|fuel IH]; intros coeff exp.
  - exists 0. simpl. split; [lia|]. split; lia.
  - cbn [strip_zeros]. destruct ((exp <? ideal_exp) && (coeff mod 10 =? 0)%N) eqn:Hgo.
    + apply andb_true_iff in Hgo as [_ Hz]. apply N.eqb_eq in Hz.
      destruct (IH (coeff / 10)%N (exp + 1)) as (k & Hk & He & Hc).
      exists (k + 1). split; [lia|]. split; [lia|].
      rewrite Z.pow_add_r by lia. rewrite Z.mul_assoc, <- Hc.
      rewrite N2Z.inj_div. change (Z.of_N 10) with 10.
      assert (Hm : Z.of_N coeff mod 10 = 0).
      { change 10 with (Z.of_N 10). rewrite <- N2Z.inj_mod, Hz. reflexivity. }
      pose proof (Z.div_mod (Z.of_N coeff) 10 ltac:(lia)). lia.
    + exists 0. simpl. split; [lia|]. split; lia.
Qed.

(** Division of two non-zero coefficients, in integers: the coefficient
    [cr] of the result, scaled by the [E] digits it lost, is the quotient
    of [c * 10^shift] by [d] to within half a unit of the last digit, and
    is that quotient unless it fills the 28 digits. *)
Lemma truediv_int (a b : t) :
  let c := Z.of_N (coefficient a) in
  let d := Z.of_N (coefficient b) in
  let shift := ndigits (coefficient b) - ndigits (coefficient a) + prec + 1 in
  0 < c -> 0 < d -> 0 <= shift ->
  exists (r : t) (E : Z),
    truediv a b = Ok r /\
    sign r = xorb (sign a) (sign b) /\
    ndigits (coefficient r) <= prec /\
    0 <= E /\
    exponent r = exponent a - exponent b - shift + E /\
    2 * Z.abs (Z.of_N (coefficient r) * 10 ^ E * d - c * 10 ^ shift) <= 10 ^ E * d /\
    (ndigits (coefficient r) = prec \/
     Z.of_N (coefficient r) * 10 ^ E * d = c * 10 ^ shift).
Proof.
  intros c d shift Hc Hd Hshift. unfold truediv.
  replace (coefficient b =? 0)%N with false by (symmetry; apply N.eqb_neq; lia).
  replace (coefficient a =? 0)%N with false by (symmetry; apply N.eqb_neq; lia).
  fold shift. replace (0 <=? shift) with true by (symmetry; apply Z.leb_le; exact Hshift).
  set (sgn := xorb (sign a) (sign b)).
  set (exp0 := exponent a - exponent b - shift).
  pose proof (N.div_eucl_spec (coefficient a * pow10 shift) (coefficient b)) as Hspec.
  pose proof (N.mod_lt (coefficient a * pow10 shift) (coefficient b) ltac:(lia)) as Hlt.
  unfold N.modulo in Hlt.
  destruct (N.div_eucl (coefficient a * pow10 shift) (coefficient b)) as [q rem] eqn:Hdiv.
  cbn [snd] in Hlt.
  assert (HN : c * 10 ^ shift = Z.of_N q * d + Z.of_N rem).
  { subst c d. rewrite <- pow10_Z by exact Hshift. lia. }
  assert (Hrem : 0 <= Z.of_N rem < d) by (subst d; lia).
  (* the quotient has at least 29 digits *)
  assert (Hq : 10 ^ 28 <= Z.of_N q).
  { destruct (ndigits_bounds (coefficient a) ltac:(lia)) as [Ha1 [Hal _]].
    destruct (ndigits_bounds (coefficient b) ltac:(lia)) as [Hb1 [_ Hbh]].
    fold c in Hal. fold d in Hbh.
    assert (Hpow : 10 ^ (ndigits (coefficient a) - 1) * 10 ^ shift
                   = 10 ^ 28 * 10 ^ ndigits (coefficient b)).
    { rewrite <- !Z.pow_add_r by (unfold prec in *; lia). f_equal.
      subst shift. unfold prec. lia. }
    assert (Hs : 0 < 10 ^ shift) by (apply Z.pow_pos_nonneg; lia).
    assert (Hbig : 10 ^ 28 * (d + 1) <= c * 10 ^ shift).
    { transitivity (10 ^ 28 * 10 ^ ndigits (coefficient b)); [nia|].
      rewrite <- Hpow. nia. }
    nia. }
  destruct (negb (rem =? 0)%N) eqn:Hinexact.
  - (* inexact: sticky digit, then rounding *)
    apply negb_true_iff, N.eqb_neq in Hinexact.
    set (coeff' := if (q mod 5 =? 0)%N then (q + 1)%N else q).
    assert (Hcc : (Z.of_N coeff' = Z.of_N q /\ Z.of_N q mod 5 <> 0) \/
                  (Z.of_N coeff' = Z.of_N q + 1 /\ Z.of_N q mod 5 = 0)).
    { subst coeff'. destruct (q mod 5 =? 0)%N eqn:H5.
      - right. apply N.eqb_eq in H5. split; [lia|].
        change 5 with (Z.of_N 5). rewrite <- N2Z.inj_mod, H5. reflexivity.
      - left. apply N.eqb_neq in H5. split; [reflexivity|].
        change 5 with (Z.of_N 5). rewrite <- N2Z.inj_mod. lia. }
    assert (Hlong : prec < ndigits coeff').
    { assert (Hpos : (0 < coeff')%N) by lia.
      destruct (ndigits_bounds coeff' Hpos) as [_ [_ Hh]].
      destruct (Z.lt_ge_cases prec (ndigits coeff')) as [H|H]; [exact H|].
      assert (10 ^ ndigits coeff' <= 10 ^ 28).
      { apply Z.pow_le_mono_r; unfold prec in H; lia. }
      lia. }
    destruct (fix_round (mk sgn coeff' exp0) Hlong)
      as (cr & D' & cv & g & hi & lo & Hfix & Hnd & Hg & HB & HD' & Hval & Hsplit & Hlo & Hdec).
    cbn [sign coefficient exponent] in *.
    exists (mk sgn cr (exp0 + D')), D'.
    split; [rewrite Hfix; reflexivity|]. split; [reflexivity|].
    split; [cbn [coefficient]; lia|]. split; [exact HD'|]. split; [reflexivity|].
    split; [|left; exact Hnd].
    cbn [coefficient]. rewrite Hval.
    pose proof (sticky_core (c * 10 ^ shift) d (Z.of_N q) (Z.of_N rem) (Z.of_N coeff')
                  (10 * g) g hi lo cv Hd HN ltac:(lia) Hcc eq_refl Hg Hsplit Hlo Hdec) as Hcore.
    assert (10 * g * d <= 10 ^ D' * d) by nia. lia.
  - (* exact: trailing zeros go, then rounding if still too long *)
    apply negb_false_iff, N.eqb_eq in Hinexact. subst rem.
    destruct (strip_zeros_spec (Z.to_nat (exponent a - exponent b - exp0)) q exp0
                (exponent a - exponent b)) as (k & Hk & He & Hcq).
    destruct (strip_zeros _ q exp0 _) as [coeff' exp'] eqn:Hstrip.
    cbn [fst snd] in He, Hcq. subst exp'.
    assert (Hpk : 0 < 10 ^ k) by (apply Z.pow_pos_nonneg; lia).
    destruct (Z.le_gt_cases (ndigits coeff') prec) as [Hshort|Hlong].
    + rewrite (fix_short (mk sgn coeff' (exp0 + k))) by exact Hshort.
      exists (mk sgn coeff' (exp0 + k)), k.
      split; [reflexivity|]. split; [reflexivity|]. split; [exact Hshort|].
      split; [exact Hk|]. split; [reflexivity|].
      cbn [coefficient]. rewrite <- Hcq.
      split; [|right; lia].
      replace (Z.of_N q * d - c * 10 ^ shift) with 0 by lia. simpl. nia.
    + destruct (fix_round (mk sgn coeff' (exp0 + k)) Hlong)
        as (cr & D' & cv & g & hi & lo & Hfix & Hnd & Hg & HB & HD' & Hval & Hsplit & Hlo & Hdec).
      cbn [sign coefficient exponent] in *.
      exists (mk sgn cr (exp0 + k + D')), (D' + k).
      split; [rewrite Hfix; reflexivity|]. split; [reflexivity|].
      split; [cbn [coefficient]; lia|]. split; [lia|]. split; [cbn [exponent]; lia|].
      split; [|left; exact Hnd].
      cbn [coefficient].
      pose proof (round_core (Z.of_N coeff') (10 * g) g hi lo cv eq_refl Hg Hsplit Hlo Hdec)
        as Hcore.
      rewrite Z.pow_add_r by lia.
      replace (Z.of_N cr * (10 ^ D' * 10 ^ k) * d - c * 10 ^ shift)
        with ((cv * (10 * g) - Z.of_N coeff') * (10 ^ k * d)).
      2:{ rewrite <- Hval. rewrite HN, Hcq. ring. }
      rewrite Z.abs_mul. rewrite (Z.abs_eq (10 ^ k * d)) by nia.
      assert (0 <= 10 ^ k * d) by nia.
      assert (2 * Z.abs (cv * (10 * g) - Z.of_N coeff') * (10 ^ k * d)
              <= 10 * g * (10 ^ k * d)) by nia.
      assert (10 * g * (10 ^ k * d) <= 10 ^ D' * (10 ^ k * d)) by nia.
      lia.
Qed.

(** Powers of ten in [Q]. *)
Lemma pw_add (x y : Z) : ((10 # 1) ^ (x + y) == (10 # 1) ^ x * (10 # 1) ^ y)%Q.
Proof. apply Qpower_plus. discriminate. Qed.

Lemma pw_nonneg (k : Z) : 0 <= k -> ((10 # 1) ^ k == inject_Z (10 ^ k))%Q.
Proof. intros Hk. rewrite Zpower_Qpower by exact Hk. reflexivity. Qed.

Lemma pw_pos (k : Z) : (0 < (10 # 1) ^ k)%Q.
Proof. apply Qpower_0_lt. reflexivity. Qed.

(** From the integer bound to the bound on the values. *)
Lemma half_ulp_bound (scr sc TE TS d : Z) (u : Q) :
  0 < d -> (0 < u)%Q ->
  2 * Z.abs (scr * TE * d - sc * TS) <= TE * d ->
  (Qabs (inject_Z scr * (u * inject_Z TE)
         - inject_Z sc * (u * inject_Z TS) / inject_Z d)
   <= (1 # 2) * (u * inject_Z TE))%Q.
Proof.
  intros Hd Hu Hint.
  assert (Hdq : ~ (inject_Z d == 0)%Q).
  { intros H. unfold Qeq in H. simpl in H. lia. }
  assert (Heq : (inject_Z scr * (u * inject_Z TE)
                 - inject_Z sc * (u * inject_Z TS) / inject_Z d
                 == u * (inject_Z (scr * TE * d - sc * TS) / inject_Z d))%Q).
  { unfold Zminus. rewrite inject_Z_plus, inject_Z_opp, !inject_Z_mult. field. exact Hdq. }
  rewrite Heq, Qabs_Qmult, (Qabs_pos u) by (apply Qlt_le_weak; exact Hu).
  assert (Hr : ((1 # 2) * (u * inject_Z TE) == u * (inject_Z TE * (1 # 2)))%Q) by ring.
  rewrite Hr.
  apply (proj2 (Qmult_le_l _ _ u Hu)).
  set (X := scr * TE * d - sc * TS) in *. clearbody X.
  unfold Qdiv. rewrite Qabs_Qmult.
  assert (Hinv : (Qabs (/ inject_Z d) == / inject_Z d)%Q).
  { apply Qabs_pos. apply Qlt_le_weak, Qinv_lt_0_compat.
    unfold Qlt. simpl. lia. }
  rewrite Hinv.
  apply (Qle_shift_div_r (Qabs (inject_Z X)) (inject_Z d) (inject_Z TE * (1 # 2)));
    [unfold Qlt; simpl; lia|].
  unfold Qle, Qabs, inject_Z, Qmult. cbn [Qnum Qden]. lia.
Qed.

Lemma mul_30 (price : t) :
  Z.of_N (coefficient price) < 10 ^ 10 ->
  mul price (of_int 30) = mk (sign price) (coefficient price * 30) (exponent price).
Proof.
  intros Hp. unfold mul. change (of_int 30) with (mk false 30 0).
  cbn [sign coefficient exponent]. rewrite xorb_false_r, Z.add_0_r.
  apply fix_short. cbn [coefficient]. unfold prec.
  apply ndigits_le; [lia|]. rewrite N2Z.inj_mul. change (Z.of_N 30) with 30.
  assert (10 ^ 10 * 30 < 10 ^ 28) by (vm_compute; reflexivity). lia.
Qed.

Lemma of_int_pos (d : Z) : 0 < d -> of_int d = mk false (Z.to_N d) 0.
Proof.
  intros Hd. unfold of_int.
  replace (d <? 0) with false by (symmetry; apply Z.ltb_ge; lia).
  f_equal. lia.
Qed.

Lemma exact_value (scr sc TE TS d : Z) (u : Q) :
  0 < d -> scr * TE * d = sc * TS ->
  (inject_Z scr * (u * inject_Z TE) == inject_Z sc * (u * inject_Z TS) / inject_Z d)%Q.
Proof.
  intros Hd Heq.
  assert (Hd' : ~ (inject_Z d == 0)%Q).
  { intros H. unfold Qeq in H. simpl in H. lia. }
  assert (Hq : (inject_Z scr * inject_Z TE * inject_Z d == inject_Z sc * inject_Z TS)%Q).
  { rewrite <- !inject_Z_mult, Heq. reflexivity. }
  apply (Qmult_inj_r _ _ (inject_Z d) Hd').
  assert (Hl : (inject_Z scr * (u * inject_Z TE) * inject_Z d
                == u * (inject_Z scr * inject_Z TE * inject_Z d))%Q) by ring.
  assert (Hr : (inject_Z sc * (u * inject_Z TS) / inject_Z d * inject_Z d
                == u * (inject_Z sc * inject_Z TS))%Q) by (field; exact Hd').
  rewrite Hl, Hr, Hq. reflexivity.
Qed.

Lemma signed_eq (s : bool) (cr c TE TS d : Z) :
  cr * TE * d = c * TS ->
  (if s then - cr else cr) * TE * d = (if s then - c else c) * TS.
Proof. intros H. destruct s; [|exact H]. lia. Qed.

Lemma signed_abs (s : bool) (cr c TE TS d : Z) :
  Z.abs ((if s then - cr else cr) * TE * d - (if s then - c else c) * TS)
  = Z.abs (cr * TE * d - c * TS).
Proof.
  destruct s; [|reflexivity].
  replace (- cr * TE * d - - c * TS) with (- (cr * TE * d - c * TS)) by ring.
  apply Z.abs_opp.
Qed.

(** C10 (amended). [monthly_equivalent] is [(price * 30) / duration_days]
    in Python's decimal arithmetic, with no guard for zero. For a price
    as the column stores it (at most ten digits) and a positive
    [duration_days] it returns a decimal of at most 28 significant digits
    that lies within half a unit of its last digit of the quotient
    price * 30 / duration_days, and that is this quotient unless it fills
    all 28 digits. For [duration_days = 0] the division raises. *)
Theorem C10_monthly_equivalent (p : SubscriptionPlan.t) :
  Z.of_N (Decimal.coefficient (SubscriptionPlan.price p)) < 10 ^ 10 ->
  (0 < SubscriptionPlan.duration_days p ->
   exists r,
     SubscriptionPlan.monthly_equivalent p = Ok r /\
     Decimal.ndigits (Decimal.coefficient r) <= Decimal.prec /\
     (Qabs (Decimal.value r
            - Decimal.value (SubscriptionPlan.price p) * inject_Z 30
              / inject_Z (SubscriptionPlan.duration_days p))
      <= (1 # 2) * Decimal.ulp r)%Q /\
     (Decimal.ndigits (Decimal.coefficient r) = Decimal.prec \/
      (Decimal.value r
       == Decimal.value (SubscriptionPlan.price p) * inject_Z 30
          / inject_Z (SubscriptionPlan.duration_days p))%Q)) /\
  (SubscriptionPlan.duration_days p = 0 ->
   exists e,
     SubscriptionPlan.monthly_equivalent p = Raise e /\
     (exn_class_of e = DivisionByZero \/ exn_class_of e = InvalidOperation)).
Proof.
  intros Hprice. unfold SubscriptionPlan.monthly_equivalent.
  rewrite (mul_30 _ Hprice).
  set (price := SubscriptionPlan.price p) in *.
  set (d := SubscriptionPlan.duration_days p). clearbody d. clearbody price.
  destruct price as [s cp e]. cbn [sign coefficient exponent] in *.
  split.
  - intros Hd. rewrite (of_int_pos d Hd).
    destruct (N.eq_0_gt_0_cases cp) as [->|Hcp].
    + (* a price of zero *)
      exists (mk (xorb s false) 0 (e - 0)). unfold truediv.
      cbn [sign coefficient exponent].
      replace (Z.to_N d =? 0)%N with false by (symmetry; apply N.eqb_neq; lia).
      split; [reflexivity|]. split; [vm_compute; discriminate|].
      unfold value, ulp, signed_coefficient. cbn [sign coefficient exponent].
      assert (Hz : (inject_Z (if xorb s false then - Z.of_N 0 else Z.of_N 0) == 0)%Q)
        by (destruct (xorb s false); reflexivity).
      assert (Hz' : (inject_Z (if s then - Z.of_N 0 else Z.of_N 0) == 0)%Q)
        by (destruct s; reflexivity).
      rewrite Hz, Hz'.
      assert (Hzero : (0 * (10 # 1) ^ (e - 0) - 0 * (10 # 1) ^ e * inject_Z 30 / inject_Z d == 0)%Q).
      { field. intros H. unfold Qeq in H. simpl in H. lia. }
      split.
      * rewrite Hzero. simpl Qabs.
        apply Qmult_le_0_compat; [discriminate|]. apply Qlt_le_weak, pw_pos.
      * right. field. intros H. unfold Qeq in H. simpl in H. lia.
    + (* the general case *)
      set (a := mk s (cp * 30) e). set (b := mk false (Z.to_N d) 0).
      assert (Hc : 0 < Z.of_N (coefficient a)) by (cbn; lia).
      assert (Hdb : 0 < Z.of_N (coefficient b)) by (cbn; lia).
      assert (Hshift : 0 <= ndigits (coefficient b) - ndigits (coefficient a) + prec + 1).
      { assert (ndigits (coefficient a) <= 12).
        { apply ndigits_le; [lia|]. cbn [a coefficient]. rewrite N2Z.inj_mul.
          change (Z.of_N 30) with 30.
          assert (10 ^ 10 * 30 < 10 ^ 12) by (vm_compute; reflexivity). lia. }
        destruct (ndigits_bounds (coefficient b) ltac:(cbn; lia)) as [H1 _].
        unfold prec. lia. }
      destruct (truediv_int a b Hc Hdb Hshift)
        as (r & E & Hrun & Hsign & Hnd & HE & Hexp & Hint & Hexact).
      set (shift := ndigits (coefficient b) - ndigits (coefficient a) + prec + 1) in *.
      exists r. split; [exact Hrun|]. split; [exact Hnd|].
      cbn [a b sign coefficient exponent] in Hsign, Hexp, Hint, Hexact.
      rewrite xorb_false_r in Hsign. rewrite Z2N.id in Hint, Hexact by lia.
      rewrite N2Z.inj_mul in Hint, Hexact. change (Z.of_N 30) with 30 in Hint, Hexact.
      unfold value, ulp, signed_coefficient. cbn [sign coefficient exponent].
      rewrite Hsign.
      replace (exponent r) with ((e - shift) + E) by lia.
      set (u := ((10 # 1) ^ (e - shift))%Q).
      assert (Hu : (0 < u)%Q) by apply pw_pos.
      assert (HpE : ((10 # 1) ^ (e - shift + E) == u * inject_Z (10 ^ E))%Q).
      { rewrite pw_add, (pw_nonneg E HE). reflexivity. }
      assert (Hpe : ((10 # 1) ^ e == u * inject_Z (10 ^ shift))%Q).
      { replace e with ((e - shift) + shift) at 1 by lia.
        rewrite pw_add, (pw_nonneg shift Hshift). reflexivity. }
      rewrite HpE, Hpe.
      assert (Hnum : (inject_Z (if s then - Z.of_N cp else Z.of_N cp)
                      * (u * inject_Z (10 ^ shift)) * inject_Z 30
                      == inject_Z ((if s then - (Z.of_N cp * 30) else Z.of_N cp * 30))
                         * (u * inject_Z (10 ^ shift)))%Q).
      { destruct s; rewrite ?inject_Z_opp, !inject_Z_mult; ring. }
      rewrite Hnum. split.
      * apply half_ulp_bound; [exact Hd|exact Hu|].
        rewrite signed_abs. exact Hint.
      * destruct Hexact as [Hfull|Hexact]; [left; exact Hfull|right].
        apply exact_value; [exact Hd|]. apply signed_eq. exact Hexact.
  - intros ->. change (of_int 0) with (mk false 0 0). unfold truediv.
    cbn [sign coefficient exponent]. change (0 =? 0)%N with true. cbv iota.
    destruct (cp * 30 =? 0)%N; eexists; (split; [reflexivity|]); cbn; auto.
Qed.

End DecimalFacts.

(** The theorem at the Premium plan, 29.99 for 30 days, and at a plan of
    zero days. *)
Lemma C10_monthly_equivalent_witness :
  (exists r,
     SubscriptionPlan.monthly_equivalent Ex.premium = Ok r /\
     Decimal.ndigits (Decimal.coefficient r) <= Decimal.prec /\
     (Qabs (Decimal.value r
            - Decimal.value (SubscriptionPlan.price Ex.premium) * inject_Z 30
              / inject_Z (SubscriptionPlan.duration_days Ex.premium))
      <= (1 # 2) * Decimal.ulp r)%Q /\
     (Decimal.ndigits (Decimal.coefficient r) = Decimal.prec \/
      (Decimal.value r
       == Decimal.value (SubscriptionPlan.price Ex.premium) * inject_Z 30
          / inject_Z (SubscriptionPlan.duration_days Ex.premium))%Q)) /\
  (exists e,
     SubscriptionPlan.monthly_equivalent Ex.void = Raise e /\
     (exn_class_of e = DivisionByZero \/ exn_class_of e = InvalidOperation)).
Proof.
  split.
  - apply (proj1 (C10_monthly_equivalent Ex.premium ltac:(vm_compute; reflexivity))).
    reflexivity.
  - apply (proj2 (C10_monthly_equivalent Ex.void ltac:(vm_compute; reflexivity))).
    reflexivity.
Defined.

(** C10, as stated, fails at the Basic plan, 10.00 for 7 days: the
    result is 42.85714285714285714285714286, the quotient 300 / 7 rounded
    to 28 digits, and seven times it is not 300. *)
Lemma C10_counterexample :
  0 < SubscriptionPlan.duration_days Ex.basic /\
  SubscriptionPlan.monthly_equivalent Ex.basic
    = Ok (Decimal.mk false 4285714285714285714285714286 (-26)) /\
  forall r, SubscriptionPlan.monthly_equivalent Ex.basic = Ok r ->
    ~ (Decimal.value r
       == Decimal.value (SubscriptionPlan.price Ex.basic) * inject_Z 30
          / inject_Z (SubscriptionPlan.duration_days Ex.basic))%Q.
Proof.
  split; [reflexivity|]. split; [vm_compute; reflexivity|].
  intros r Hr. vm_compute in Hr. injection Hr as <-.
  intros H. vm_compute in H. discriminate H.
Qed.

(* ===================================================================== *)
(** * Part III: further properties of the code                            *)
(* ===================================================================== *)

(** ** Lists and tables *)

Lemma filter_map_replace {R : Type} (p q : R -> bool) (r : R) (rows : list R) :
  p r = false ->
  (forall row, In row rows -> q row = true -> p row = false) ->
  filter (fun x => p x) (map (fun row => if q row then r else row) rows)
  = filter (fun x => p x) rows.
Proof.
  intros Hr Hq. induction rows as [|row rows IH]; [reflexivity|].
  cbn [map]. rewrite !filter_cons.
  rewrite IH by (intros; apply Hq; [right|]; assumption).
  destruct (q row) eqn:Hqr.
  - rewrite Hr. rewrite (Hq row) by (try left; auto). reflexivity.
  - reflexivity.
Qed.

Lemma next_id_above (ids : list nat) (x : nat) : In x ids -> (x < views.next_id ids)%nat.
Proof.
  unfold views.next_id. induction ids as [|y ids IH]; [intros []|].
  intros [->|Hin]; simpl; [lia|]. specialize (IH Hin). lia.
Qed.

Lemma filter_snoc_only {R : Type} (p : R -> bool) (rows : list R) (r : R) :
  (forall row, In row rows -> p row = false) -> p r = true ->
  filter (fun x => p x) (rows ++ [r]) = [r].
Proof.
  intros Hnone Hr. rewrite filter_app, (filter_none p rows Hnone).
  rewrite filter_cons, filter_nil. rewrite decide_True by (rewrite Hr; exact I).
  reflexivity.
Qed.

(** ** Who may enter which dashboard *)

(** X1. The two gates of the dashboards exclude one another: the user whom
    [get_customer_or_redirect] lets in as a customer is sent to the login
    page by [get_trainer_or_redirect], and the user let in as a trainer is
    a verified trainer whom the customer gate sends to the login page. *)
Theorem customer_and_trainer_gates_exclusive (d : Db.t) (user : nat) :
  (forall c, dashboard_views.get_customer_or_redirect d user = inl c ->
     trainer_dashboard_views.get_trainer_or_redirect d user = inr (Redirect "login")) /\
  (forall t, trainer_dashboard_views.get_trainer_or_redirect d user = inl t ->
     Trainer.is_verified t = true /\
     dashboard_views.get_customer_or_redirect d user = inr (Redirect "login")).
Proof.
  unfold dashboard_views.get_customer_or_redirect,
    trainer_dashboard_views.get_trainer_or_redirect.
  destruct (filter _ (Db.profiles d)) as [|p [|p' rest]];
    [split; intros; discriminate| |split; intros; discriminate].
  destruct (String.eqb (Profile.role p) "customer") eqn:Hc;
    destruct (String.eqb (Profile.role p) "trainer") eqn:Ht; cbn [negb].
  - apply String.eqb_eq in Hc, Ht. rewrite Hc in Ht. discriminate.
  - split; [reflexivity|discriminate].
  - split; [discriminate|]. intros t.
    destruct (filter _ (Db.trainers d)) as [|t' [|t'' rest]]; try discriminate.
    destruct (Trainer.is_verified t') eqn:Hv; [|discriminate].
    intros [= <-]. auto.
  - split; intros; discriminate.
Qed.

Lemma customer_and_trainer_gates_exclusive_witness :
  trainer_dashboard_views.get_trainer_or_redirect Ex.db 1 = inr (Redirect "login") /\
  (Trainer.is_verified (Trainer.mk 2 12 "Main Street 2" true) = true /\
   dashboard_views.get_customer_or_redirect Ex.db 3 = inr (Redirect "login")).
Proof.
  split.
  - apply (proj1 (customer_and_trainer_gates_exclusive Ex.db 1) Ex.alice). reflexivity.
  - apply (proj2 (customer_and_trainer_gates_exclusive Ex.db 3)
             (Trainer.mk 2 12 "Main Street 2" true)). reflexivity.
Defined.

(** ** Subscriptions: [save], [extend_subscription], [cancel_subscription] *)

(** What [save_base] returns is the instance, numbered if it was new. *)
Lemma save_base_instance {R : Type} (get_pk : R -> option nat)
    (set_pk : option nat -> R -> R) (r : R) (table : list R) :
  (save_base get_pk set_pk r table).1 = r \/
  (get_pk r = None /\
   (save_base get_pk set_pk r table).1 = set_pk (Some (fresh_pk get_pk table)) r).
Proof.
  unfold save_base. destruct (get_pk r).
  - left. destruct (existsb _ _); reflexivity.
  - right. split; reflexivity.
Qed.

Lemma dt_add_days (dt n : Z) :
  Time.dt_add dt (Time.timedelta_days n) = dt + n * Time.US_PER_DAY.
Proof.
  unfold Time.dt_add, Time.timedelta_days. rewrite timedelta_new_total.
  unfold Time.US_PER_DAY. lia.
Qed.

Lemma CustomerSubscription_save_run (s : CustomerSubscription.t) (w : World.t) :
  exists w1,
    World.db w1 = World.db w /\
    models.CustomerSubscription_save s w =
    save_checked CustomerSubscription.pk CustomerSubscription.set_pk
      (fun a b => Nat.eqb (CustomerSubscription.customer a) (CustomerSubscription.customer b))
      "UNIQUE constraint failed: customer_subscriptions.customer_id"
      Db.subscriptions Db.set_subscriptions
      (prepared (World.clock w (World.tick w)) s) w1 /\
    (w1 = w \/ w1 = World.set_tick (S (World.tick w)) w).
Proof.
  unfold models.CustomerSubscription_save, prepared. cbv zeta.
  rewrite dt_add_days.
  replace (negb (SubscriptionPlan.duration_days (CustomerSubscription.plan s) =? 0)
           && (SubscriptionPlan.duration_days (CustomerSubscription.plan s) >? 0))
    with (0 <? SubscriptionPlan.duration_days (CustomerSubscription.plan s)).
  2:{ destruct (Z.ltb_spec 0 (SubscriptionPlan.duration_days (CustomerSubscription.plan s)));
      destruct (Z.eqb_spec (SubscriptionPlan.duration_days (CustomerSubscription.plan s)) 0);
      destruct (Z.gtb_spec (SubscriptionPlan.duration_days (CustomerSubscription.plan s)) 0);
      cbn; try reflexivity; lia. }
  assert (Hgen : forall s1 : CustomerSubscription.t,
    exists w1, World.db w1 = World.db w /\
      ((match CustomerSubscription.end_date s1 with
        | Some _ =>
            now ← timezone_now;
            mret (if CustomerSubscription.is_expired now s1
                  then CustomerSubscription.set_is_active false s1 else s1)
        | None => mret s1
        end) ≫= save_checked CustomerSubscription.pk CustomerSubscription.set_pk
          (fun a b => Nat.eqb (CustomerSubscription.customer a) (CustomerSubscription.customer b))
          "UNIQUE constraint failed: customer_subscriptions.customer_id"
          Db.subscriptions Db.set_subscriptions) w =
      save_checked CustomerSubscription.pk CustomerSubscription.set_pk
        (fun a b => Nat.eqb (CustomerSubscription.customer a) (CustomerSubscription.customer b))
        "UNIQUE constraint failed: customer_subscriptions.customer_id"
        Db.subscriptions Db.set_subscriptions
        (if CustomerSubscription.is_expired (World.clock w (World.tick w)) s1
         then CustomerSubscription.set_is_active false s1 else s1) w1 /\
      (w1 = w \/ w1 = World.set_tick (S (World.tick w)) w)).
  { intros s1. destruct (CustomerSubscription.end_date s1) eqn:He.
    - exists (World.set_tick (S (World.tick w)) w). split; [reflexivity|].
      split; [reflexivity|]. right. reflexivity.
    - exists w. split; [reflexivity|]. split; [|left; reflexivity].
      unfold CustomerSubscription.is_expired. rewrite He. reflexivity. }
  apply Hgen.
Qed.

(** X2. [CustomerSubscription.save] never stores a subscription that is
    active and past its end date, and never turns one active: when it
    returns, the row it wrote is in the table, and if that row is active
    then the instance was active and its end date, when it has one, is not
    before the time at which [save] read the clock. *)
Theorem CustomerSubscription_save_never_active_expired
    (s s' : CustomerSubscription.t) (w w' : World.t) :
  models.CustomerSubscription_save s w = (Ok s', w') ->
  In s' (Db.subscriptions (World.db w')) /\
  (CustomerSubscription.is_active s' = true ->
   CustomerSubscription.is_active s = true /\
   CustomerSubscription.is_expired (World.clock w (World.tick w)) s' = false).
Proof.
  destruct (CustomerSubscription_save_run s w) as (w1 & Hdb & -> & _).
  unfold save_checked. destruct (existsb _ _); [discriminate|].
  intros [= <- <-]. split.
  - cbn [World.db World.set_db Db.subscriptions Db.set_subscriptions].
    apply save_base_stored.
  - set (now := World.clock w (World.tick w)).
    assert (Hprep : CustomerSubscription.is_active (prepared now s) = true ->
              CustomerSubscription.is_active s = true /\
              CustomerSubscription.is_expired now (prepared now s) = false).
    { unfold prepared. cbv zeta.
      match goal with |- context [CustomerSubscription.is_expired now ?x] => set (s1 := x) end.
      assert (Hact : CustomerSubscription.is_active s1 = CustomerSubscription.is_active s).
      { subst s1. destruct (CustomerSubscription.pk s); [reflexivity|].
        destruct (0 <? _); reflexivity. }
      destruct (CustomerSubscription.is_expired now s1) eqn:Hexp.
      - cbn. discriminate.
      - rewrite Hact, Hexp. auto. }
    destruct (save_base_instance CustomerSubscription.pk CustomerSubscription.set_pk
                (prepared now s) (Db.subscriptions (World.db w1))) as [-> | [_ ->]].
    + exact Hprep.
    + exact Hprep.
Qed.

Lemma CustomerSubscription_save_never_active_expired_witness :
  let s := CustomerSubscription.mk (Some 1%nat) 1 Ex.premium 0 (Some 1000) true true in
  let out := models.CustomerSubscription_save s Ex.world in
  exists s', out.1 = Ok s' /\
    In s' (Db.subscriptions (World.db out.2)) /\
    (CustomerSubscription.is_active s' = true ->
     CustomerSubscription.is_active s = true /\
     CustomerSubscription.is_expired (World.clock Ex.world (World.tick Ex.world)) s' = false).
Proof.
  cbv zeta. eexists. split; [reflexivity|].
  apply (CustomerSubscription_save_never_active_expired _ _ Ex.world). reflexivity.
Defined.

(** Saving an instance whose row is in the table: the row is replaced by
    the prepared instance, every other row and table stays. *)
Lemma CustomerSubscription_save_stored (s old : CustomerSubscription.t) (k : nat)
    (w : World.t) :
  subscriptions_ok (World.db w) ->
  In old (Db.subscriptions (World.db w)) ->
  CustomerSubscription.pk old = Some k ->
  CustomerSubscription.pk s = Some k ->
  CustomerSubscription.customer s = CustomerSubscription.customer old ->
  let s' := prepared (World.clock w (World.tick w)) s in
  exists w',
    models.CustomerSubscription_save s w = (Ok s', w') /\
    World.db w' =
      Db.set_subscriptions
        (map (fun row => if has_pk CustomerSubscription.pk k row then s' else row)
             (Db.subscriptions (World.db w)))
        (World.db w) /\
    World.session w' = World.session w /\ World.flash w' = World.flash w /\
    World.outbox w' = World.outbox w /\ World.clock w' = World.clock w /\
    (World.tick w <= World.tick w' <= S (World.tick w))%nat.
Proof.
  intros (Hkeys & _ & _) Hin Hold Hpk Hcust s'.
  destruct (CustomerSubscription_save_run s w) as (w1 & Hdb & -> & Hw1).
  fold s'.
  assert (Hpk' : CustomerSubscription.pk s' = Some k /\
                 CustomerSubscription.customer s' = CustomerSubscription.customer old).
  { subst s'. unfold prepared. rewrite Hpk. cbv zeta.
    destruct (CustomerSubscription.is_expired _ s); cbn; auto. }
  destruct Hpk' as [Hpk' Hcust'].
  rewrite save_checked_ok.
  2:{ intros row Hrow Hclash. apply Nat.eqb_eq in Hclash. rewrite Hdb in Hrow.
      rewrite (NoDup_map_inj CustomerSubscription.customer _ row old Hkeys Hrow Hin)
        by congruence.
      congruence. }
  rewrite Hdb. unfold save_base. rewrite Hpk'.
  replace (existsb (has_pk CustomerSubscription.pk k) (Db.subscriptions (World.db w)))
    with true.
  2:{ symmetry. apply existsb_exists. exists old. split; [exact Hin|].
      unfold has_pk. apply bool_decide_eq_true. exact Hold. }
  cbn [fst snd]. eexists. split; [reflexivity|].
  cbn [World.db World.set_db World.session World.flash World.outbox
       World.clock World.tick].
  destruct Hw1 as [-> | ->];
    cbn [World.session World.flash World.outbox World.clock World.tick World.set_tick];
    repeat split; try reflexivity; lia.
Qed.

Lemma prepared_stored (now : Time.datetime) (s : CustomerSubscription.t) (k : nat) :
  CustomerSubscription.pk s = Some k ->
  prepared now s =
  CustomerSubscription.mk (Some k) (CustomerSubscription.customer s)
    (CustomerSubscription.plan s) (CustomerSubscription.start_date s)
    (CustomerSubscription.end_date s)
    (CustomerSubscription.is_active s && negb (CustomerSubscription.is_expired now s))
    (CustomerSubscription.auto_renew s).
Proof.
  intros Hk. unfold prepared. rewrite Hk. cbv zeta.
  destruct s as [pk c p st e a r]. cbn in Hk. subst pk.
  destruct (CustomerSubscription.is_expired now _); cbn;
    rewrite ?andb_true_r, ?andb_false_r; reflexivity.
Qed.



(** X4. [cancel_subscription()] on a stored subscription writes the row
    back inactive and without auto-renewal; the plan and the dates stay as
    they were, and so does every other row. *)
Theorem cancel_subscription_stored (old : CustomerSubscription.t) (k : nat) (w : World.t) :
  subscriptions_ok (World.db w) ->
  In old (Db.subscriptions (World.db w)) ->
  CustomerSubscription.pk old = Some k ->
  let s' := CustomerSubscription.mk (Some k) (CustomerSubscription.customer old)
              (CustomerSubscription.plan old) (CustomerSubscription.start_date old)
              (CustomerSubscription.end_date old) false false in
  let out := models.CustomerSubscription_cancel_subscription old w in
  out.1 = Ok s' /\
  Db.subscriptions (World.db out.2) =
    map (fun row => if has_pk CustomerSubscription.pk k row then s' else row)
        (Db.subscriptions (World.db w)).
Proof.
  intros Hok Hin Hk s' out.
  subst out. unfold models.CustomerSubscription_cancel_subscription.
  match goal with |- context [models.CustomerSubscription_save ?x] => set (s := x) end.
  destruct (CustomerSubscription_save_stored s old k w Hok Hin Hk)
    as (w' & Hrun & Hdb & _); [subst s; exact Hk | reflexivity |].
  rewrite Hrun. cbn [fst snd]. rewrite Hdb.
  cbn [Db.subscriptions Db.set_subscriptions].
  assert (Hs' : prepared (World.clock w (World.tick w)) s = s').
  { rewrite (prepared_stored _ _ k) by (subst s; exact Hk). subst s s'. reflexivity. }
  rewrite Hs'. split; reflexivity.
Qed.

Lemma cancel_subscription_stored_witness :
  let old := CustomerSubscription.mk (Some 1%nat) 1 Ex.premium 0
               (Some (30 * Time.US_PER_DAY)) true true in
  let s' := CustomerSubscription.mk (Some 1%nat) 1 Ex.premium 0
              (Some (30 * Time.US_PER_DAY)) false false in
  let out := models.CustomerSubscription_cancel_subscription old Ex.world in
  out.1 = Ok s' /\ Db.subscriptions (World.db out.2) = [s'].
Proof.
  cbv zeta.
  apply (cancel_subscription_stored
           (CustomerSubscription.mk (Some 1%nat) 1 Ex.premium 0
              (Some (30 * Time.US_PER_DAY)) true true) 1%nat Ex.world).
  - unfold subscriptions_ok, table_ok. cbn.
    repeat split; repeat constructor; try (intros H; inversion H); discriminate.
  - left. reflexivity.
  - reflexivity.
Defined.

(** ** [toggle_auto_renew] *)

Lemma subscription_of_inv (d : Db.t) (c : Customer.t) (sub : CustomerSubscription.t) :
  In sub (subscription_of d c) ->
  In sub (Db.subscriptions d) /\ CustomerSubscription.customer sub = Customer.id c.
Proof.
  unfold subscription_of. rewrite filter_in. intros [Hin Hc].
  apply Nat.eqb_eq in Hc. auto.
Qed.

(** X5. [toggle_auto_renew], posted by a customer who has a subscription,
    flips [auto_renew] on the stored row and reports the new setting. The
    [save] behind it also clears [is_active] when the end date has passed;
    nothing else of the row and no other row changes. Without a
    subscription the view only reports that there is none, and a GET
    request changes nothing. *)
Theorem toggle_auto_renew_flips (w : World.t) (user : nat) (c : Customer.t) :
  dashboard_views.get_customer_or_redirect (World.db w) user = inl c ->
  subscriptions_ok (World.db w) ->
  (forall sub k,
     subscription_of (World.db w) c = [sub] ->
     CustomerSubscription.pk sub = Some k ->
     let now := World.clock w (World.tick w) in
     let s' := CustomerSubscription.mk (Some k) (CustomerSubscription.customer sub)
                 (CustomerSubscription.plan sub) (CustomerSubscription.start_date sub)
                 (CustomerSubscription.end_date sub)
                 (CustomerSubscription.is_active sub
                  && negb (CustomerSubscription.is_expired now sub))
                 (negb (CustomerSubscription.auto_renew sub)) in
     let out := dashboard_views.toggle_auto_renew POST user w in
     out.1 = Ok (Redirect "subscription_details") /\
     Db.subscriptions (World.db out.2) =
       map (fun row => if has_pk CustomerSubscription.pk k row then s' else row)
           (Db.subscriptions (World.db w)) /\
     World.flash out.2 =
       World.flash w ++
       [(SUCCESS, ("Auto-renewal has been "
                   ++ (if CustomerSubscription.auto_renew sub then "disabled" else "enabled")
                   ++ ".")%string)]) /\
  (subscription_of (World.db w) c = [] ->
     dashboard_views.toggle_auto_renew POST user w =
       (Ok (Redirect "subscription_details"),
        World.set_flash (World.flash w ++ [(ERROR, "No active subscription found."%string)]) w)) /\
  dashboard_views.toggle_auto_renew GET user w = (Ok (Redirect "subscription_details"), w).
Proof.
  intros Hc Hok. split; [|split].
  - intros sub k Hsub Hk now s' out.
    destruct (subscription_of_inv (World.db w) c sub) as [Hin Hcust];
      [rewrite Hsub; left; reflexivity|].
    subst out. unfold dashboard_views.toggle_auto_renew.
    run_view. rewrite Hc, Hsub. cbn [objects_get].
    match goal with |- context [models.CustomerSubscription_save ?x] => set (s := x) end.
    destruct (CustomerSubscription_save_stored s sub k w Hok Hin Hk)
      as (w' & Hrun & Hdb & _ & Hflash & _); [subst s; exact Hk | reflexivity |].
    rewrite Hrun.
    assert (Hs' : prepared (World.clock w (World.tick w)) s = s').
    { rewrite (prepared_stored _ _ k) by (subst s; exact Hk). subst s s' now. reflexivity. }
    rewrite Hs' in *.
    cbn [fst snd World.db World.set_flash World.flash]. rewrite Hdb, Hflash.
    cbn [Db.subscriptions Db.set_subscriptions].
    repeat split.
    subst s'. cbn [CustomerSubscription.auto_renew].
    destruct (CustomerSubscription.auto_renew sub); reflexivity.
  - intros Hsub. unfold dashboard_views.toggle_auto_renew.
    run_view. rewrite Hc, Hsub. reflexivity.
  - reflexivity.
Qed.

Lemma toggle_auto_renew_flips_witness :
  let s' := CustomerSubscription.mk (Some 1%nat) 1 Ex.premium 0
              (Some (30 * Time.US_PER_DAY)) true false in
  let out := dashboard_views.toggle_auto_renew POST 1 Ex.world in
  (out.1 = Ok (Redirect "subscription_details") /\
   Db.subscriptions (World.db out.2) = [s'] /\
   World.flash out.2 = [(SUCCESS, "Auto-renewal has been disabled."%string)]) /\
  dashboard_views.toggle_auto_renew POST 2 Ex.world =
    (Ok (Redirect "subscription_details"),
     World.set_flash [(ERROR, "No active subscription found."%string)] Ex.world).
Proof.
  assert (Hok : subscriptions_ok Ex.db).
  { unfold subscriptions_ok, table_ok. cbn.
    repeat split; repeat constructor; try (intros H; inversion H); discriminate. }
  split.
  - apply (proj1 (toggle_auto_renew_flips Ex.world 1 Ex.alice eq_refl Hok)
             (CustomerSubscription.mk (Some 1%nat) 1 Ex.premium 0
                (Some (30 * Time.US_PER_DAY)) true true) 1%nat);
      reflexivity.
  - apply (proj1 (proj2 (toggle_auto_renew_flips Ex.world 2 Ex.bob eq_refl Hok))).
    reflexivity.
Defined.

(** ** Goals *)

(** Saving a goal of [c] leaves the goals of the others alone, as long as
    no goal of another customer shares its primary key. *)
Lemma Goal_save_others (c : Customer.t) (g : Goal.t) (w : World.t) :
  Goal.customer g = Customer.id c ->
  (forall row, In row (Db.goals (World.db w)) -> Goal.pk row = Goal.pk g ->
     Goal.pk g <> None -> Goal.customer row = Customer.id c) ->
  goals_of_others c (World.db (dashboard_views.Goal_save g w).2) =
  goals_of_others c (World.db w) /\
  Db.notifications (World.db (dashboard_views.Goal_save g w).2) =
  Db.notifications (World.db w).
Proof.
  intros Hc Hpk. unfold dashboard_views.Goal_save, goals_of_others.
  cbn [snd World.db World.set_db Db.goals Db.set_goals Db.notifications].
  split; [|reflexivity].
  unfold Goal.save, save_base. cbn [Goal.pk Goal.set_flags].
  destruct (Goal.pk g) as [k|] eqn:Hk.
  - destruct (existsb _ _); cbn [snd].
    + apply (filter_map_replace
               (fun g0 => negb (Nat.eqb (Goal.customer g0) (Customer.id c)))).
      * cbn. rewrite Hc, Nat.eqb_refl. reflexivity.
      * intros row Hin Hrow. unfold has_pk in Hrow. apply bool_decide_eq_true in Hrow.
        rewrite (Hpk row Hin Hrow) by discriminate. rewrite Nat.eqb_refl. reflexivity.
    + rewrite filter_app. rewrite filter_cons, filter_nil. cbn.
      rewrite Hc, Nat.eqb_refl. cbn. rewrite decide_False by (intros []).
      apply app_nil_r.
  - cbn [snd]. rewrite filter_app. rewrite filter_cons, filter_nil. cbn.
    rewrite Hc, Nat.eqb_refl. cbn. rewrite decide_False by (intros []).
    apply app_nil_r.
Qed.

(** X6. Whatever a customer posts to [goals_management], the goals of
    every other customer stay exactly as they were, and every notification
    the request creates is addressed to the customer who made it. The
    primary keys of the goals are taken to be unique. *)
Theorem goals_management_own_goals_only (w : World.t) (user : nat)
    (post : dashboard_views.goals_post) (c : Customer.t) :
  dashboard_views.get_customer_or_redirect (World.db w) user = inl c ->
  NoDup (map Goal.pk (Db.goals (World.db w))) ->
  let out := dashboard_views.goals_management user post w in
  goals_of_others c (World.db out.2) = goals_of_others c (World.db w) /\
  exists added,
    Db.notifications (World.db out.2) = Db.notifications (World.db w) ++ added /\
    Forall (fun n => Notification.customer n = Customer.id c) added.
Proof.
  intros Hc Hnd out.
  assert (Hfound : forall g, In g (dashboard_views.goal_of (World.db w) c
                                     (dashboard_views.goal_id post)) ->
            Goal.customer g = Customer.id c /\
            forall row, In row (Db.goals (World.db w)) -> Goal.pk row = Goal.pk g ->
                        Goal.customer row = Customer.id c).
  { intros g Hg. apply goal_of_inv in Hg as (Hin & Hpk & _ & Hcust).
    split; [exact Hcust|]. intros row Hrow Hrowpk.
    rewrite (NoDup_map_inj Goal.pk _ row g Hnd Hrow Hin Hrowpk). exact Hcust. }
  assert (Hnone : goals_of_others c (World.db w) = goals_of_others c (World.db w) /\
                  exists added,
                    Db.notifications (World.db w) = Db.notifications (World.db w) ++ added /\
                    Forall (fun n => Notification.customer n = Customer.id c) added).
  { split; [reflexivity|]. exists []. rewrite app_nil_r. split; [reflexivity|constructor]. }
  subst out. unfold dashboard_views.goals_management.
  run_view. rewrite Hc.
  destruct (dashboard_views.action post) as [act|]; [|exact Hnone].
  destruct (String.eqb act "create").
  { unfold dashboard_views.float_.
    destruct (dashboard_views.target_value post) as [v|]; run_view; [|exact Hnone].
    destruct (dashboard_views.title post) as [ttl|]; run_view; [|exact Hnone].
    match goal with |- context [dashboard_views.Goal_save ?x w] => set (g := x) end.
    destruct (Goal_save_others c g w) as [Ho Hn];
      [reflexivity | intros ? ? ? Hpk; exfalso; apply Hpk; reflexivity |].
    unfold dashboard_views.Goal_save in *. run_view.
    cbn [World.db World.set_flash] in *.
    split; [exact Ho|]. exists []. rewrite app_nil_r. split; [exact Hn|constructor]. }
  destruct (String.eqb act "update_progress").
  { destruct (dashboard_views.goal_of (World.db w) c (dashboard_views.goal_id post))
      as [|g [|g' rest]] eqn:Hgoal; cbn [objects_get exn_class_of]; run_view;
      [exact Hnone| |exact Hnone].
    destruct (Hfound g) as [Hcust Hrows]; [left; reflexivity|].
    unfold dashboard_views.float_.
    destruct (dashboard_views.current_value post) as [v|]; run_view; [|exact Hnone].
    destruct (dashboard_views.goal_reached _).
    - unfold timezone_now. run_view.
      match goal with |- context [dashboard_views.Goal_save ?x ?y] =>
        set (g1 := x); set (w1 := y) end.
      destruct (Goal_save_others c g1 w1) as [Ho Hn].
      + subst g1. exact Hcust.
      + intros row Hrow Hrowpk _. subst g1 w1. cbn in Hrow, Hrowpk.
        apply (Hrows row Hrow Hrowpk).
      + unfold dashboard_views.Goal_save in *. run_view.
        cbn [World.db World.set_flash] in *.
        split; [exact Ho|]. eexists. split; [subst w1; cbn; reflexivity|].
        repeat constructor.
    - match goal with |- context [dashboard_views.Goal_save ?x _] =>
        set (g1 := x) end.
      destruct (Goal_save_others c g1 w) as [Ho Hn].
      + subst g1. exact Hcust.
      + intros row Hrow Hrowpk _. subst g1. cbn in Hrowpk.
        apply (Hrows row Hrow Hrowpk).
      + unfold dashboard_views.Goal_save in *. run_view.
        cbn [World.db World.set_flash] in *.
        split; [exact Ho|]. exists []. rewrite app_nil_r. split; [exact Hn|constructor]. }
  destruct (String.eqb act "pause" || String.eqb act "resume" || String.eqb act "cancel");
    [|exact Hnone].
  destruct (dashboard_views.goal_of (World.db w) c (dashboard_views.goal_id post))
    as [|g [|g' rest]] eqn:Hgoal; cbn [objects_get exn_class_of]; run_view;
    [exact Hnone| |exact Hnone].
  destruct (Hfound g) as [Hcust Hrows]; [left; reflexivity|].
  match goal with |- context [dashboard_views.Goal_save ?x _] => set (g1 := x) end.
  destruct (Goal_save_others c g1 w) as [Ho Hn].
  - subst g1. destruct (String.eqb act "pause"); [exact Hcust|].
    destruct (String.eqb act "resume"); exact Hcust.
  - intros row Hrow Hrowpk _. apply (Hrows row Hrow).
    rewrite Hrowpk. subst g1. destruct (String.eqb act "pause"); [reflexivity|].
    destruct (String.eqb act "resume"); reflexivity.
  - unfold dashboard_views.Goal_save in *. run_view.
    cbn [World.db World.set_flash] in *.
    split; [exact Ho|]. exists []. rewrite app_nil_r. split; [exact Hn|constructor].
Qed.

Lemma goals_management_own_goals_only_witness :
  let post := dashboard_views.mk_goals_post
                (Some "cancel"%string) (Some 1%nat) None None None in
  let out := dashboard_views.goals_management 2 post Ex.world in
  goals_of_others Ex.bob (World.db out.2) = goals_of_others Ex.bob Ex.db /\
  exists added,
    Db.notifications (World.db out.2) = Db.notifications Ex.db ++ added /\
    Forall (fun n => Notification.customer n = Customer.id Ex.bob) added.
Proof.
  apply (goals_management_own_goals_only Ex.world 2
           (dashboard_views.mk_goals_post (Some "cancel"%string) (Some 1%nat) None None None)
           Ex.bob).
  - reflexivity.
  - apply (bool_decide_unpack _). vm_compute. exact I.
Defined.



(** ** Downloads *)

(** X8. [download_resource] only reads: it leaves the database, the
    session and the outbox as they are and never looks at the clock, and
    its response is settled by the database alone. Access to premium
    files therefore goes by the stored [is_active] flag of the
    subscription, whatever its end date. *)
Theorem download_resource_reads_only (w : World.t) (user resource_id : nat) :
  let out := dashboard_views.download_resource user resource_id w in
  World.db out.2 = World.db w /\
  World.session out.2 = World.session w /\
  World.outbox out.2 = World.outbox w /\
  World.tick out.2 = World.tick w /\
  forall w2, World.db w2 = World.db w ->
    (dashboard_views.download_resource user resource_id w2).1 = out.1.
Proof.
  assert (Hall : forall w2, World.db w2 = World.db w ->
    let out := dashboard_views.download_resource user resource_id w in
    let out2 := dashboard_views.download_resource user resource_id w2 in
    World.db out.2 = World.db w /\ World.session out.2 = World.session w /\
    World.outbox out.2 = World.outbox w /\ World.tick out.2 = World.tick w /\
    out2.1 = out.1).
  { intros w2 Hdb. cbv zeta. unfold dashboard_views.download_resource. run_view.
    rewrite Hdb.
    destruct (dashboard_views.get_customer_or_redirect (World.db w) user) as [c|r];
      [|repeat split].
    destruct (objects_get (filter _ (Db.resources (World.db w)))) as [res|e];
      [|destruct (exn_class_of e); repeat split].
    destruct (objects_get (subscription_of (World.db w) c)) as [sub|e];
      [|destruct (exn_class_of e)]; cbn [fst snd];
      try (repeat split; fail);
      (destruct (Resource.is_premium res && _); [repeat split|]);
      (destruct (Resource.file res) as [[name [bytes|e']]|]; [repeat split|repeat split|]);
      (destruct (str_truthy (Resource.external_url res)); [repeat split|]);
      (destruct (str_truthy (Resource.file_url res)); repeat split). }
  cbv zeta. destruct (Hall w eq_refl) as (H1 & H2 & H3 & H4 & _).
  repeat split; try assumption.
  intros w2 Hdb. apply (Hall w2 Hdb).
Qed.

(** Alice's subscription ends on day 30; on a clock that reads day 400 it
    is still stored as active, and the premium video is served. *)
Lemma download_resource_reads_only_witness :
  let late := World.set_clock (fun _ => 400 * Time.US_PER_DAY) Ex.world in
  (dashboard_views.download_resource 1 1 late).1 =
  Ok (HttpResponse "bytes" "application/octet-stream"
        ("attachment; filename=" ++ dquote ++ "stretching.mp4" ++ dquote)).
Proof.
  cbv zeta.
  rewrite (proj2 (proj2 (proj2 (proj2 (download_resource_reads_only Ex.world 1 1))))
             (World.set_clock (fun _ => 400 * Time.US_PER_DAY) Ex.world) eq_refl).
  reflexivity.
Defined.

(** ** The account that [verify_otp] creates *)

(** X9. The account that a correct code creates through [verify_otp]: a
    new customer passes the gate of the customer dashboard at once; a new
    trainer is stored unverified and is sent to the login page by the
    gates of both dashboards. This holds whether or not the welcome mail
    could be sent. The foreign keys of the profile, customer and trainer
    tables are taken to point at stored rows. *)
Theorem verify_otp_account (w : World.t) (data : SignupData.t) (otp : string)
    (expiry : Time.datetime) (attempts : Z) :
  otp_session (World.session w) data otp expiry attempts ->
  otp <> ""%string ->
  World.clock w (World.tick w) <= expiry ->
  attempts < 5 ->
  existsb (fun u => String.eqb (User.username u) (SignupData.username data))
          (Db.users (World.db w)) = false ->
  existsb (fun u => String.eqb (User.email u) (SignupData.email data))
          (Db.users (World.db w)) = false ->
  (forall p, In p (Db.profiles (World.db w)) ->
     In (Profile.user p) (map User.id (Db.users (World.db w)))) ->
  (forall c, In c (Db.customers (World.db w)) ->
     In (Customer.profile c) (map Profile.id (Db.profiles (World.db w)))) ->
  (forall t, In t (Db.trainers (World.db w)) ->
     In (Trainer.profile t) (map Profile.id (Db.profiles (World.db w)))) ->
  let d' := World.db (views.verify_otp POST (Some otp) w).2 in
  let uid := views.next_id (map User.id (Db.users (World.db w))) in
  let pid := views.next_id (map Profile.id (Db.profiles (World.db w))) in
  In (User.mk uid (SignupData.username data) (SignupData.email data)
        (SignupData.password data) "" "") (Db.users d') /\
  (SignupData.role data = "customer"%string ->
     dashboard_views.get_customer_or_redirect d' uid =
       inl (Customer.mk (views.next_id (map Customer.id (Db.customers (World.db w)))) pid)) /\
  (SignupData.role data = "trainer"%string ->
     In (Trainer.mk (views.next_id (map Trainer.id (Db.trainers (World.db w)))) pid
           (default ""%string (SignupData.address data)) false) (Db.trainers d') /\
     trainer_dashboard_views.get_trainer_or_redirect d' uid = inr (Redirect "login") /\
     dashboard_views.get_customer_or_redirect d' uid = inr (Redirect "login")).
Proof.
  intros Hs Hotp Hintime Hfew Hname Hmail Hprof Hcust Htrain d' uid pid.
  assert (Hrun := verify_otp_enters w (Some otp) data otp expiry attempts Hs Hotp).
  replace (World.clock w (World.tick w) >? expiry) with false in Hrun
    by (symmetry; rewrite Z.gtb_ltb; apply Z.ltb_ge; lia).
  replace (attempts >=? 5) with false in Hrun
    by (symmetry; rewrite Z.geb_leb; apply Z.leb_gt; lia).
  rewrite bool_decide_eq_true_2 in Hrun by reflexivity.
  subst d'. rewrite Hrun. clear Hrun.
  unfold views.User_create_user, views.Profile_create, views.Customer_create,
    views.Trainer_create. run_otp.
  rewrite Hname, Hmail. cbv beta iota. run_otp.
  cbn [World.db World.set_tick]. rewrite ?Hname. cbv beta iota. run_otp.
  cbn [World.db World.set_db World.set_tick Db.users Db.set_users Db.profiles
       Db.set_profiles Db.customers Db.trainers User.id Profile.id].
  fold uid pid.
  set (u := User.mk uid _ _ _ _ _).
  set (p := Profile.mk pid uid _ _).
  assert (Hpu : forall row, In row (Db.profiles (World.db w)) ->
                  Nat.eqb (Profile.user row) uid = false).
  { intros row Hrow. apply Nat.eqb_neq. specialize (Hprof row Hrow).
    apply next_id_above in Hprof. fold uid in Hprof. lia. }
  assert (Hprofiles :
            filter (fun q => Nat.eqb (Profile.user q) uid)
                   (Db.profiles (World.db w) ++ [p]) = [p]).
  { apply (filter_snoc_only (fun q => Nat.eqb (Profile.user q) uid));
      [exact Hpu | apply Nat.eqb_refl]. }
  destruct (String.eqb (SignupData.role data) "customer") eqn:Hrc.
  - (* a customer *)
    apply String.eqb_eq in Hrc.
    set (c := Customer.mk _ pid).
    assert (Hgate : forall dfin,
              Db.profiles dfin = Db.profiles (World.db w) ++ [p] ->
              Db.customers dfin = Db.customers (World.db w) ++ [c] ->
              dashboard_views.get_customer_or_redirect dfin uid = inl c).
    { intros dfin Hp Hc. unfold dashboard_views.get_customer_or_redirect.
      rewrite Hp, Hprofiles. subst p. cbn [Profile.role Profile.id].
      rewrite Hrc. cbn [String.eqb Ascii.eqb Bool.eqb negb].
      rewrite Hc.
      rewrite (filter_snoc_only (fun x => Nat.eqb (Customer.profile x) pid));
        [reflexivity| |apply Nat.eqb_refl].
      intros row Hrow. apply Nat.eqb_neq. specialize (Hcust row Hrow).
      apply next_id_above in Hcust. fold pid in Hcust. lia. }
    cbv beta iota. run_otp.
    destruct (World.smtp_ok _ _); run_otp;
      cbn [World.db World.set_db World.set_outbox World.set_session World.set_flash
           Db.users Db.set_customers Db.set_profiles Db.set_users];
      (split; [apply in_or_app; right; left; reflexivity|]);
      (split; [intros _; apply Hgate; reflexivity|]);
      intros Hrt; rewrite Hrc in Hrt; discriminate.
  - destruct (String.eqb (SignupData.role data) "trainer") eqn:Hrt.
    + (* a trainer *)
      apply String.eqb_eq in Hrt.
      set (t := Trainer.mk _ pid _ false).
      assert (Hgate : forall dfin,
                Db.profiles dfin = Db.profiles (World.db w) ++ [p] ->
                Db.trainers dfin = Db.trainers (World.db w) ++ [t] ->
                trainer_dashboard_views.get_trainer_or_redirect dfin uid
                  = inr (Redirect "login") /\
                dashboard_views.get_customer_or_redirect dfin uid = inr (Redirect "login")).
      { intros dfin Hp Ht. unfold trainer_dashboard_views.get_trainer_or_redirect,
          dashboard_views.get_customer_or_redirect.
        rewrite Hp, Hprofiles. subst p. cbn [Profile.role Profile.id].
        rewrite Hrt. cbn [String.eqb Ascii.eqb Bool.eqb negb].
        rewrite Ht.
        rewrite (filter_snoc_only (fun x => Nat.eqb (Trainer.profile x) pid));
          [split; reflexivity| |apply Nat.eqb_refl].
        intros row Hrow. apply Nat.eqb_neq. specialize (Htrain row Hrow).
        apply next_id_above in Htrain. fold pid in Htrain. lia. }
      cbv beta iota. run_otp.
      destruct (World.smtp_ok _ _); run_otp;
        cbn [World.db World.set_db World.set_outbox World.set_session World.set_flash
             Db.users Db.trainers Db.set_trainers Db.set_profiles Db.set_users];
        (split; [apply in_or_app; right; left; reflexivity|]);
        (split; [intros Hc; rewrite Hc in Hrc; discriminate|]);
        intros _;
        (split; [apply in_or_app; right; left; reflexivity|]);
        apply Hgate; reflexivity.
    + cbv beta iota. run_otp.
      destruct (World.smtp_ok _ _); run_otp;
        cbn [World.db World.set_db World.set_outbox World.set_session World.set_flash
             Db.users Db.set_profiles Db.set_users];
        (split; [apply in_or_app; right; left; reflexivity|]);
        (split; [intros Hc; rewrite Hc in Hrc; discriminate|]);
        intros Ht; rewrite Ht in Hrt; discriminate.
Qed.

(** Dave enters the code he was sent, in a database whose trainers all
    have their profile; he is user 4, and customer 3 of profile 13. *)
Lemma verify_otp_account_witness :
  let w := World.set_db (Db.set_trainers [Trainer.mk 2 12 "Main Street 2" true] Ex.db)
             Ex.issued in
  let d' := World.db (views.verify_otp POST (Some "223456"%string) w).2 in
  In (User.mk 4 "dave" "dave@gmail.com" "secret12" "" "") (Db.users d') /\
  dashboard_views.get_customer_or_redirect d' 4 = inl (Customer.mk 3 13).
Proof.
  cbv zeta.
  pose proof (verify_otp_account
    (World.set_db (Db.set_trainers [Trainer.mk 2 12 "Main Street 2" true] Ex.db) Ex.issued)
    Ex.dave_data "223456" (3900 * Time.US_PER_SECOND) 0) as H.
  cbv zeta in H.
  destruct H as (Hu & Hc & _).
  - repeat split; reflexivity.
  - discriminate.
  - vm_compute. discriminate.
  - reflexivity.
  - reflexivity.
  - reflexivity.
  - intros p Hp. vm_compute in Hp. vm_compute.
    destruct Hp as [<-|[<-|[<-|[]]]]; auto.
  - intros c Hc. vm_compute in Hc. vm_compute.
    destruct Hc as [<-|[<-|[]]]; auto.
  - intros t Ht. vm_compute in Ht. vm_compute.
    destruct Ht as [<-|[]]; auto.
  - split; [exact Hu|]. apply Hc. reflexivity.
Defined.

(** ** What a trainer can do to sessions *)

(** X10. [trainer_schedule] writes at most one session, and only for a
    client of the trainer who asks: either the table of sessions stays as
    it is, or one row is appended, numbered anew, with the trainer who is
    logged in, the status ['scheduled'], the posted date, time and
    customer, and that customer has an active assignment to this trainer,
    and is the one who gets the notification. *)
Theorem trainer_schedule_only_for_clients (w : World.t) (user : nat)
    (post : trainer_dashboard_views.schedule_post) (t : Trainer.t) :
  trainer_dashboard_views.get_trainer_or_redirect (World.db w) user = inl t ->
  let out := trainer_dashboard_views.trainer_schedule user post w in
  (Db.sessions (World.db out.2) = Db.sessions (World.db w) /\
   Db.notifications (World.db out.2) = Db.notifications (World.db w)) \/
  (exists x n,
     Db.sessions (World.db out.2) = Db.sessions (World.db w) ++ [x] /\
     Db.notifications (World.db out.2) = Db.notifications (World.db w) ++ [n] /\
     Session.pk x = Some (fresh_pk Session.pk (Db.sessions (World.db w))) /\
     Session.trainer x = Trainer.id t /\
     Session.status x = "scheduled"%string /\
     Some (Session.customer x) = trainer_dashboard_views.customer_id post /\
     Some (Session.session_date x) = trainer_dashboard_views.session_date post /\
     Some (Session.session_time x) = trainer_dashboard_views.session_time post /\
     Notification.customer n = Session.customer x /\
     trains (World.db w) (Trainer.id t) (Session.customer x)).
Proof.
  intros Htr out. subst out.
  unfold trainer_dashboard_views.trainer_schedule.
  run_view. rewrite Htr.
  unfold trainer_dashboard_views.parsed.
  destruct (trainer_dashboard_views.duration_minutes post) as [duration|];
    run_view; [|left; split; reflexivity].
  destruct (filter _ (Db.customers (World.db w))) as [|customer [|c' cs]] eqn:Hcust;
    cbn [objects_get exn_class_of]; run_view; [left; split; reflexivity| |left; split; reflexivity].
  assert (Hcid : Some (Customer.id customer) = trainer_dashboard_views.customer_id post).
  { assert (Hin : In customer (filter (fun c => bool_decide (Some (Customer.id c)
                        = trainer_dashboard_views.customer_id post))
                     (Db.customers (World.db w)))) by (rewrite Hcust; left; reflexivity).
    apply filter_in in Hin as [_ Hin]. apply bool_decide_eq_true in Hin. exact Hin. }
  destruct (filter _ (Db.assignments (World.db w))) as [|a [|a' rest]] eqn:Hassign;
    cbn [objects_get exn_class_of]; run_view; cbn [negb];
    [left; split; reflexivity| |left; split; reflexivity].
  assert (Htrains : trains (World.db w) (Trainer.id t) (Customer.id customer)).
  { assert (Hin : In a (filter (fun a => Nat.eqb (TrainerAssignment.trainer a) (Trainer.id t)
                          && Nat.eqb (TrainerAssignment.customer a) (Customer.id customer)
                          && TrainerAssignment.is_active a)
                     (Db.assignments (World.db w)))) by (rewrite Hassign; left; reflexivity).
    apply filter_in in Hin as [Hin Hp]. rewrite !andb_true_iff, !Nat.eqb_eq in Hp.
    exists a. tauto. }
  destruct (trainer_dashboard_views.session_date post) as [date|];
    run_view; [|left; split; reflexivity].
  destruct (trainer_dashboard_views.session_time post) as [time|];
    run_view; [|left; split; reflexivity].
  destruct (trainer_dashboard_views.conflicting _ _ _ _);
    run_view; [|left; split; reflexivity].
  unfold models.Session_save, save_checked.
  destruct (existsb _ _); run_view;
    cbn [World.db World.set_db World.set_flash Db.sessions Db.set_sessions
         Db.notifications Db.set_notifications exn_class_of];
    [left; split; reflexivity|].
  right. unfold save_base. cbn [Session.pk snd].
  eexists. eexists. split; [reflexivity|]. split; [reflexivity|].
  cbn. repeat split; try reflexivity; try assumption.
Qed.

Lemma trainer_schedule_only_for_clients_witness :
  let post := trainer_dashboard_views.mk_schedule_post
                (Some 1%nat) "2024-10-05" "10:00" (Some 20001) (Some 600)
                "personal" (Some 60) "" in
  let out := trainer_dashboard_views.trainer_schedule 3 post Ex.world in
  (Db.sessions (World.db out.2) = Db.sessions Ex.db /\
   Db.notifications (World.db out.2) = Db.notifications Ex.db) \/
  (exists x n,
     Db.sessions (World.db out.2) = Db.sessions Ex.db ++ [x] /\
     Db.notifications (World.db out.2) = Db.notifications Ex.db ++ [n] /\
     Session.pk x = Some 2%nat /\
     Session.trainer x = 2%nat /\
     Session.status x = "scheduled"%string /\
     Some (Session.customer x) = Some 1%nat /\
     Some (Session.session_date x) = Some 20001 /\
     Some (Session.session_time x) = Some 600 /\
     Notification.customer n = Session.customer x /\
     trains Ex.db 2 (Session.customer x)).
Proof.
  apply (trainer_schedule_only_for_clients Ex.world 3
           (trainer_dashboard_views.mk_schedule_post
              (Some 1%nat) "2024-10-05" "10:00" (Some 20001) (Some 600)
              "personal" (Some 60) "")
           (Trainer.mk 2 12 "Main Street 2" true)).
  reflexivity.
Defined.

Lemma session_of_inv (d : Db.t) (t : Trainer.t) (sid : nat) (x : Session.t) :
  In x (trainer_dashboard_views.session_of d t sid) ->
  In x (Db.sessions d) /\ Session.pk x = Some sid /\ Session.trainer x = Trainer.id t.
Proof.
  unfold trainer_dashboard_views.session_of. rewrite filter_in, andb_true_iff.
  intros [Hin [Hpk Htr]]. apply bool_decide_eq_true in Hpk. apply Nat.eqb_eq in Htr. auto.
Qed.

(** Saving a changed copy of a stored session of [t]: the table is as
    before, or the row of that key carries the change; the sessions of the
    other trainers are as before. *)
Lemma Session_save_own (t : Trainer.t) (old x : Session.t) (sid : nat) (w : World.t) :
  NoDup (map Session.pk (Db.sessions (World.db w))) ->
  In old (Db.sessions (World.db w)) ->
  Session.pk old = Some sid -> Session.trainer old = Trainer.id t ->
  Session.pk x = Some sid -> Session.trainer x = Trainer.id t ->
  let out := models.Session_save x w in
  (out.2 = w \/
   World.db out.2 =
     Db.set_sessions
       (map (fun row => if has_pk Session.pk sid row then x else row)
            (Db.sessions (World.db w)))
       (World.db w)) /\
  sessions_of_others t (World.db out.2) = sessions_of_others t (World.db w).
Proof.
  intros Hnd Hin Hold Holdt Hx Hxt out. subst out.
  unfold models.Session_save, save_checked.
  destruct (existsb _ _); cbn [snd]; [split; [left|]; reflexivity|].
  unfold save_base. rewrite Hx.
  replace (existsb (has_pk Session.pk sid) (Db.sessions (World.db w))) with true.
  2:{ symmetry. apply existsb_exists. exists old. split; [exact Hin|].
      unfold has_pk. apply bool_decide_eq_true. exact Hold. }
  cbn [snd World.db World.set_db]. split; [right; reflexivity|].
  unfold sessions_of_others. cbn [Db.sessions Db.set_sessions].
  apply (filter_map_replace
           (fun x0 => negb (Nat.eqb (Session.trainer x0) (Trainer.id t)))).
  - cbn. rewrite Hxt, Nat.eqb_refl. reflexivity.
  - intros row Hrow Hpk. unfold has_pk in Hpk. apply bool_decide_eq_true in Hpk.
    rewrite (NoDup_map_inj Session.pk _ row old Hnd Hrow Hin) by congruence.
    rewrite Holdt, Nat.eqb_refl. reflexivity.
Qed.

(** X11. [update_session_status] and [add_session_notes] reach only the
    sessions of the trainer who is logged in: the sessions of every other
    trainer stay as they were, whatever id is asked for; the row that is
    changed belongs to the trainer and changes in its status (to one of
    ['scheduled'], ['confirmed'], ['completed'], ['cancelled'], never to
    ['no_show']) or in its trainer notes alone. Primary keys are taken to
    be unique. A user who is not a verified trainer changes nothing. *)
Theorem session_updates_own_sessions_only (w : World.t) (user session_id : nat)
    (body : option (option string)) :
  NoDup (map Session.pk (Db.sessions (World.db w))) ->
  let status_out := trainer_dashboard_views.update_session_status user session_id body w in
  let notes_out := trainer_dashboard_views.add_session_notes user session_id body w in
  (forall r, trainer_dashboard_views.get_trainer_or_redirect (World.db w) user = inr r ->
     status_out.2 = w /\ notes_out.2 = w) /\
  (forall t, trainer_dashboard_views.get_trainer_or_redirect (World.db w) user = inl t ->
     sessions_of_others t (World.db status_out.2) = sessions_of_others t (World.db w) /\
     sessions_of_others t (World.db notes_out.2) = sessions_of_others t (World.db w) /\
     (Db.sessions (World.db status_out.2) = Db.sessions (World.db w) \/
      exists old status,
        In old (Db.sessions (World.db w)) /\ Session.trainer old = Trainer.id t /\
        In status ["scheduled"; "confirmed"; "completed"; "cancelled"]%string /\
        Db.sessions (World.db status_out.2) =
          map (fun row => if has_pk Session.pk session_id row
                          then Session.set_status status old else row)
              (Db.sessions (World.db w))) /\
     (Db.sessions (World.db notes_out.2) = Db.sessions (World.db w) \/
      exists old notes,
        In old (Db.sessions (World.db w)) /\ Session.trainer old = Trainer.id t /\
        Db.sessions (World.db notes_out.2) =
          map (fun row => if has_pk Session.pk session_id row
                          then Session.set_trainer_notes notes old else row)
              (Db.sessions (World.db w)))).
Proof.
  intros Hnd status_out notes_out. split.
  - intros r Hr. subst status_out notes_out.
    unfold trainer_dashboard_views.update_session_status,
      trainer_dashboard_views.add_session_notes.
    run_view. rewrite Hr. split; reflexivity.
  - intros t Ht.
    assert (Hstatus :
      sessions_of_others t (World.db status_out.2) = sessions_of_others t (World.db w) /\
      (Db.sessions (World.db status_out.2) = Db.sessions (World.db w) \/
       exists old status,
         In old (Db.sessions (World.db w)) /\ Session.trainer old = Trainer.id t /\
         In status ["scheduled"; "confirmed"; "completed"; "cancelled"]%string /\
         Db.sessions (World.db status_out.2) =
           map (fun row => if has_pk Session.pk session_id row
                           then Session.set_status status old else row)
               (Db.sessions (World.db w)))).
    { subst status_out. unfold trainer_dashboard_views.update_session_status.
      run_view. rewrite Ht. unfold trainer_dashboard_views.parsed.
      destruct body as [data|]; run_view; [|split; [|left]; reflexivity].
      destruct data as [st|]; cbn [negb]; [|split; [|left]; reflexivity].
      destruct (String.eqb st "scheduled" || String.eqb st "confirmed"
                || String.eqb st "completed" || String.eqb st "cancelled") eqn:Hvalid;
        cbn [negb]; [|split; [|left]; reflexivity].
      assert (Hst : In st ["scheduled"; "confirmed"; "completed"; "cancelled"]%string).
      { rewrite !orb_true_iff, !String.eqb_eq in Hvalid. cbn.
        destruct Hvalid as [[[->| ->]| ->]| ->]; auto 10. }
      destruct (trainer_dashboard_views.session_of (World.db w) t session_id)
        as [|old [|old' rest]] eqn:Hfound;
        cbn [objects_get exn_class_of]; run_view; [split; [|left]; reflexivity| |split; [|left]; reflexivity].
      destruct (session_of_inv (World.db w) t session_id old) as (Hin & Hpk & Htr);
        [rewrite Hfound; left; reflexivity|].
      change (default ""%string (Some st)) with st.
      destruct (Session_save_own t old (Session.set_status st old) session_id w
                  Hnd Hin Hpk Htr Hpk Htr) as [Hcase Hothers].
      destruct (models.Session_save (Session.set_status st old) w) as [[saved|e] w1];
        cbn [fst snd] in *; run_view; unfold sessions_of_others in *;
        cbn [fst snd World.db World.set_db Db.sessions Db.set_notifications] in *.
      - split; [exact Hothers|].
        destruct Hcase as [-> | Hdb]; [left; reflexivity|].
        right. exists old, st. rewrite Hdb. auto.
      - split; [exact Hothers|].
        destruct Hcase as [-> | Hdb]; [left; reflexivity|].
        right. exists old, st. rewrite Hdb. auto. }
    assert (Hnotes :
      sessions_of_others t (World.db notes_out.2) = sessions_of_others t (World.db w) /\
      (Db.sessions (World.db notes_out.2) = Db.sessions (World.db w) \/
       exists old notes,
         In old (Db.sessions (World.db w)) /\ Session.trainer old = Trainer.id t /\
         Db.sessions (World.db notes_out.2) =
           map (fun row => if has_pk Session.pk session_id row
                           then Session.set_trainer_notes notes old else row)
               (Db.sessions (World.db w)))).
    { subst notes_out. unfold trainer_dashboard_views.add_session_notes.
      run_view. rewrite Ht. unfold trainer_dashboard_views.parsed.
      destruct body as [data|]; run_view; [|split; [|left]; reflexivity].
      destruct (trainer_dashboard_views.session_of (World.db w) t session_id)
        as [|old [|old' rest]] eqn:Hfound;
        cbn [objects_get exn_class_of]; run_view; [split; [|left]; reflexivity| |split; [|left]; reflexivity].
      destruct (session_of_inv (World.db w) t session_id old) as (Hin & Hpk & Htr);
        [rewrite Hfound; left; reflexivity|].
      destruct (Session_save_own t old
                  (Session.set_trainer_notes (default ""%string data) old) session_id w
                  Hnd Hin Hpk Htr Hpk Htr) as [Hcase Hothers].
      destruct (models.Session_save _ w) as [[saved|e] w1];
        cbn [fst snd] in *; run_view; unfold sessions_of_others in *;
        cbn [fst snd World.db World.set_db Db.sessions Db.set_notifications] in *.
      - split; [exact Hothers|].
        destruct Hcase as [-> | Hdb]; [left; reflexivity|].
        right. exists old, (default ""%string data). rewrite Hdb. auto.
      - split; [exact Hothers|].
        destruct Hcase as [-> | Hdb]; [left; reflexivity|].
        right. exists old, (default ""%string data). rewrite Hdb. auto. }
    tauto.
Qed.

Lemma session_updates_own_sessions_only_witness :
  let carol := Trainer.mk 2 12 "Main Street 2" true in
  let status_out :=
    trainer_dashboard_views.update_session_status 3 1 (Some (Some "cancelled"%string))
      Ex.world in
  sessions_of_others carol (World.db status_out.2) = sessions_of_others carol Ex.db /\
  (trainer_dashboard_views.update_session_status 1 1 (Some (Some "cancelled"%string))
     Ex.world).2 = Ex.world.
Proof.
  assert (Hnd : NoDup (map Session.pk (Db.sessions (World.db Ex.world))))
    by (apply (bool_decide_unpack _); vm_compute; exact I).
  pose proof (session_updates_own_sessions_only Ex.world 3 1
                (Some (Some "cancelled"%string)) Hnd) as H3.
  pose proof (session_updates_own_sessions_only Ex.world 1 1
                (Some (Some "cancelled"%string)) Hnd) as H1.
  cbv zeta in *. split.
  - apply (proj2 H3 (Trainer.mk 2 12 "Main Street 2" true) eq_refl).
  - apply (proj1 H1 (Redirect "login") eq_refl).
Defined.

(** ** Assignments made by the staff *)

Lemma assignment_of_inv (d : Db.t) (c : Customer.t) (a : TrainerAssignment.t) :
  In a (assignment_of d c) ->
  In a (Db.assignments d) /\ TrainerAssignment.customer a = Customer.id c.
Proof.
  unfold assignment_of. rewrite filter_in. intros [Hin Hc].
  apply Nat.eqb_eq in Hc. auto.
Qed.

(** [x.profile.user] reads the database and leaves the world alone. *)
Lemma profile_user_state (profile_id : nat) (w : World.t) :
  (admin_views.profile_user profile_id w).2 = w.
Proof.
  unfold admin_views.profile_user.
  destruct (objects_get _) as [p|e]; [|reflexivity].
  destruct (objects_get _); reflexivity.
Qed.

(** Inserting an assignment: the database refuses it when the customer
    has a row already, and appends it, numbered, otherwise. *)
Lemma TrainerAssignment_save_new (a : TrainerAssignment.t) (w : World.t) :
  TrainerAssignment.pk a = None ->
  Forall (fun r => TrainerAssignment.pk r <> None) (Db.assignments (World.db w)) ->
  let a' := TrainerAssignment.set_pk
              (Some (fresh_pk TrainerAssignment.pk (Db.assignments (World.db w)))) a in
  (existsb (fun r => Nat.eqb (TrainerAssignment.customer a) (TrainerAssignment.customer r))
           (Db.assignments (World.db w)) = true /\
   models.TrainerAssignment_save a w =
     (Raise (Exn IntegrityError
               "UNIQUE constraint failed: accounts_trainerassignment.customer_id"), w)) \/
  (existsb (fun r => Nat.eqb (TrainerAssignment.customer a) (TrainerAssignment.customer r))
           (Db.assignments (World.db w)) = false /\
   models.TrainerAssignment_save a w =
     (Ok a', World.set_db (Db.set_assignments (Db.assignments (World.db w) ++ [a'])
                             (World.db w)) w)).
Proof.
  intros Hpk Hsome a'. unfold models.TrainerAssignment_save, save_checked.
  assert (Heq : existsb (fun row => Nat.eqb (TrainerAssignment.customer a)
                                            (TrainerAssignment.customer row)
                           && negb (bool_decide (TrainerAssignment.pk row
                                                 = TrainerAssignment.pk a)))
                  (Db.assignments (World.db w))
                = existsb (fun r => Nat.eqb (TrainerAssignment.customer a)
                                            (TrainerAssignment.customer r))
                    (Db.assignments (World.db w))).
  { induction (Db.assignments (World.db w)) as [|r rows IH]; [reflexivity|].
    apply Forall_cons in Hsome as [Hr Hrows]. cbn [existsb]. rewrite (IH Hrows).
    rewrite Hpk, bool_decide_eq_false_2 by exact Hr. cbn [negb]. rewrite andb_true_r.
    reflexivity. }
  rewrite Heq. clear Heq. destruct (existsb _ _).
  - left. split; reflexivity.
  - right. split; [reflexivity|]. unfold save_base. rewrite Hpk. reflexivity.
Qed.

Section PreservesNotifications.
Context (Q : Db.t -> Prop).
Hypothesis Hframe : forall rows d, Q d -> Q (Db.set_notifications rows d).
Let P := fun w : World.t => Q (World.db w).

Lemma preserves_profile_user (profile_id : nat) :
  preserves P (admin_views.profile_user profile_id).
Proof. intros w Hw. rewrite profile_user_state. exact Hw. Qed.

Lemma preserves_send_assignment_notifications (c : Customer.t) (t : Trainer.t) :
  preserves P (admin_views.send_assignment_notifications c t).
Proof.
  unfold admin_views.send_assignment_notifications.
  repeat first
    [ apply preserves_ret
    | apply preserves_profile_user
    | apply (preserves_send_mail Q)
    | apply (preserves_Notification_create Q); exact Hframe
    | apply preserves_bind; [|intros] ].
Qed.

Lemma preserves_AdminTrainerAssignmentView_notifications (c : Customer.t) (t : Trainer.t) :
  preserves P (admin_views.AdminTrainerAssignmentView_send_assignment_notifications c t).
Proof.
  unfold admin_views.AdminTrainerAssignmentView_send_assignment_notifications.
  repeat first
    [ apply preserves_ret
    | apply preserves_profile_user
    | apply (preserves_send_mail Q)
    | apply (preserves_Notification_create Q); exact Hframe
    | apply preserves_bind; [|intros] ].
Qed.

End PreservesNotifications.

(** X12. [AdminTrainerAssignmentView.post] cannot give a new trainer to a
    customer who has an assignment row: it first writes the old row back
    as inactive, then tries to insert a second row for the same customer,
    which the one-to-one column refuses. The request ends in
    [IntegrityError] with the customer's assignment deactivated and no
    notification, mail or message sent. For a customer without a row the
    insertion goes through: one active row for the chosen verified
    trainer is appended. *)
Theorem admin_assignment_post (w : World.t) (customer_id trainer_id : nat) (notes : string)
    (customer : Customer.t) (trainer : Trainer.t) :
  filter (fun c => Nat.eqb (Customer.id c) customer_id) (Db.customers (World.db w))
    = [customer] ->
  admin_views.AdminTrainerAssignmentView_has_personal_training_subscription
    (World.db w) customer = true ->
  filter (fun t => Nat.eqb (Trainer.id t) trainer_id)
         (admin_views.verified_trainers (World.db w)) = [trainer] ->
  assignments_ok (World.db w) ->
  let out := admin_views.AdminTrainerAssignmentView_post customer_id (Some trainer_id)
               notes w in
  (forall existing k,
     assignment_of (World.db w) customer = [existing] ->
     TrainerAssignment.pk existing = Some k ->
     out.1 = Raise (Exn IntegrityError
                      "UNIQUE constraint failed: accounts_trainerassignment.customer_id") /\
     Db.assignments (World.db out.2) =
       map (fun row => if has_pk TrainerAssignment.pk k row
                       then TrainerAssignment.set_is_active false existing else row)
           (Db.assignments (World.db w)) /\
     Db.notifications (World.db out.2) = Db.notifications (World.db w) /\
     World.outbox out.2 = World.outbox w /\
     World.flash out.2 = World.flash w) /\
  (assignment_of (World.db w) customer = [] ->
     Db.assignments (World.db out.2) =
       Db.assignments (World.db w) ++
       [TrainerAssignment.mk
          (Some (fresh_pk TrainerAssignment.pk (Db.assignments (World.db w))))
          (Customer.id customer) (Trainer.id trainer)
          (World.clock w (World.tick w)) true notes]).
Proof.
  intros Hcust Hsub Htrainer Hok out. subst out.
  unfold admin_views.AdminTrainerAssignmentView_post.
  split.
  - run_view. rewrite Hcust. cbn [objects_get]. rewrite Hsub. cbn [negb].
    unfold admin_views.TrainerAssignmentForm. rewrite Htrainer. cbn [objects_get].
    run_view.
    intros existing k Hex Hk. rewrite Hex. cbn [objects_get].
    destruct (assignment_of_inv (World.db w) customer existing) as [Hin Hc];
      [rewrite Hex; left; reflexivity|].
    unfold timezone_now. run_view.
    set (w1 := World.set_tick (S (World.tick w)) w).
    (* the old row is written back *)
    assert (Hsave1 : models.TrainerAssignment_save
                       (TrainerAssignment.set_is_active false existing) w1
              = (Ok (TrainerAssignment.set_is_active false existing),
                 World.set_db
                   (Db.set_assignments
                      (map (fun row => if has_pk TrainerAssignment.pk k row
                                       then TrainerAssignment.set_is_active false existing
                                       else row)
                           (Db.assignments (World.db w))) (World.db w)) w1)).
    { unfold models.TrainerAssignment_save. rewrite save_checked_ok.
      - unfold save_base. cbn [TrainerAssignment.pk TrainerAssignment.set_is_active].
        rewrite Hk.
        replace (existsb (has_pk TrainerAssignment.pk k) (Db.assignments (World.db w1)))
          with true; [reflexivity|].
        symmetry. apply existsb_exists. exists existing. split; [exact Hin|].
        unfold has_pk. apply bool_decide_eq_true. exact Hk.
      - intros row Hrow Hclash. apply Nat.eqb_eq in Hclash. cbn in Hclash.
        destruct Hok as (Hkeys & _).
        rewrite (NoDup_map_inj TrainerAssignment.customer _ row existing Hkeys Hrow Hin)
          by congruence.
        reflexivity. }
    rewrite Hsave1. run_view. unfold timezone_now. run_view.
    (* the new row is refused *)
    unfold models.TrainerAssignment_save, save_checked.
    cbn [World.db World.set_db World.set_tick w1 Db.assignments Db.set_assignments
         TrainerAssignment.customer TrainerAssignment.pk].
    replace (existsb _ _) with true.
    + cbn [fst snd World.db World.set_db World.set_tick Db.assignments Db.set_assignments
           Db.notifications World.outbox World.flash].
      repeat split.
    + symmetry. apply existsb_exists.
      exists (TrainerAssignment.set_is_active false existing). split.
      * apply in_map_iff. exists existing. split; [|exact Hin].
        unfold has_pk. rewrite bool_decide_eq_true_2 by exact Hk. reflexivity.
      * cbn. rewrite Hc, Nat.eqb_refl, Hk. reflexivity.
  - intros Hnone.
    rewrite (bind_ok get_db _ w w (World.db w) eq_refl).
    erewrite bind_ok by (unfold get_object_or_404; rewrite Hcust; reflexivity).
    rewrite Hsub. cbn [negb].
    erewrite bind_ok
      by (unfold admin_views.TrainerAssignmentForm; rewrite Htrainer; reflexivity).
    cbv beta iota.
    erewrite bind_ok by (unfold related_or_none; rewrite Hnone; reflexivity).
    erewrite bind_ok by reflexivity.
    erewrite bind_ok by reflexivity.
    set (w1 := World.set_tick (S (World.tick w)) w).
    set (a := TrainerAssignment.mk None _ _ _ _ _).
    destruct Hok as (_ & _ & Hsome).
    destruct (TrainerAssignment_save_new a w1 eq_refl) as [[Hex _]|[_ Hrun]];
      [exact Hsome | |].
    + exfalso. apply existsb_exists in Hex as (row & Hrow & Hrc).
      apply Nat.eqb_eq in Hrc. cbn in Hrc.
      assert (Hin : In row (assignment_of (World.db w) customer)).
      { unfold assignment_of. apply filter_in. split; [exact Hrow|].
        apply Nat.eqb_eq. congruence. }
      rewrite Hnone in Hin. exact Hin.
    + rewrite (bind_ok _ _ _ _ _ Hrun).
      match goal with
      | |- Db.assignments (World.db (?m ?x).2) = _ =>
          set (Q := fun d : Db.t => Db.assignments d = Db.assignments (World.db x));
          assert (Hkeep : preserves (fun w' => Q (World.db w')) m);
            [|rewrite (Hkeep x eq_refl); subst a w1; reflexivity]
      end.
      assert (HQ : forall rows d, Q d -> Q (Db.set_notifications rows d))
        by (intros rows [] Hd; exact Hd).
      repeat first
        [ apply preserves_ret
        | apply (preserves_profile_user Q)
        | apply (preserves_AdminTrainerAssignmentView_notifications Q HQ)
        | apply (preserves_messages_add Q)
        | apply preserves_bind; [|intros] ].
Qed.

(** Alice is trained by Carol; asking for Carol again leaves Alice with
    no active trainer. Had Alice no assignment row, she would get one. *)
Lemma admin_assignment_post_witness :
  let out := admin_views.AdminTrainerAssignmentView_post 1 (Some 2%nat) "again" Ex.world in
  let fresh := World.set_db (Db.set_assignments [] Ex.db) Ex.world in
  (out.1 = Raise (Exn IntegrityError
                    "UNIQUE constraint failed: accounts_trainerassignment.customer_id") /\
   Db.assignments (World.db out.2) = [TrainerAssignment.mk (Some 1%nat) 1 2 0 false ""] /\
   Db.notifications (World.db out.2) = [] /\
   World.outbox out.2 = [] /\
   World.flash out.2 = []) /\
  Db.assignments
    (World.db (admin_views.AdminTrainerAssignmentView_post 1 (Some 2%nat) "first" fresh).2)
  = [TrainerAssignment.mk (Some 1%nat) 1 2 (3600 * Time.US_PER_SECOND) true "first"].
Proof.
  cbv zeta. split.
  - apply (proj1 (admin_assignment_post Ex.world 1 2 "again" Ex.alice
                    (Trainer.mk 2 12 "Main Street 2" true) eq_refl eq_refl eq_refl
                    ltac:(unfold assignments_ok; table_ok_tac))
             (TrainerAssignment.mk (Some 1%nat) 1 2 0 true "") 1%nat);
      reflexivity.
  - apply (proj2 (admin_assignment_post
                    (World.set_db (Db.set_assignments [] Ex.db) Ex.world) 1 2 "first" Ex.alice
                    (Trainer.mk 2 12 "Main Street 2" true) eq_refl eq_refl eq_refl
                    ltac:(unfold assignments_ok; table_ok_tac))).
    reflexivity.
Defined.

(** ** Bulk assignment *)

Lemma actively_assigned_run (c : Customer.t) (w : World.t) :
  exists r, admin_views.actively_assigned c w = (r, w).
Proof.
  unfold admin_views.actively_assigned. run_view.
  destruct (objects_get _) as [a|e]; [eexists; reflexivity|].
  destruct (exn_class_of e); eexists; reflexivity.
Qed.

Lemma notes_or_dated_run (notes label : string) (w : World.t) :
  exists s w', admin_views.notes_or_dated notes label w = (Ok s, w') /\
    World.db w' = World.db w.
Proof.
  unfold admin_views.notes_or_dated. destruct (negb _).
  - exists notes, w. split; reflexivity.
  - eexists. eexists. split; reflexivity.
Qed.

Lemma TrainerAssignment_save_insert (a : TrainerAssignment.t) (w : World.t) :
  TrainerAssignment.pk a = None ->
  let a' := TrainerAssignment.set_pk
              (Some (fresh_pk TrainerAssignment.pk (Db.assignments (World.db w)))) a in
  (exists e, models.TrainerAssignment_save a w = (Raise e, w)) \/
  models.TrainerAssignment_save a w =
    (Ok a', World.set_db (Db.set_assignments (Db.assignments (World.db w) ++ [a'])
                            (World.db w)) w).
Proof.
  intros Hpk a'. unfold models.TrainerAssignment_save, save_checked.
  destruct (existsb _ _); [left; eexists; reflexivity|].
  right. unfold save_base. rewrite Hpk. reflexivity.
Qed.

Lemma send_assignment_notifications_frame (c : Customer.t) (t : Trainer.t) (w : World.t) :
  Db.assignments (World.db (admin_views.send_assignment_notifications c t w).2)
    = Db.assignments (World.db w) /\
  Db.trainers (World.db (admin_views.send_assignment_notifications c t w).2)
    = Db.trainers (World.db w).
Proof.
  set (Q := fun d : Db.t => Db.assignments d = Db.assignments (World.db w) /\
                            Db.trainers d = Db.trainers (World.db w)).
  apply (preserves_send_assignment_notifications Q); [|split; reflexivity].
  intros rows [] Hd. exact Hd.
Qed.

Lemma assignment_count_snoc (d : Db.t) (a : TrainerAssignment.t) (t : Trainer.t) :
  dashboard_views.assignment_count
    (Db.set_assignments (Db.assignments d ++ [a]) d) t
  = (dashboard_views.assignment_count d t
     + (if Nat.eqb (TrainerAssignment.trainer a) (Trainer.id t) && TrainerAssignment.is_active a
        then 1 else 0))%nat.
Proof.
  unfold dashboard_views.assignment_count. cbn [Db.assignments Db.set_assignments].
  rewrite filter_app, length_app. f_equal.
  rewrite filter_cons, filter_nil.
  destruct (Nat.eqb _ _ && _); [rewrite decide_True by exact I|rewrite decide_False by (intros [])];
    reflexivity.
Qed.

Lemma assignment_count_ext (d d' : Db.t) (t : Trainer.t) :
  Db.assignments d' = Db.assignments d ->
  dashboard_views.assignment_count d' t = dashboard_views.assignment_count d t.
Proof. intros H. unfold dashboard_views.assignment_count. rewrite H. reflexivity. Qed.

Lemma assignment_count_id (d : Db.t) (t1 t2 : Trainer.t) :
  Trainer.id t1 = Trainer.id t2 ->
  dashboard_views.assignment_count d t1 = dashboard_views.assignment_count d t2.
Proof. intros H. unfold dashboard_views.assignment_count. rewrite H. reflexivity. Qed.

Lemma balanced_ext (k : nat) (trainers : list Trainer.t) (d d' : Db.t) :
  Db.assignments d' = Db.assignments d -> balanced k trainers d -> balanced k trainers d'.
Proof.
  intros H Hb t1 t2 H1 H2. rewrite !(assignment_count_ext d d') by exact H.
  apply Hb; assumption.
Qed.

(** Giving one more client to a trainer of least workload keeps the
    workloads within [k] of one another, for [k] at least 1. *)
Lemma balanced_step (k : nat) (trainers : list Trainer.t) (d : Db.t)
    (a : TrainerAssignment.t) (sel : Trainer.t) :
  (1 <= k)%nat -> balanced k trainers d ->
  (forall x, In x trainers ->
     (dashboard_views.assignment_count d sel <= dashboard_views.assignment_count d x)%nat) ->
  TrainerAssignment.trainer a = Trainer.id sel ->
  balanced k trainers (Db.set_assignments (Db.assignments d ++ [a]) d).
Proof.
  intros Hk Hb Hmin Hsel t1 t2 H1 H2. rewrite !assignment_count_snoc, Hsel.
  specialize (Hb t1 t2 H1 H2). pose proof (Hmin t2 H2) as Hm2.
  destruct (Nat.eqb (Trainer.id sel) (Trainer.id t1)) eqn:E1.
  - apply Nat.eqb_eq in E1. rewrite <- (assignment_count_id d sel t1 E1).
    destruct (TrainerAssignment.is_active a);
      destruct (Nat.eqb (Trainer.id sel) (Trainer.id t2)); cbn [andb]; cbv iota; lia.
  - destruct (TrainerAssignment.is_active a);
      destruct (Nat.eqb (Trainer.id sel) (Trainer.id t2)); cbn [andb]; cbv iota; lia.
Qed.

Lemma selected_least (d : Db.t) (trainers : list Trainer.t) (first : Trainer.t) :
  In first trainers ->
  let sel := default first (head (order_by (dashboard_views.assignment_count d) trainers)) in
  In sel trainers /\
  forall x, In x trainers ->
    (dashboard_views.assignment_count d sel <= dashboard_views.assignment_count d x)%nat.
Proof.
  intros Hfirst sel. subst sel.
  destruct (head (order_by _ trainers)) as [t|] eqn:Hhead.
  - apply order_by_first in Hhead as (l1 & l2 & Hl & Hlt & Hle).
    change (default first (Some t)) with t.
    split; [rewrite Hl; apply in_or_app; right; left; reflexivity|].
    intros x Hx. rewrite Hl in Hx. apply in_app_or in Hx as [Hx|[<-|Hx]].
    + rewrite Forall_forall in Hlt. specialize (Hlt x). rewrite list_elem_of_In in Hlt.
      specialize (Hlt Hx). cbv beta in Hlt. lia.
    + lia.
    + rewrite Forall_forall in Hle. specialize (Hle x). rewrite list_elem_of_In in Hle.
      specialize (Hle Hx). cbv beta in Hle. lia.
  - apply order_by_nil in Hhead. subst trainers. destruct Hfirst.
Qed.

(** The loop of [auto_assign_trainers], whether it returns or raises:
    rows are only appended, each an active assignment of a listed customer
    to a listed trainer; the count returned is the number of rows; the
    balance of the workloads is kept. *)
Lemma auto_assign_trainers_loop_spec (trainers : list Trainer.t) (first : Trainer.t)
    (notes : string) :
  In first trainers ->
  forall (customers : list Customer.t) (n : nat) (w : World.t),
  let out := admin_views.auto_assign_trainers_loop trainers first notes customers n w in
  exists added,
    Db.assignments (World.db out.2) = Db.assignments (World.db w) ++ added /\
    Db.trainers (World.db out.2) = Db.trainers (World.db w) /\
    Forall (added_by customers trainers) added /\
    (forall m, out.1 = Ok m -> m = (n + length added)%nat) /\
    (forall k, (1 <= k)%nat -> balanced k trainers (World.db w) ->
               balanced k trainers (World.db out.2)).
Proof.
  intros Hfirst customers.
  induction customers as [|c customers IH]; intros n w out; subst out.
  - exists []. cbn. rewrite app_nil_r. repeat split; try constructor.
    + intros m [= <-]. lia.
    + auto.
  - cbn [admin_views.auto_assign_trainers_loop].
    assert (Hweaken : forall added,
              Forall (added_by customers trainers) added ->
              Forall (added_by (c :: customers) trainers) added).
    { intros added Hadded. eapply Forall_impl; [exact Hadded|].
      intros a (Ha & (c' & Hc' & Hac) & Ht).
      split; [exact Ha|]. split; [exists c'; split; [right; exact Hc'|exact Hac]|exact Ht]. }
    destruct (actively_assigned_run c w) as ([skip|e] & Hskip).
    2:{ unfold mbind, M_bind. rewrite Hskip. exists []. cbn. rewrite app_nil_r.
        repeat split; try constructor; [discriminate|auto]. }
    rewrite (bind_ok _ _ _ _ _ Hskip). destruct skip.
    { destruct (IH n w) as (added & Ha & Ht & Hall & Hn & Hb).
      exists added. repeat split; auto. }
    rewrite (bind_ok get_db _ w w (World.db w) eq_refl).
    destruct (selected_least (World.db w) trainers first Hfirst) as [Hsel Hmin].
    set (sel := default first _) in *.
    rewrite (bind_ok timezone_now _ w (World.set_tick (S (World.tick w)) w) _ eq_refl).
    set (w1 := World.set_tick (S (World.tick w)) w).
    destruct (notes_or_dated_run notes "Auto-assigned" w1) as (notes' & w2 & Hnotes & Hdb2).
    rewrite (bind_ok _ _ _ _ _ Hnotes).
    set (a := TrainerAssignment.mk None _ _ _ _ _).
    assert (Hdbw : World.db w2 = World.db w) by (rewrite Hdb2; reflexivity).
    destruct (TrainerAssignment_save_insert a w2 eq_refl) as [[e Hsave]|Hsave].
    { unfold mbind, M_bind. rewrite Hsave. cbn [fst snd]. rewrite Hdbw.
      exists []. rewrite app_nil_r. repeat split; try constructor; [discriminate|auto]. }
    rewrite (bind_ok _ _ _ _ _ Hsave).
    set (a' := TrainerAssignment.set_pk _ a) in *.
    set (w3 := World.set_db _ w2) in *.
    assert (Hgood : added_by (c :: customers) trainers a').
    { split; [reflexivity|]. split.
      - exists c. split; [left; reflexivity|reflexivity].
      - exists sel. split; [exact Hsel|reflexivity]. }
    assert (Ha3 : Db.assignments (World.db w3) = Db.assignments (World.db w) ++ [a']).
    { subst w3. cbn [World.db World.set_db Db.assignments Db.set_assignments].
      rewrite Hdbw. reflexivity. }
    assert (Ht3 : Db.trainers (World.db w3) = Db.trainers (World.db w)).
    { subst w3. cbn [World.db World.set_db Db.trainers Db.set_assignments].
      rewrite Hdbw. reflexivity. }
    assert (Hb3 : forall k, (1 <= k)%nat -> balanced k trainers (World.db w) ->
                            balanced k trainers (World.db w3)).
    { intros k Hk Hb.
      apply (balanced_ext k trainers
               (Db.set_assignments (Db.assignments (World.db w) ++ [a']) (World.db w))).
      - rewrite Ha3. reflexivity.
      - apply (balanced_step k trainers (World.db w) a' sel Hk Hb Hmin). reflexivity. }
    destruct (send_assignment_notifications_frame c sel w3) as [Ha4 Ht4].
    destruct (admin_views.send_assignment_notifications c sel w3) as [[[]|e] w4] eqn:Hsend;
      cbn [snd] in Ha4, Ht4.
    2:{ unfold mbind, M_bind. rewrite Hsend. cbn [fst snd].
        exists [a']. rewrite Ha4, Ht4, Ha3, Ht3.
        repeat split; [constructor; [exact Hgood|constructor] | discriminate |].
        intros k Hk Hb. apply (balanced_ext k trainers (World.db w3)); [exact Ha4|].
        apply Hb3; assumption. }
    rewrite (bind_ok _ _ _ _ _ Hsend).
    destruct (IH (S n) w4) as (added & Ha & Ht & Hall & Hn & Hb).
    exists (a' :: added). rewrite Ha, Ht, Ha4, Ht4, Ha3, Ht3.
    rewrite <- app_assoc. repeat split.
    + constructor; [exact Hgood|apply Hweaken; exact Hall].
    + intros m Hm. rewrite (Hn m Hm). cbn [length]. lia.
    + intros k Hk Hbal. apply Hb; [exact Hk|].
      apply (balanced_ext k trainers (World.db w3)); [exact Ha4|].
      apply Hb3; assumption.
Qed.

Lemma assign_to_specific_trainer_loop_spec (trainer : Trainer.t) (notes : string) :
  forall (customers : list Customer.t) (n : nat) (w : World.t),
  let out := admin_views.assign_to_specific_trainer_loop trainer notes customers n w in
  exists added,
    Db.assignments (World.db out.2) = Db.assignments (World.db w) ++ added /\
    Forall (added_by customers [trainer]) added /\
    (forall m, out.1 = Ok m -> m = (n + length added)%nat).
Proof.
  intros customers.
  induction customers as [|c customers IH]; intros n w out; subst out.
  - exists []. cbn. rewrite app_nil_r. repeat split; try constructor.
    intros m [= <-]. lia.
  - cbn [admin_views.assign_to_specific_trainer_loop].
    assert (Hweaken : forall added,
              Forall (added_by customers [trainer]) added ->
              Forall (added_by (c :: customers) [trainer]) added).
    { intros added Hadded. eapply Forall_impl; [exact Hadded|].
      intros a (Ha & (c' & Hc' & Hac) & Ht).
      split; [exact Ha|]. split; [exists c'; split; [right; exact Hc'|exact Hac]|exact Ht]. }
    destruct (actively_assigned_run c w) as ([skip|e] & Hskip).
    2:{ unfold mbind, M_bind. rewrite Hskip. exists []. cbn. rewrite app_nil_r.
        repeat split; try constructor. discriminate. }
    rewrite (bind_ok _ _ _ _ _ Hskip). destruct skip.
    { destruct (IH n w) as (added & Ha & Hall & Hn).
      exists added. repeat split; auto. }
    rewrite (bind_ok timezone_now _ w (World.set_tick (S (World.tick w)) w) _ eq_refl).
    set (w1 := World.set_tick (S (World.tick w)) w).
    destruct (notes_or_dated_run notes "Bulk assigned" w1) as (notes' & w2 & Hnotes & Hdb2).
    rewrite (bind_ok _ _ _ _ _ Hnotes).
    set (a := TrainerAssignment.mk None _ _ _ _ _).
    assert (Hdbw : World.db w2 = World.db w) by (rewrite Hdb2; reflexivity).
    destruct (TrainerAssignment_save_insert a w2 eq_refl) as [[e Hsave]|Hsave].
    { unfold mbind, M_bind. rewrite Hsave. cbn [fst snd]. rewrite Hdbw.
      exists []. rewrite app_nil_r. repeat split; try constructor. discriminate. }
    rewrite (bind_ok _ _ _ _ _ Hsave).
    set (a' := TrainerAssignment.set_pk _ a) in *.
    set (w3 := World.set_db _ w2) in *.
    assert (Hgood : added_by (c :: customers) [trainer] a').
    { split; [reflexivity|]. split.
      - exists c. split; [left; reflexivity|reflexivity].
      - exists trainer. split; [left; reflexivity|reflexivity]. }
    assert (Ha3 : Db.assignments (World.db w3) = Db.assignments (World.db w) ++ [a']).
    { subst w3. cbn [World.db World.set_db Db.assignments Db.set_assignments].
      rewrite Hdbw. reflexivity. }
    destruct (send_assignment_notifications_frame c trainer w3) as [Ha4 _].
    destruct (admin_views.send_assignment_notifications c trainer w3) as [[[]|e] w4] eqn:Hsend;
      cbn [snd] in Ha4.
    2:{ unfold mbind, M_bind. rewrite Hsend. cbn [fst snd].
        exists [a']. rewrite Ha4, Ha3.
        repeat split; [constructor; [exact Hgood|constructor] | discriminate]. }
    rewrite (bind_ok _ _ _ _ _ Hsend).
    destruct (IH (S n) w4) as (added & Ha & Hall & Hn).
    exists (a' :: added). rewrite Ha, Ha4, Ha3.
    rewrite <- app_assoc. repeat split.
    + constructor; [exact Hgood|apply Hweaken; exact Hall].
    + intros m Hm. rewrite (Hn m Hm). cbn [length]. lia.
Qed.

Lemma auto_assign_trainers_spec (customers : list Customer.t) (notes : string)
    (w : World.t) :
  let out := admin_views.auto_assign_trainers customers notes w in
  exists added,
    Db.assignments (World.db out.2) = Db.assignments (World.db w) ++ added /\
    Db.trainers (World.db out.2) = Db.trainers (World.db w) /\
    Forall (added_by customers (admin_views.verified_trainers (World.db w))) added /\
    (forall m, out.1 = Ok m -> m = length added) /\
    (forall k, (1 <= k)%nat ->
       balanced k (admin_views.verified_trainers (World.db w)) (World.db w) ->
       balanced k (admin_views.verified_trainers (World.db w)) (World.db out.2)).
Proof.
  cbv zeta. unfold admin_views.auto_assign_trainers.
  rewrite (bind_ok get_db _ w w (World.db w) eq_refl).
  destruct (admin_views.verified_trainers (World.db w)) as [|first rest] eqn:Htr.
  - exists []. cbn. rewrite app_nil_r. repeat split; try constructor.
    + intros m [= <-]. reflexivity.
    + auto.
  - destruct (auto_assign_trainers_loop_spec (first :: rest) first notes
                ltac:(left; reflexivity) customers O w)
      as (added & Ha & Ht & Hall & Hn & Hb).
    exists added. split; [exact Ha|]. split; [exact Ht|]. split; [exact Hall|].
    split; [intros m Hm; apply (Hn m Hm)|exact Hb].
Qed.

(** X13. [auto_assign_trainers] balances the load: when the numbers of
    active clients of the verified trainers lie within [k] of one another
    before the call, for some [k] of at least 1, they still do after it,
    and also when the call breaks off with an exception. Trainers that
    start out level end up at most one client apart. *)
Theorem auto_assign_trainers_keeps_balance (customers : list Customer.t)
    (notes : string) (w : World.t) (k : nat) :
  (1 <= k)%nat ->
  balanced k (admin_views.verified_trainers (World.db w)) (World.db w) ->
  let out := admin_views.auto_assign_trainers customers notes w in
  balanced k (admin_views.verified_trainers (World.db out.2)) (World.db out.2).
Proof.
  intros Hk Hb out.
  destruct (auto_assign_trainers_spec customers notes w) as (added & _ & Ht & _ & _ & Hbal).
  fold out in Ht, Hbal. unfold admin_views.verified_trainers in *. rewrite Ht.
  apply Hbal; assumption.
Qed.

(** X14. The bulk operations only add assignments.
    [auto_assign_trainers] and [assign_to_specific_trainer] leave every
    stored assignment as it is; each row they append is active, belongs to
    one of the customers passed in, and names a verified trainer, or the
    given one; and when they return, the number returned is the number of
    rows appended. *)
Theorem bulk_assignment_appends (customers : list Customer.t) (trainer : Trainer.t)
    (notes : string) (w : World.t) :
  let auto := admin_views.auto_assign_trainers customers notes w in
  let specific := admin_views.assign_to_specific_trainer customers trainer notes w in
  (exists added,
     Db.assignments (World.db auto.2) = Db.assignments (World.db w) ++ added /\
     Forall (added_by customers (admin_views.verified_trainers (World.db w))) added /\
     (forall n, auto.1 = Ok n -> n = length added)) /\
  (exists added,
     Db.assignments (World.db specific.2) = Db.assignments (World.db w) ++ added /\
     Forall (added_by customers [trainer]) added /\
     (forall n, specific.1 = Ok n -> n = length added)).
Proof.
  cbv zeta. split.
  - destruct (auto_assign_trainers_spec customers notes w) as (added & Ha & _ & Hall & Hn & _).
    exists added. auto.
  - unfold admin_views.assign_to_specific_trainer.
    destruct (assign_to_specific_trainer_loop_spec trainer notes customers O w)
      as (added & Ha & Hall & Hn).
    exists added. auto.
Qed.

(** Two verified trainers, one with Alice as a client and one with none:
    Bob goes to the one with none, and the loads stay within one. *)
Lemma auto_assign_trainers_keeps_balance_witness :
  let w := World.set_db
             (Db.set_trainers [Trainer.mk 1 11 "Main Street 1" true;
                               Trainer.mk 2 12 "Main Street 2" true] Ex.db) Ex.world in
  let out := admin_views.auto_assign_trainers [Ex.bob] "" w in
  balanced 1 (admin_views.verified_trainers (World.db out.2)) (World.db out.2).
Proof.
  cbv zeta. apply auto_assign_trainers_keeps_balance; [lia|].
  intros t1 t2 H1 H2. vm_compute in H1, H2.
  destruct H1 as [<-|[<-|[]]], H2 as [<-|[<-|[]]]; vm_compute; lia.
Defined.

Lemma personal_training_customers_inv (d : Db.t) (customer_ids : list nat) (c : Customer.t) :
  In c (admin_views.personal_training_customers d customer_ids) ->
  In c (Db.customers d) /\ In (Customer.id c) customer_ids /\
  exists sub, In sub (subscription_of d c) /\
    CustomerSubscription.is_active sub = true /\
    SubscriptionPlan.trainer_support (CustomerSubscription.plan sub) = true.
Proof.
  unfold admin_views.personal_training_customers. rewrite in_flat_map.
  intros (c0 & Hc0 & Hin). apply in_map_iff in Hin as (sub & <- & Hsub).
  apply filter_in in Hc0 as [Hc0 Hid]. apply bool_decide_eq_true in Hid.
  apply filter_in in Hsub as [Hsub Hp]. apply andb_true_iff in Hp as [Ha Hs].
  split; [exact Hc0|]. split; [apply list_elem_of_In; exact Hid|].
  exists sub. auto.
Qed.

Lemma bind_mret_state {A B : Type} (m : M A) (f : A -> B) (w : World.t) :
  ((m ≫= fun a => mret (f a)) w).2 = (m w).2.
Proof. unfold mbind, M_bind. destruct (m w) as [[a|e] w']; reflexivity. Qed.

Lemma bind_db_tail {A B : Type} (m : M A) (k : A -> M B) (w : World.t) :
  (forall a w', World.db (k a w').2 = World.db w') ->
  World.db ((m ≫= k) w).2 = World.db (m w).2.
Proof.
  intros Hk. unfold mbind, M_bind. destruct (m w) as [[a|e] w']; [apply Hk|reflexivity].
Qed.

(** X15. [bulk_assign_trainers_view] gives trainers only to the selected
    customers that hold an active subscription with trainer support, and
    only verified trainers: whatever is posted, the assignments that were
    stored stay as they are, and every row appended is active, is for one
    of the posted customer ids whose customer has such a subscription, and
    names a verified trainer, which under the method ['specific'] is the
    posted one. *)
Theorem bulk_assign_only_personal_training (method : http_method) (customer_ids : list nat)
    (assignment_method : option string) (specific_trainer : option nat) (notes : string)
    (w : World.t) :
  let out := admin_views.bulk_assign_trainers_view method customer_ids assignment_method
               specific_trainer notes w in
  exists added,
    Db.assignments (World.db out.2) = Db.assignments (World.db w) ++ added /\
    Forall (bulk_added (World.db w) customer_ids assignment_method specific_trainer) added.
Proof.
  cbv zeta.
  assert (Hnone : exists added,
            Db.assignments (World.db w) = Db.assignments (World.db w) ++ added /\
            Forall (bulk_added (World.db w) customer_ids assignment_method specific_trainer)
                   added).
  { exists []. rewrite app_nil_r. split; [reflexivity|constructor]. }
  assert (Hcustomer : forall a,
            (exists c, In c (admin_views.personal_training_customers (World.db w) customer_ids)
                       /\ TrainerAssignment.customer a = Customer.id c) ->
            In (TrainerAssignment.customer a) customer_ids /\
            personal_training (World.db w) (TrainerAssignment.customer a)).
  { intros a (c & Hc & Hac).
    apply personal_training_customers_inv in Hc as (Hin & Hid & sub & Hs & Hact & Hts).
    rewrite Hac. split; [exact Hid|]. exists c, sub. auto. }
  unfold admin_views.bulk_assign_trainers_view.
  destruct method; [exact Hnone|].
  rewrite (bind_ok get_db _ w w (World.db w) eq_refl).
  set (customers := admin_views.personal_training_customers (World.db w) customer_ids).
  rewrite bind_db_tail.
  2:{ intros [n|] w'; run_view; reflexivity. }
  destruct (bool_decide (assignment_method = Some "auto"%string)) eqn:Hauto.
  - (* auto *)
    apply bool_decide_eq_true in Hauto.
    rewrite (bind_mret_state (admin_views.auto_assign_trainers customers notes) Some w).
    destruct (auto_assign_trainers_spec customers notes w) as (added & Ha & _ & Hall & _ & _).
    exists added. split; [exact Ha|].
    eapply Forall_impl; [exact Hall|]. intros a (Hact & Hc & (t & Ht & Hat)).
    split; [exact Hact|]. destruct (Hcustomer a Hc) as [Hid Hpt].
    split; [exact Hid|]. split; [exact Hpt|].
    apply filter_in in Ht as [Ht Hv].
    exists t. repeat split; try assumption.
    intros Hspec. rewrite Hauto in Hspec. discriminate.
  - destruct specific_trainer as [pk|]; [|exact Hnone].
    destruct (bool_decide (assignment_method = Some "specific"%string)); [|exact Hnone].
    destruct (objects_get (filter (fun t => Nat.eqb (Trainer.id t) pk && Trainer.is_verified t)
                                  (Db.trainers (World.db w)))) as [trainer|e] eqn:Hget.
    2:{ unfold get_object_or_404, mbind, M_bind. rewrite Hget.
        destruct (exn_class_of e); exact Hnone. }
    assert (Htrainer : In trainer (Db.trainers (World.db w)) /\ Trainer.id trainer = pk /\
                       Trainer.is_verified trainer = true).
    { destruct (filter _ (Db.trainers (World.db w))) as [|t0 [|t1 rest]] eqn:Hf;
        try discriminate. injection Hget as <-.
      assert (Hin : In t0 (filter (fun t => Nat.eqb (Trainer.id t) pk && Trainer.is_verified t)
                             (Db.trainers (World.db w)))) by (rewrite Hf; left; reflexivity).
      apply filter_in in Hin as [Hin Hp]. apply andb_true_iff in Hp as [Hid Hv].
      apply Nat.eqb_eq in Hid. auto. }
    destruct Htrainer as (Htin & Htid & Htv).
    erewrite bind_ok by (unfold get_object_or_404; rewrite Hget; reflexivity).
    rewrite (bind_mret_state
               (admin_views.assign_to_specific_trainer customers trainer notes) Some w).
    destruct (assign_to_specific_trainer_loop_spec trainer notes customers O w)
      as (added & Ha & Hall & _).
    exists added. split; [exact Ha|].
    eapply Forall_impl; [exact Hall|]. intros a (Hact & Hc & (t & Ht & Hat)).
    split; [exact Hact|]. destruct (Hcustomer a Hc) as [Hid Hpt].
    split; [exact Hid|]. split; [exact Hpt|].
    destruct Ht as [<-|[]].
    exists trainer. repeat split; try assumption.
    intros _. rewrite Htid. reflexivity.
Qed.

(** ** Bulk assignment and customers whose assignment has ended *)







